(** * HPCL Intelligent Cost Database: orchestrator, API backend, dashboard loader

    A shallow embedding of [run_pipeline.py], [backend/api.py] and the data
    loader of [frontend/app_enhanced.py], with the properties of the
    orchestrator, of the ingestion, trigger and serving operations and of
    the dashboard loader that the specification states about them.

    Conventions of the embedding:
    - a Python script is a computation that emits events and either falls
      off its end or leaves through [sys.exit];
    - a block under [try] is a computation in an error monad ([result]);
    - the file system is a finite map from paths to files, a file being
      what [pandas.read_csv] makes of it;
    - Python's unbounded [int] is [Z]; [//] is [Z.div] (both round to
      minus infinity), with the division by zero raised explicitly;
    - the packages [ai_standardization] and [ai_analytics] that the
      orchestrator imports are not among the sources: the script is a
      function of the way its two blocks end, and what the blocks do is
      taken from the specification where a property needs it;
    - what [pandas] and [re] decide from data that a table of the model
      does not hold (whether the accessor [Series.str] takes a column,
      whether a text is a pattern) and the aggregations of [pandas] are
      parameters of the views that use them. *)

From Stdlib Require Import ZArith QArith Ascii String List Lia.
From stdpp Require Import base option list strings gmap.

Local Open Scope string_scope.
Local Open Scope list_scope.
Local Open Scope Z_scope.

Set Warnings "-register-all".

(** ** Shared vocabulary *)

(** The exceptions the modelled code meets. *)
Inductive exn :=
  | FileNotFoundError (path : string)
  | EmptyDataError
  | ParserError (msg : string)
  | KeyError (key : string)
  | ZeroDivisionError
  | TimeoutExpired
  | OSError (msg : string)
  | ValueError (msg : string)
  | AttributeError (msg : string)
  | PatternError (msg : string).   (* re.error *)

(** [str(e)] *)
Definition exn_str (e : exn) : string :=
  match e with
  | FileNotFoundError p => "[Errno 2] No such file or directory: '" +:+ p +:+ "'"
  | EmptyDataError => "No columns to parse from file"
  | ParserError m => m
  | KeyError k => "'" +:+ k +:+ "'"
  | ZeroDivisionError => "integer division or modulo by zero"
  | TimeoutExpired => "Command timed out"
  | OSError m => m
  | ValueError m => m
  | AttributeError m => m
  | PatternError m => m
  end.

(** The body of a [try] block: a value, or a raised exception. *)
Inductive result (A : Type) :=
  | Ok (a : A)
  | Raise (e : exn).
Arguments Ok {A} a.
Arguments Raise {A} e.

#[global] Instance result_ret : MRet result := fun A a => Ok a.
#[global] Instance result_bind : MBind result := fun A B f m =>
  match m with
  | Ok a => f a
  | Raise e => Raise e
  end.

(** [try: body except Exception as e: handler(e)] *)
Definition try_except {A} (body : result A) (handler : exn -> A) : A :=
  match body with
  | Ok a => a
  | Raise e => handler e
  end.

Definition nl : string := String (ascii_of_nat 10) "".

(** [c * n] for a one-character string [c] *)
Fixpoint str_times (c : ascii) (n : nat) : string :=
  match n with
  | O => ""
  | S n' => String c (str_times c n')
  end.

(** [sep.join(l)] *)
Fixpoint join (sep : string) (l : list string) : string :=
  match l with
  | [] => ""
  | [x] => x
  | x :: tl => x +:+ sep +:+ join sep tl
  end.

(** *** Tables, JSON and files *)

(** A cell of a table, and a Python value taken out of one. [VNaN] is
    [numpy.nan], the marker [pandas] uses for every missing value; [VNone]
    is Python's [None]. *)
Inductive value :=
  | VNone
  | VNaN
  | VBool (b : bool)
  | VInt (z : Z)
  | VFloat (q : Q)
  | VStr (s : string).

(** Equality of two cells as join keys ([pandas] joins missing keys with
    missing keys). *)
Definition value_eqb (a b : value) : bool :=
  match a, b with
  | VNone, VNone => true
  | VNaN, VNaN => true
  | VBool x, VBool y => Bool.eqb x y
  | VInt x, VInt y => (x =? y)%Z
  | VFloat x, VFloat y => Qeq_bool x y
  | VInt x, VFloat y => Qeq_bool (inject_Z x) y
  | VFloat x, VInt y => Qeq_bool x (inject_Z y)
  | VStr x, VStr y => String.eqb x y
  | _, _ => false
  end.

(** A [pandas.DataFrame]: column labels and rows of cells. *)
Record dataframe := DataFrame {
  columns : list string;
  rows : list (list value)
}.

(** [len(df)] *)
Definition len (df : dataframe) : Z := Z.of_nat (length (rows df)).

#[global] Instance Q_eq_dec : EqDecision Q.
Proof. solve_decision. Defined.
#[global] Instance value_eq_dec : EqDecision value.
Proof. solve_decision. Defined.
#[global] Instance dataframe_eq_dec : EqDecision dataframe.
Proof. solve_decision. Defined.

(** What [jsonify] writes. [JNaN] is the bare token [NaN] that Python's
    encoder writes for a float that is not a number. *)
Inductive json :=
  | JNull
  | JNaN
  | JBool (b : bool)
  | JInt (z : Z)
  | JFloat (q : Q)
  | JStr (s : string)
  | JList (items : list json)
  | JObj (members : list (string * json)).

Definition to_json (v : value) : json :=
  match v with
  | VNone => JNull
  | VNaN => JNaN
  | VBool b => JBool b
  | VInt z => JInt z
  | VFloat q => JFloat q
  | VStr s => JStr s
  end.

(** A Flask response: [jsonify(body), status]. *)
Inductive reply := Reply (body : json) (status : Z).

Definition body_of (r : reply) : json := let '(Reply b _) := r in b.
Definition status_of (r : reply) : Z := let '(Reply _ s) := r in s.

(** [jsonify({"error": msg})] *)
Definition error_body (msg : string) : json := JObj [("error", JStr msg)].

(** A file, as [pandas.read_csv] sees it: without any content, a table,
    or something it cannot parse (the reason is the parser's message). *)
Inductive file :=
  | EmptyFile
  | CsvFile (df : dataframe)
  | OtherFile (why : string).

#[global] Instance file_eq_dec : EqDecision file.
Proof. solve_decision. Defined.

(** [pd.read_csv(path)] *)
Definition read_csv (fs : gmap string file) (path : string) : result dataframe :=
  match fs !! path with
  | None => Raise (FileNotFoundError path)
  | Some EmptyFile => Raise EmptyDataError
  | Some (CsvFile df) => Ok df
  | Some (OtherFile why) => Raise (ParserError why)
  end.

(** [dir / name], paths being relative to the project root. *)
Definition path_join (dir name : string) : string := dir +:+ "/" +:+ name.

Definition DATA_DIR : string := "data/processed".
Definition RAW_DATA_DIR : string := "data/raw".
Definition UPLOAD_FOLDER : string := "data/uploads".

Definition standardized_items_csv : string := path_join DATA_DIR "standardized_items.csv".
Definition cost_analytics_csv : string := path_join DATA_DIR "cost_analytics.csv".
Definition anomalies_csv : string := path_join DATA_DIR "anomalies.csv".
Definition purchase_orders_raw_csv : string := path_join RAW_DATA_DIR "purchase_orders_raw.csv".

(** *** Table operations *)

(** Position of the column labelled [c]. *)
Definition col_index (cols : list string) (c : string) : option nat :=
  fst <$> list_find (fun x => x = c) cols.

Definition cell (row : list value) (i : nat) : value := default VNaN (row !! i).

Fixpoint lookup_columns (have want : list string) : result (list nat) :=
  match want with
  | [] => Ok []
  | c :: tl =>
      match col_index have c with
      | None => Raise (KeyError c)
      | Some i => idx ← lookup_columns have tl; Ok (i :: idx)
      end
  end.

(** [df[[c1, ..., cn]]] *)
Definition select_columns (df : dataframe) (cols : list string) : result dataframe :=
  idx ← lookup_columns (columns df) cols;
  Ok (DataFrame cols (map (fun row => map (cell row) idx) (rows df))).

(** The cells of the column at position [i]. *)
Definition column_cells (df : dataframe) (i : nat) : list value :=
  map (fun row => cell row i) (rows df).

(** The type under which [read_csv] stores a column, as far as a join
    looks at it. [read_csv] chooses it by the cells: whole numbers
    without a gap are stored as integers, numbers with gaps or fractions
    as floats, truth values without a gap as booleans, and anything else
    (text, and the columns of a table without rows) as objects. *)
Inductive dtype := Int64 | Float64 | Bool | Object.

Definition dtype_name (t : dtype) : string :=
  match t with
  | Int64 => "int64"
  | Float64 => "float64"
  | Bool => "bool"
  | Object => "object"
  end.

Definition is_int (v : value) : bool :=
  match v with VInt _ => true | _ => false end.

Definition is_number (v : value) : bool :=
  match v with VInt _ | VFloat _ | VNaN => true | _ => false end.

Definition is_bool (v : value) : bool :=
  match v with VBool _ => true | _ => false end.

Definition dtype_of (cells : list value) : dtype :=
  match cells with
  | [] => Object
  | _ =>
      if forallb is_int cells then Int64
      else if forallb is_number cells then Float64
      else if forallb is_bool cells then Bool
      else Object
  end.

(** The check of the keys of a join: [merge] does not join a column of
    numbers with a column of objects (it looks at the keys only when
    both tables have rows). *)
Definition keys_clash (lkeys rkeys : list value) : bool :=
  match lkeys, rkeys with
  | [], _ | _, [] => false
  | _, _ =>
      match dtype_of lkeys, dtype_of rkeys with
      | Int64, Object | Float64, Object | Object, Int64 | Object, Float64 => true
      | _, _ => false
      end
  end.

(** [str(e)] of the [ValueError] of such a join. *)
Definition merge_error (key : string) (lkeys rkeys : list value) : string :=
  "You are trying to merge on " +:+ dtype_name (dtype_of lkeys) +:+ " and "
  +:+ dtype_name (dtype_of rkeys) +:+ " columns for key '" +:+ key
  +:+ "'. If you wish to proceed you should use pd.concat".

(** An integer stored as a float. *)
Definition to_float (v : value) : value :=
  match v with
  | VInt z => VFloat (inject_Z z)
  | _ => v
  end.

(** The cells of a row, those under a mark stored as floats. *)
Fixpoint upcast (ints : list bool) (row : list value) : list value :=
  match ints, row with
  | b :: ints', c :: row' => (if b : bool then to_float c else c) :: upcast ints' row'
  | _, _ => row
  end.

Definition is_nil {A} (l : list A) : bool :=
  match l with [] => true | _ => false end.

(** [left.merge(right, on=key, how='left')] on two tables that come from
    [read_csv]: every row of [left], in order, once per row of [right]
    with the same key, or once with missing values when there is none; a
    label the two tables share besides the key gets the suffixes [_x]
    and [_y]. When a row of [left] has no match, the missing values it
    brings make floats of the columns of [right] that are stored as
    integers. *)
Definition merge_left (key : string) (left right : dataframe) : result dataframe :=
  match col_index (columns left) key, col_index (columns right) key with
  | Some il, Some ir =>
      let lkeys := column_cells left il in
      let rkeys := column_cells right ir in
      if keys_clash lkeys rkeys then Raise (ValueError (merge_error key lkeys rkeys))
      else
        let rcols := delete ir (columns right) in
        let lcols := delete il (columns left) in
        let lname c := if bool_decide (c ≠ key ∧ c ∈ rcols) then c +:+ "_x" else c in
        let rname c := if bool_decide (c ∈ lcols) then c +:+ "_y" else c in
        let matches lrow :=
          filter (fun rrow => value_eqb (cell rrow ir) (cell lrow il) = true)
                 (rows right) in
        let gaps := existsb (fun lrow => is_nil (matches lrow)) (rows left) in
        let ints :=
          map (fun j => gaps && forallb is_int (column_cells right j))
              (delete ir (seq 0 (length (columns right)))) in
        let joined lrow :=
          match matches lrow with
          | [] => [lrow ++ replicate (length rcols) VNaN]
          | ms => map (fun rrow => lrow ++ upcast ints (delete ir rrow)) ms
          end in
        Ok (DataFrame (map lname (columns left) ++ map rname rcols)
                      (concat (map joined (rows left))))
  | _, _ => Raise (KeyError key)
  end.

(** [df.rename(columns={old: new, ...})] *)
Definition rename (renaming : list (string * string)) (df : dataframe) : dataframe :=
  let new c :=
    match list_find (fun kv => fst kv = c) renaming with
    | Some (_, (_, n)) => n
    | None => c
    end in
  DataFrame (map new (columns df)) (rows df).

(** [df.replace({np.nan: None})] *)
Definition nan_to_none (v : value) : value :=
  match v with
  | VNaN => VNone
  | _ => v
  end.

Definition replace_nan_None (df : dataframe) : dataframe :=
  DataFrame (columns df) (map (map nan_to_none) (rows df)).

(** A Python [dict] with string keys, in insertion order; setting a key
    that is there replaces its value in place. *)
Fixpoint dict_set {V} (d : list (string * V)) (k : string) (v : V) : list (string * V) :=
  match d with
  | [] => [(k, v)]
  | (k', v') :: tl =>
      if String.eqb k' k then (k', v) :: tl else (k', v') :: dict_set tl k v
  end.

Definition dict_of {V} (kvs : list (string * V)) : list (string * V) :=
  foldl (fun d kv => dict_set d (fst kv) (snd kv)) [] kvs.

(** [df.to_dict('records')] *)
Definition to_dict_records (df : dataframe) : list (list (string * value)) :=
  map (fun row => dict_of (zip (columns df) row)) (rows df).

(** [jsonify] of a list of records. *)
Definition record_json (d : list (string * value)) : json :=
  JObj (map (fun kv => (fst kv, to_json (snd kv))) d).

Definition records_json (ds : list (list (string * value))) : json :=
  JList (map record_json ds).

(** The index a slice bound stands for in a sequence of length [n]: a
    negative bound counts from the end, and bounds are clipped. *)
Definition slice_bound (n i : Z) : Z :=
  if i <? 0 then Z.max (i + n) 0 else Z.min i n.

(** [l[start:stop]] *)
Definition py_slice {A} (l : list A) (start stop : Z) : list A :=
  let n := Z.of_nat (length l) in
  let s := slice_bound n start in
  let e := slice_bound n stop in
  take (Z.to_nat (e - s)) (drop (Z.to_nat s) l).

(** [df.iloc[start:stop]] *)
Definition iloc (df : dataframe) (start stop : Z) : dataframe :=
  DataFrame (columns df) (py_slice (rows df) start stop).

(** [a // b] *)
Definition floordiv (a b : Z) : result Z :=
  if b =? 0 then Raise ZeroDivisionError else Ok (a / b).

(** ** The pipeline orchestrator ([run_pipeline.py]) *)

Module Pipeline.

(** The stages the orchestrator's docstring lists. *)
Inductive stage := STANDARDIZATION | ANALYTICS | ANOMALY_DETECTION.

#[global] Instance stage_eq_dec : EqDecision stage.
Proof. solve_decision. Defined.

(** What a guarded block does when it is run: the entry points
    [run_standardization] and [run_analytics_full] are imported from
    packages of their own, so their behaviour is an input of the script.
    [Raises e] stands for an exception of class [Exception] whose [str]
    is [e], raised anywhere in the block (import included). [Exits code]
    stands for what [except Exception] does not catch: the block leaves
    through [SystemExit] (a call of [sys.exit]) or [KeyboardInterrupt],
    and the process ends with [code]. *)
Inductive outcome :=
  | Returns
  | Raises (e : string)
  | Exits (code : Z).

Inductive event :=
  | Print (line : string)      (* print(line) *)
  | Enter (s : stage)          (* the guarded block of stage [s] starts *)
  | PrintExc (e : string).     (* traceback.print_exc() *)

(** A script: the events so far, and either the code with which the
    process ends or the value the script goes on with. *)
Definition script (A : Type) : Type := (list event * (Z + A))%type.

#[global] Instance script_ret : MRet script := fun A a => ([], inr a).
#[global] Instance script_bind : MBind script := fun A B f m =>
  match m with
  | (t, inl code) => (t, inl code)
  | (t, inr a) => let '(t', r) := f a in (t ++ t', r)
  end.

Definition print (line : string) : script unit := ([Print line], inr tt).
Definition print_exc (e : string) : script unit := ([PrintExc e], inr tt).
Definition sys_exit {A} (code : Z) : script A := ([], inl code).

(** One guarded block:
<<
    try:
        ... run the stage ...
    except Exception as e:
        print(f"Error in <label>: {e}")
        traceback.print_exc()
        sys.exit(1)
>> *)
Definition guarded (env : stage -> outcome) (s : stage) (label : string)
  : script unit :=
  match env s with
  | Returns => ([Enter s], inr tt)
  | Raises e =>
      _ ← ([Enter s], inr tt);
      _ ← print ("Error in " +:+ label +:+ ": " +:+ e);
      _ ← print_exc e;
      sys_exit 1
  | Exits code =>
      (* not an [Exception]: the handler does not run *)
      _ ← ([Enter s], inr tt);
      sys_exit code
  end.

Definition rule (c : ascii) : string := str_times c 70.

(** The module body of [run_pipeline.py]. *)
Definition run_pipeline (env : stage -> outcome) : script unit :=
  _ ← print (rule "=");
  _ ← print "HPCL INTELLIGENT COST DATABASE - DATA PROCESSING PIPELINE";
  _ ← print (rule "=");
  (* Step 1: Item Standardization *)
  _ ← print (nl +:+ "[STEP 1/3] Running Item Standardization...");
  _ ← print (rule "-");
  _ ← guarded env STANDARDIZATION "standardization";
  (* Step 2: Cost Analytics *)
  _ ← print (nl +:+ "[STEP 2/3] Running Cost Analytics Generation...");
  _ ← print (rule "-");
  _ ← guarded env ANALYTICS "analytics";
  _ ← print (nl +:+ rule "=");
  _ ← print "PIPELINE COMPLETED SUCCESSFULLY!";
  _ ← print (rule "=");
  _ ← print (nl +:+ "Generated files:");
  _ ← print "  ✓ data/processed/standardized_items.csv";
  _ ← print "  ✓ data/processed/cost_analytics.csv";
  _ ← print "  ✓ data/processed/anomalies.csv";
  _ ← print (nl +:+ "Data is now ready for the dashboard!");
  print (rule "=").

Definition trace {A} (r : script A) : list event := fst r.

(** The exit code of the process: the code it ended with, or 0 when the
    script runs to its end. *)
Definition exit_code {A} (r : script A) : Z :=
  match snd r with
  | inl code => code
  | inr _ => 0
  end.

(** The stages a run entered, in order. *)
Definition stages_of (t : list event) : list stage :=
  omap (fun ev => match ev with Enter s => Some s | _ => None end) t.

Definition stages_run (env : stage -> outcome) : list stage :=
  stages_of (trace (run_pipeline env)).


(** *** The entry points *)

(** Modelled from the spec: [run_standardization], the entry point
    [main] of the package [ai_standardization], which is not among the
    sources. It is the first stage of the state machine "STANDARDIZATION
    → ANALYTICS → ANOMALY_DETECTION → DONE". [work s] is how the stage
    [s] ends when it is performed; the value is the stages performed, in
    order, and how the entry point ends. *)
Definition run_standardization (work : stage -> outcome) : list stage * outcome :=
  ([STANDARDIZATION], work STANDARDIZATION).

(** Modelled from the spec: [run_analytics_full], the entry point [main]
    of the package [ai_analytics], which is not among the sources. The
    script has no third block and lists [anomalies.csv] among the files
    generated, so this entry point stands for the rest of the state
    machine: the stage ANALYTICS and then, "linear, no branching, no
    retries between stages", the stage ANOMALY_DETECTION, which consumes
    the output of the one before; a stage that does not return ends the
    entry point ("any stage raising an unrecoverable error aborts the
    whole run"). *)
Definition run_analytics_full (work : stage -> outcome) : list stage * outcome :=
  match work ANALYTICS with
  | Returns => ([ANALYTICS; ANOMALY_DETECTION], work ANOMALY_DETECTION)
  | failed => ([ANALYTICS], failed)
  end.

(** What the guarded block of a step calls: [run_standardization()] in
    the block of step 1, [run_analytics_full()] in the block of step 2;
    there is no block of its own for the third stage. *)
Definition entry_point (work : stage -> outcome) (block : stage)
  : list stage * outcome :=
  match block with
  | STANDARDIZATION => run_standardization work
  | ANALYTICS => run_analytics_full work
  | ANOMALY_DETECTION => ([], Returns)
  end.

(** The script with these entry points in its blocks. *)
Definition blocks (work : stage -> outcome) : stage -> outcome :=
  fun block => snd (entry_point work block).

(** The stages a run performs, in order: those of the blocks it
    enters. *)
Definition stages_performed (work : stage -> outcome) : list stage :=
  concat (map (fun block => fst (entry_point work block)) (stages_run (blocks work))).

End Pipeline.

(** ** The API backend ([backend/api.py]) *)

Module Api.

(** The three module-level tables [standardized_df], [analytics_df] and
    [anomalies_df]; [None] is Python's [None]. *)
Record cache := Cache {
  standardized_df : option dataframe;
  analytics_df : option dataframe;
  anomalies_df : option dataframe
}.

(** [load_data()]: the three processed tables, the first one joined with
    the raw orders; [(None, None, None)] when anything in the block
    raises. (Its console messages are left out.) *)
Definition load_data (fs : gmap string file) : cache :=
  try_except
    (standardized ← read_csv fs standardized_items_csv;
     analytics ← read_csv fs cost_analytics_csv;
     anomalies ← read_csv fs anomalies_csv;
     raw_data ← read_csv fs purchase_orders_raw_csv;
     wanted ← select_columns raw_data
       ["po_id"; "unit_price"; "supplier"; "region"; "quantity"; "unit"; "po_date"];
     merged ← merge_left "po_id" standardized wanted;
     let standardized :=
       rename [("supplier", "supplier_name");
               ("confidence_score", "standardization_confidence")] merged in
     Ok (Cache (Some standardized) (Some analytics) (Some anomalies)))
    (fun _ => Cache None None None).

(** The server: the files of the project and the three cached tables. *)
Record server := Server {
  files : gmap string file;
  tables : cache
}.

(** The module body up to [standardized_df, analytics_df, anomalies_df =
    load_data()]: the state the server starts in. *)
Definition startup (fs : gmap string file) : server := Server fs (load_data fs).

Definition data_not_loaded : reply := Reply (error_body "Data not loaded") 500.

(** The query arguments of [/api/items] after [request.args.get(_,
    default, type=_)]: [None] is an argument that is absent or that the
    conversion rejects, for which the default is taken. *)
Record items_args := ItemsArgs {
  arg_page : option Z;
  arg_per_page : option Z;
  arg_search : option string
}.

Definition ALLOWED_EXTENSIONS : list string := ["csv"].

(** [s.lower()], on ASCII letters. *)
Definition lower_ascii (a : ascii) : ascii :=
  let n := nat_of_ascii a in
  if (Nat.leb 65 n && Nat.leb n 90)%bool then ascii_of_nat (n + 32) else a.

Fixpoint lower (s : string) : string :=
  match s with
  | EmptyString => EmptyString
  | String a s' => String (lower_ascii a) (lower s')
  end.

(** The part of [s] after its last dot: [s.rsplit('.', 1)[1]], [None]
    when [s] has no dot. *)
Fixpoint after_last_dot (s : string) (found : option string) : option string :=
  match s with
  | EmptyString => found
  | String a s' =>
      if Ascii.eqb a "." then after_last_dot s' (Some s') else after_last_dot s' found
  end.

(** [allowed_file(filename)] *)
Definition allowed_file (filename : string) : bool :=
  match after_last_dot filename None with
  | None => false
  | Some ext => bool_decide (lower ext ∈ ALLOWED_EXTENSIONS)
  end.

Definition required_columns : list string :=
  ["po_id"; "item_description"; "unit_price"; "quantity";
   "unit"; "po_date"; "region"; "department"; "supplier"].

(** The file part of a multipart upload. *)
Record upload := Upload {
  filename : string;
  content : file
}.

Definition raw_data_path : string :=
  path_join (path_join "data" "raw") "purchase_orders_raw.csv".

Definition backup_path (timestamp : string) : string :=
  path_join (path_join "data" "raw")
            ("purchase_orders_raw_backup_" +:+ timestamp +:+ ".csv").

(** File operations: a state and error monad over the file system. *)
Definition io (A : Type) : Type :=
  gmap string file -> (result A * gmap string file)%type.

#[global] Instance io_ret : MRet io := fun A a fs => (Ok a, fs).
#[global] Instance io_bind : MBind io := fun A B f m fs =>
  match m fs with
  | (Ok a, fs') => f a fs'
  | (Raise e, fs') => (Raise e, fs')
  end.

Definition io_try {A} (body : io A) (handler : exn -> io A) : io A := fun fs =>
  match body fs with
  | (Ok a, fs') => (Ok a, fs')
  | (Raise e, fs') => handler e fs'
  end.

(** [file.save(path)] *)
Definition save (f : file) (path : string) : io unit :=
  fun fs => (Ok tt, <[path := f]> fs).

(** [path.exists()] *)
Definition exists_ (path : string) : io bool :=
  fun fs => (Ok (bool_decide (is_Some (fs !! path))), fs).

(** [os.remove(path)] *)
Definition os_remove (path : string) : io unit := fun fs =>
  match fs !! path with
  | Some _ => (Ok tt, delete path fs)
  | None => (Raise (FileNotFoundError path), fs)
  end.

(** [shutil.copy(src, dst)] *)
Definition shutil_copy (src dst : string) : io unit := fun fs =>
  match fs !! src with
  | Some f => (Ok tt, <[dst := f]> fs)
  | None => (Raise (FileNotFoundError src), fs)
  end.

Definition io_read_csv (path : string) : io dataframe :=
  fun fs => (read_csv fs path, fs).

(** The pipeline as a child process: it cannot be started, or it runs for
    [seconds], ends with [returncode] and has written [stdout] and
    [stderr]; [writes t] is what it has done to the files after [t]
    seconds. *)
Inductive child :=
  | CannotStart (msg : string)
  | Runs (seconds : Z) (writes : Z -> gmap string file -> gmap string file)
         (returncode : Z) (stdout stderr : string).

(** [subprocess.CompletedProcess] *)
Record completed := Completed {
  returncode : Z;
  stdout : string;
  stderr : string
}.

(** [subprocess.run(..., capture_output=True, text=True, timeout=t)]:
    blocks until the child ends, or kills it and raises when [t] seconds
    have gone by. *)
Definition subprocess_run (c : child) (timeout : Z) : io completed := fun fs =>
  match c with
  | CannotStart msg => (Raise (OSError msg), fs)
  | Runs seconds writes rc out err =>
      if timeout <? seconds
      then (Raise TimeoutExpired, writes timeout fs)
      else (Ok (Completed rc out err), writes seconds fs)
  end.

Definition pipeline_script : string := "run_pipeline.py".

(** [traceback.format_exc()] *)
Definition format_exc (e : exn) : string :=
  "Traceback (most recent call last):" +:+ nl +:+ exn_str e.

(** [len(df) if df is not None else 0] *)
Definition len_or_0 (df : option dataframe) : Z :=
  match df with
  | Some d => len d
  | None => 0
  end.

(** The views of the API. *)
Inductive endpoint :=
  | Health
  | DashboardStats
  | Items
  | Analytics
  | Anomalies
  | PriceTrends
  | Suppliers
  | Categories.

(** What the accessor [Series.str] raises on a column that it does not
    take. *)
Definition not_string_values : exn :=
  AttributeError "Can only use .str accessor with string values!".

Section Views.

(** [df[col].str]: whether the accessor of the [pandas] library takes
    the column. It decides by the type under which the column is stored
    and by the kinds of values in it; a table of this model holds the
    cells and not that type, so the decision is given. *)
Variable str_validate : dataframe -> string -> bool.

(** [re.compile(pat, flags=re.IGNORECASE)], as [Series.str.contains(pat,
    case=False)] calls it: the test [pat.search(s) is not None] on a
    string [s], or the [re.error] of a text that is no pattern. *)
Variable re_compile : string -> result (string -> bool).

(** [werkzeug.utils.secure_filename] *)
Variable secure_filename : string -> string.

(** The aggregations ([nunique], [mean], [groupby], [value_counts]) that
    the statistics, trend, supplier and category views compute from
    loaded tables are functions of the [pandas] library. *)
Variable stats_body : dataframe -> dataframe -> option dataframe -> result json.
Variable trends_body : dataframe -> result json.
Variable suppliers_body : dataframe -> result json.
Variable category_counts : dataframe -> result json.

(** [@app.route('/api/health')] *)
Definition health_check : result reply :=
  Ok (Reply (JObj [("status", JStr "healthy"); ("message", JStr "API is running")]) 200).

(** [@app.route('/api/dashboard/stats')] *)
Definition get_dashboard_stats (c : cache) : result reply :=
  match standardized_df c, analytics_df c with
  | Some std, Some ana =>
      stats ← stats_body std ana (anomalies_df c);
      Ok (Reply stats 200)
  | _, _ => Ok data_not_loaded
  end.

(** The mask [df[col].str.contains(search, case=False, na=False)]:
    [df[col]] raises without the column, [.str] on a column that the
    accessor does not take, and [contains] on a text that is no pattern;
    in the mask a cell that is not a string does not match ([na=False]
    for a missing value). *)
Definition contains_mask (df : dataframe) (col search : string)
  : result (list bool) :=
  match col_index (columns df) col with
  | None => Raise (KeyError col)
  | Some i =>
      if str_validate df col
      then
        pat ← re_compile search;
        Ok (map (fun row => match cell row i with
                            | VStr s => pat s
                            | _ => false
                            end) (rows df))
      else Raise not_string_values
  end.

(** [df[mask]] *)
Definition select_rows (df : dataframe) (mask : list bool) : dataframe :=
  DataFrame (columns df)
            (fst <$> filter (fun rm => snd rm = true) (zip (rows df) mask)).

(** The search filter of [get_items]. *)
Definition search_filter (df : dataframe) (search : string) : result dataframe :=
  if bool_decide (search = "") then Ok df
  else
    by_name ← contains_mask df "canonical_item_name" search;
    by_supplier ← contains_mask df "supplier_name" search;
    Ok (select_rows df (zip_with orb by_name by_supplier)).

(** [@app.route('/api/items')] *)
Definition get_items (c : cache) (args : items_args) : result reply :=
  match standardized_df c with
  | None => Ok data_not_loaded
  | Some standardized =>
      let page := default 1 (arg_page args) in
      let per_page := default 20 (arg_per_page args) in
      let search := default "" (arg_search args) in
      df ← search_filter standardized search;
      (* Pagination *)
      let total := len df in
      let start := (page - 1) * per_page in
      let end_ := start + per_page in
      let items := to_dict_records (replace_nan_None (iloc df start end_)) in
      pages ← floordiv (total + per_page - 1) per_page;
      Ok (Reply (JObj [("items", records_json items);
                       ("total", JInt total);
                       ("page", JInt page);
                       ("per_page", JInt per_page);
                       ("pages", JInt pages)]) 200)
  end.

(** [@app.route('/api/analytics')] *)
Definition get_analytics (c : cache) : result reply :=
  match analytics_df c with
  | None => Ok data_not_loaded
  | Some df => Ok (Reply (records_json (to_dict_records (replace_nan_None df))) 200)
  end.

(** [@app.route('/api/anomalies')] *)
Definition get_anomalies (c : cache) : result reply :=
  match anomalies_df c with
  | None => Ok data_not_loaded
  | Some df => Ok (Reply (records_json (to_dict_records (replace_nan_None df))) 200)
  end.

(** [@app.route('/api/price-trends')] *)
Definition get_price_trends (c : cache) : result reply :=
  match analytics_df c with
  | None => Ok data_not_loaded
  | Some df => trends ← trends_body df; Ok (Reply trends 200)
  end.

(** [@app.route('/api/suppliers')] *)
Definition get_suppliers (c : cache) : result reply :=
  match standardized_df c with
  | None => Ok data_not_loaded
  | Some df => suppliers ← suppliers_body df; Ok (Reply suppliers 200)
  end.

(** [@app.route('/api/categories')] *)
Definition get_categories (c : cache) : result reply :=
  match standardized_df c with
  | Some df =>
      if bool_decide ("category" ∈ columns df)
      then counts ← category_counts df; Ok (Reply counts 200)
      else Ok (Reply (error_body "Data not loaded or categories not available") 500)
  | None => Ok (Reply (error_body "Data not loaded or categories not available") 500)
  end.

(** A [GET] request to one of the views; a raised exception is left to
    Flask. *)
Definition serve (e : endpoint) (c : cache) (args : items_args) : result reply :=
  match e with
  | Health => health_check
  | DashboardStats => get_dashboard_stats c
  | Items => get_items c args
  | Analytics => get_analytics c
  | Anomalies => get_anomalies c
  | PriceTrends => get_price_trends c
  | Suppliers => get_suppliers c
  | Categories => get_categories c
  end.

(** [@app.route('/api/upload')]; [timestamp] is
    [datetime.now().strftime("%Y%m%d_%H%M%S")] and [part] is
    [request.files.get('file')]. *)
Definition upload_file (timestamp : string) (part : option upload) : io reply :=
  io_try
    (match part with
     | None => mret (Reply (error_body "No file provided") 400)
     | Some file =>
         if bool_decide (filename file = "")
         then mret (Reply (error_body "No file selected") 400)
         else if negb (allowed_file (filename file))
         then mret (Reply (error_body "Only CSV files are allowed") 400)
         else
           (* Save uploaded file *)
           let name := secure_filename (filename file) in
           let saved_filename := "upload_" +:+ timestamp +:+ "_" +:+ name in
           let filepath := path_join UPLOAD_FOLDER saved_filename in
           _ ← save (content file) filepath;
           (* Validate CSV structure *)
           io_try
             (df ← io_read_csv filepath;
              let missing_columns :=
                filter (fun col => col ∉ columns df) required_columns in
              if bool_decide (missing_columns ≠ [])
              then
                _ ← os_remove filepath;
                mret (Reply (JObj [("error", JStr ("Missing required columns: "
                                                   +:+ join ", " missing_columns));
                                   ("required_columns", JList (JStr <$> required_columns))])
                            400)
              else
                (* Backup existing raw data *)
                raw_exists ← exists_ raw_data_path;
                _ ← (if raw_exists : bool
                     then shutil_copy raw_data_path (backup_path timestamp)
                     else mret tt);
                (* Replace raw data with uploaded file *)
                _ ← shutil_copy filepath raw_data_path;
                mret (Reply (JObj [("message", JStr "File uploaded successfully");
                                   ("filename", JStr saved_filename);
                                   ("rows", JInt (len df));
                                   ("columns", JList (JStr <$> columns df))])
                            200))
             (fun e =>
                present ← exists_ filepath;
                _ ← (if present : bool then os_remove filepath else mret tt);
                mret (Reply (error_body ("Invalid CSV format: " +:+ exn_str e)) 400))
     end)
    (fun e => mret (Reply (error_body ("Upload failed: " +:+ exn_str e)) 500)).

End Views.

(** [@app.route('/api/process')]: runs the pipeline script as a child
    process and, when it ends with code 0, loads the tables again. *)
Definition process_data (pipeline : child) (st : server) : reply * server :=
  if bool_decide (files st !! pipeline_script = None)
  then (Reply (error_body ("Pipeline script not found at " +:+ pipeline_script)) 500, st)
  else
    (* Run the complete pipeline *)
    match subprocess_run pipeline 300 (files st) with
    | (Ok result, fs') =>
        if returncode result =? 0
        then
          (* Reload data after processing *)
          let c := load_data fs' in
          (Reply (JObj [("message", JStr "Data processed successfully");
                        ("output", JStr (stdout result));
                        ("standardized_items", JInt (len_or_0 (standardized_df c)));
                        ("analytics_records", JInt (len_or_0 (analytics_df c)));
                        ("anomalies_found", JInt (len_or_0 (anomalies_df c)))])
                 200,
           Server fs' c)
        else
          (Reply (JObj [("error", JStr "Processing failed");
                        ("output", JStr (stdout result));
                        ("error_details", JStr (stderr result))])
                 500,
           Server fs' (tables st))
    (* except subprocess.TimeoutExpired *)
    | (Raise TimeoutExpired, fs') =>
        (Reply (error_body "Processing timeout (max 5 minutes)") 500,
         Server fs' (tables st))
    (* except Exception as e *)
    | (Raise e, fs') =>
        (Reply (JObj [("error", JStr ("Processing failed: " +:+ exn_str e));
                      ("traceback", JStr (format_exc e))])
               500,
         Server fs' (tables st))
    end.

End Api.

(** ** The dashboard's data loader ([frontend/app_enhanced.py]) *)

Module Frontend.

(** What [load_data()] leaves the dashboard with: the four tables, or the
    message given to [st.error] before [st.stop()] ends the script run. *)
Inductive loaded :=
  | Loaded (raw_df standardized_df analytics_df anomalies_df : dataframe)
  | Stopped (error : string).

Definition anomalies_columns : list string :=
  ["po_id"; "item_code"; "unit_price"; "expected_price";
   "anomaly_flag"; "anomaly_reason"].

(** The inner [try]: load anomalies with fallback for empty file. *)
Definition load_anomalies (fs : gmap string file) : result dataframe :=
  match read_csv fs anomalies_csv with
  | Raise EmptyDataError | Raise (FileNotFoundError _) =>
      Ok (DataFrame anomalies_columns [])
  | r => r
  end.

(** [load_data()] (one call of it: [st.cache_data] keeps its value for
    the following ones). *)
Definition load_data (fs : gmap string file) : loaded :=
  try_except
    (raw_df ← read_csv fs purchase_orders_raw_csv;
     standardized_df ← read_csv fs standardized_items_csv;
     analytics_df ← read_csv fs cost_analytics_csv;
     anomalies_df ← load_anomalies fs;
     Ok (Loaded raw_df standardized_df analytics_df anomalies_df))
    (fun e => Stopped ("Error loading data: " +:+ exn_str e)).

End Frontend.

(** * More of the code *)

(** ** The template download ([backend/api.py]) *)

Module Template.

(** The table [pd.DataFrame(template_data)]. *)
Definition template_data : dataframe :=
  DataFrame ["po_id"; "item_description"; "unit_price"; "quantity"; "unit";
             "po_date"; "region"; "department"; "supplier"]
            [[VStr "PO001"; VStr "Carbon Steel Pipe 100mm"; VFloat 1200; VInt 10;
              VStr "pcs"; VStr "2024-01-01"; VStr "North"; VStr "Maintenance";
              VStr "ABC Metals"];
             [VStr "PO002"; VStr "Stainless Steel Valve 2 inch"; VFloat 5000; VInt 5;
              VStr "pcs"; VStr "2024-01-02"; VStr "South"; VStr "Production";
              VStr "ValveWorld"];
             [VStr "PO003"; VStr "Gate Valve CS 50mm"; VFloat 4500; VInt 3;
              VStr "pcs"; VStr "2024-01-03"; VStr "East"; VStr "Maintenance";
              VStr "FlowTech"]].

Definition template_path : string :=
  path_join UPLOAD_FOLDER "template_purchase_orders.csv".

(** [send_file(path, as_attachment=True, download_name=name)] *)
Record attachment := Attachment {
  download_name : string;
  sent : file
}.

Definition send_file (path name : string) : Api.io attachment := fun fs =>
  match fs !! path with
  | Some f => (Ok (Attachment name f), fs)
  | None => (Raise (FileNotFoundError path), fs)
  end.

(** [@app.route('/api/download-template')]. The table has a header and
    three rows without missing values, which [to_csv(path, index=False)]
    writes as a file that reads back as that table. *)
Definition download_template : Api.io attachment :=
  _ ← Api.save (CsvFile template_data) template_path;
  send_file template_path "purchase_orders_template.csv".

End Template.

(** ** The dashboard's filters and counts ([frontend/app_enhanced.py]) *)

Module Dashboard.

(** [df[col]] *)
Definition column (df : dataframe) (col : string) : result (list value) :=
  match col_index (columns df) col with
  | None => Raise (KeyError col)
  | Some i => Ok (map (fun row => cell row i) (rows df))
  end.

(** One element of [series == v], [v] a string. *)
Definition is_str (v : string) (c : value) : bool :=
  match c with
  | VStr s => bool_decide (s = v)
  | _ => false
  end.

(** [df[df[col] == v]] *)
Definition where_eq (df : dataframe) (col v : string) : result dataframe :=
  cells ← column df col;
  Ok (Api.select_rows df (is_str v <$> cells)).

(** One element of [series.isin(values)]. *)
Definition isin (within : list value) (c : value) : bool :=
  existsb (value_eqb c) within.

Section Filters.

(** The accessor [Series.str] and [re.compile], as for the API. *)
Variable str_validate : dataframe -> string -> bool.
Variable re_compile : string -> result (string -> bool).

(** The three tables the tabs are drawn from. *)
Record filtered := Filtered {
  filtered_raw : dataframe;
  filtered_analytics : dataframe;
  filtered_standardized : dataframe
}.

(** "Filter data based on selections" and "Apply search filter": the
    module body from [filtered_raw = raw_df.copy()] to the key metrics. *)
Definition apply_filters (raw_df analytics_df standardized_df : dataframe)
    (selected_region selected_dept search_term : string) : result filtered :=
  let filtered_raw := raw_df in
  let filtered_analytics := analytics_df in
  let filtered_standardized := standardized_df in
  '(filtered_raw, filtered_analytics) ←
    (if bool_decide (selected_region ≠ "All")
     then
       r ← where_eq filtered_raw "region" selected_region;
       a ← where_eq filtered_analytics "region" selected_region;
       Ok (r, a)
     else Ok (filtered_raw, filtered_analytics));
  filtered_raw ←
    (if bool_decide (selected_dept ≠ "All")
     then where_eq filtered_raw "department" selected_dept
     else Ok filtered_raw);
  (* Apply search filter *)
  if bool_decide (search_term ≠ "")
  then
    by_item ← Api.contains_mask str_validate re_compile
                                filtered_raw "item_description" search_term;
    by_supplier ← Api.contains_mask str_validate re_compile
                                    filtered_raw "supplier" search_term;
    by_region ← Api.contains_mask str_validate re_compile
                                  filtered_raw "region" search_term;
    let mask := zip_with orb (zip_with orb by_item by_supplier) by_region in
    let filtered_raw := Api.select_rows filtered_raw mask in
    (* Filter standardized based on filtered POs *)
    ids ← column filtered_standardized "po_id";
    kept ← column filtered_raw "po_id";
    Ok (Filtered filtered_raw filtered_analytics
                 (Api.select_rows filtered_standardized (isin kept <$> ids)))
  else Ok (Filtered filtered_raw filtered_analytics filtered_standardized).

End Filters.

(** [p] is at the start of [s]. *)
Fixpoint starts_with (p s : string) : bool :=
  match p, s with
  | EmptyString, _ => true
  | String a p', String b s' => Ascii.eqb a b && starts_with p' s'
  | String _ _, EmptyString => false
  end.

(** [re.search(word, s)] for a [word] of letters: [word] occurs in [s]. *)
Fixpoint occurs (word s : string) : bool :=
  starts_with word s ||
  match s with
  | EmptyString => false
  | String _ s' => occurs word s'
  end.

(** One element of [series.str.contains(word, na=False)]. *)
Definition names_tier (word : string) (c : value) : bool :=
  match c with
  | VStr s => occurs word s
  | _ => false
  end.

(** The severity breakdown of the anomaly tab. *)
Record severity := Severity {
  critical_count : Z;
  high_count : Z;
  med_count : Z
}.

Section Counts.

Variable str_validate : dataframe -> string -> bool.

(** [len(df[df['anomaly_reason'].str.contains(word, na=False)]) if
    'anomaly_reason' in df.columns else 0]; [.str] raises on a column
    that the accessor does not take. *)
Definition count_tier (anomalies_df : dataframe) (word : string) : result Z :=
  if bool_decide ("anomaly_reason" ∈ columns anomalies_df)
  then
    cells ← column anomalies_df "anomaly_reason";
    if str_validate anomalies_df "anomaly_reason"
    then Ok (len (Api.select_rows anomalies_df (names_tier word <$> cells)))
    else Raise Api.not_string_values
  else Ok 0.

(** The counts under [if len(anomalies_df) > 0]; [None] is the other
    branch, which shows "No Anomalies Detected". *)
Definition severity_breakdown (anomalies_df : dataframe) : result (option severity) :=
  if 0 <? len anomalies_df
  then
    critical_count ← count_tier anomalies_df "CRITICAL";
    high_count ← count_tier anomalies_df "HIGH";
    let med_count := len anomalies_df - critical_count - high_count in
    Ok (Some (Severity critical_count high_count med_count))
  else Ok None.

End Counts.

End Dashboard.

(** ** The price-trend view ([backend/api.py]) *)

Module Trends.

(** [row.get(col, default)] on a row of a table with the columns
    [cols]. *)
Definition row_get (cols : list string) (row : list value) (col : string)
    (default : value) : value :=
  match col_index cols col with
  | Some i => cell row i
  | None => default
  end.

Section Float.

(** Python's [float(x)]. *)
Variable py_float : value -> result value.

(** One turn of the loop of [get_price_trends]: the dictionary
    [trend_data] of a row. *)
Definition trend_data (cols : list string) (row : list value) : result json :=
  let item_name := row_get cols row "canonical_item_name" (VStr "Unknown") in
  let trend_direction := row_get cols row "trend_direction" (VStr "stable") in
  avg_price ← py_float (row_get cols row "avg_price" (VInt 0));
  min_price ← py_float (row_get cols row "min_price" (VInt 0));
  max_price ← py_float (row_get cols row "max_price" (VInt 0));
  price_variance ← py_float (row_get cols row "price_std" (VInt 0));
  Ok (JObj [("item_name", to_json item_name);
            ("trend_direction", to_json trend_direction);
            ("avg_price", to_json avg_price);
            ("min_price", to_json min_price);
            ("max_price", to_json max_price);
            ("price_variance", to_json price_variance)]).

(** [for _, row in rows: trends.append(trend_data)] *)
Fixpoint trends_loop (cols : list string) (rows : list (list value))
  : result (list json) :=
  match rows with
  | [] => Ok []
  | row :: tl =>
      d ← trend_data cols row;
      ds ← trends_loop cols tl;
      Ok (d :: ds)
  end.

(** The list [trends] built from [analytics_df.head(10)]. *)
Definition price_trends (analytics_df : dataframe) : result json :=
  trends ← trends_loop (columns analytics_df) (take 10 (rows analytics_df));
  Ok (JList trends).

End Float.

End Trends.

(** * Vocabulary of the statements *)

(** What the script prints before the first guarded block, and between
    the first and the second. *)
Definition banner_1 : list Pipeline.event :=
  [Pipeline.Print (Pipeline.rule "=");
   Pipeline.Print "HPCL INTELLIGENT COST DATABASE - DATA PROCESSING PIPELINE";
   Pipeline.Print (Pipeline.rule "=");
   Pipeline.Print (nl +:+ "[STEP 1/3] Running Item Standardization...");
   Pipeline.Print (Pipeline.rule "-")].

Definition banner_2 : list Pipeline.event :=
  [Pipeline.Print (nl +:+ "[STEP 2/3] Running Cost Analytics Generation...");
   Pipeline.Print (Pipeline.rule "-")].

(** What the script prints after the second guarded block. *)
Definition banner_3 : list Pipeline.event :=
  [Pipeline.Print (nl +:+ Pipeline.rule "=");
   Pipeline.Print "PIPELINE COMPLETED SUCCESSFULLY!";
   Pipeline.Print (Pipeline.rule "=");
   Pipeline.Print (nl +:+ "Generated files:");
   Pipeline.Print "  ✓ data/processed/standardized_items.csv";
   Pipeline.Print "  ✓ data/processed/cost_analytics.csv";
   Pipeline.Print "  ✓ data/processed/anomalies.csv";
   Pipeline.Print (nl +:+ "Data is now ready for the dashboard!");
   Pipeline.Print (Pipeline.rule "=")].


(** [msg] names [c]: [c] occurs in it. *)
Definition mentions (msg c : string) : Prop :=
  exists pre post, msg = pre +:+ c +:+ post.

(** Where [upload_file] saves the upload. *)
Definition upload_path (secure_filename : string -> string) (ts name : string) : string :=
  path_join UPLOAD_FOLDER ("upload_" +:+ ts +:+ "_" +:+ secure_filename name).

(** What a view answers while the tables are not loaded. *)
Definition not_loaded_reply (e : Api.endpoint) : reply :=
  match e with
  | Api.Health =>
      Reply (JObj [("status", JStr "healthy"); ("message", JStr "API is running")]) 200
  | Api.Categories =>
      Reply (error_body "Data not loaded or categories not available") 500
  | _ => Api.data_not_loaded
  end.

(** The bare token [NaN] occurs in a JSON text. *)
Fixpoint has_nan (j : json) : bool :=
  match j with
  | JNaN => true
  | JList items => existsb has_nan items
  | JObj members => existsb (fun kv => has_nan (snd kv)) members
  | _ => false
  end.

(** A cell as the specification wants it served: a missing value as
    [null], any other value as itself. *)
Definition render_cell (v : value) : json :=
  match v with
  | VNaN => JNull
  | _ => to_json v
  end.

Definition render_row (cols : list string) (row : list value) : json :=
  JObj (dict_of (zip cols (render_cell <$> row))).

Definition render_table (cols : list string) (rows : list (list value)) : json :=
  JList (render_row cols <$> rows).

(** The cached table a record view serves, and where its reply has the
    records. *)
Definition table_of (e : Api.endpoint) (c : Api.cache) : option dataframe :=
  match e with
  | Api.Items => Api.standardized_df c
  | Api.Analytics => Api.analytics_df c
  | Api.Anomalies => Api.anomalies_df c
  | _ => None
  end.

Definition records_in (e : Api.endpoint) (body : json) : json :=
  match e, body with
  | Api.Items, JObj (("items", records) :: _) => records
  | _, _ => body
  end.

(** The response to a timeout of the pipeline. *)
Definition timeout_reply : reply :=
  Reply (error_body "Processing timeout (max 5 minutes)") 500.

(** The response to a pipeline that ended with a non-zero code. *)
Definition failure_reply (out err : string) : reply :=
  Reply (JObj [("error", JStr "Processing failed");
               ("output", JStr out);
               ("error_details", JStr err)]) 500.

(** The response to a pipeline that ended with code 0, the tables loaded
    again being [c]. *)
Definition success_reply (out : string) (c : Api.cache) : reply :=
  Reply (JObj [("message", JStr "Data processed successfully");
               ("output", JStr out);
               ("standardized_items", JInt (Api.len_or_0 (Api.standardized_df c)));
               ("analytics_records", JInt (Api.len_or_0 (Api.analytics_df c)));
               ("anomalies_found", JInt (Api.len_or_0 (Api.anomalies_df c)))]) 200.

(** The files the views are served from. *)
Definition data_files : list string :=
  [standardized_items_csv; cost_analytics_csv; anomalies_csv; purchase_orders_raw_csv].

(** ** A small project, for the examples *)

Definition demo_standardized : dataframe :=
  DataFrame ["po_id"; "item_code"; "canonical_item_name"; "confidence_score"]
            [[VStr "PO1"; VStr "ITEM_001"; VStr "carbon steel pipe 100mm"; VFloat (95 # 100)];
             [VStr "PO2"; VStr "ITEM_001"; VStr "carbon steel pipe 100mm"; VFloat 1];
             [VStr "PO3"; VStr "ITEM_002"; VNaN; VNaN]].

Definition demo_raw : dataframe :=
  DataFrame ["po_id"; "item_description"; "unit_price"; "quantity"; "unit";
             "po_date"; "region"; "department"; "supplier"]
            [[VStr "PO1"; VStr "Carbon Steel Pipe 100mm"; VFloat 1200; VInt 10; VStr "pcs";
              VStr "2024-01-01"; VStr "North"; VStr "Maintenance"; VStr "ABC Metals"];
             [VStr "PO2"; VStr "carbon steel pipe 100 mm"; VFloat 1205; VInt 5; VStr "pcs";
              VStr "2024-01-02"; VStr "North"; VStr "Production"; VNaN]].

(** Raw orders none of which names its supplier. *)
Definition demo_raw_unnamed : dataframe :=
  DataFrame ["po_id"; "item_description"; "unit_price"; "quantity"; "unit";
             "po_date"; "region"; "department"; "supplier"]
            [[VStr "PO1"; VStr "Carbon Steel Pipe 100mm"; VFloat 1200; VInt 10; VStr "pcs";
              VStr "2024-01-01"; VStr "North"; VStr "Maintenance"; VNaN];
             [VStr "PO2"; VStr "carbon steel pipe 100 mm"; VFloat 1205; VInt 5; VStr "pcs";
              VStr "2024-01-02"; VStr "North"; VStr "Production"; VNaN]].

(** A table of raw orders without the [supplier] column. *)
Definition demo_raw_no_supplier : dataframe :=
  DataFrame ["po_id"; "item_description"; "unit_price"; "quantity"; "unit";
             "po_date"; "region"; "department"]
            [[VStr "PO9"; VStr "Gate Valve CS 50mm"; VFloat 4500; VInt 3; VStr "pcs";
              VStr "2024-01-03"; VStr "East"; VStr "Maintenance"]].

Definition demo_analytics : dataframe :=
  DataFrame ["canonical_item_name"; "region"; "avg_price"; "price_std"]
            [[VStr "carbon steel pipe 100mm"; VStr "North"; VFloat (24050 # 20); VNaN]].

Definition demo_anomalies : dataframe :=
  DataFrame Frontend.anomalies_columns [].

Definition demo_files : gmap string file :=
  <[Api.pipeline_script := OtherFile "python source"]>
  (<[standardized_items_csv := CsvFile demo_standardized]>
  (<[cost_analytics_csv := CsvFile demo_analytics]>
  (<[anomalies_csv := CsvFile demo_anomalies]>
  (<[purchase_orders_raw_csv := CsvFile demo_raw]> ∅)))).

(** The accessor on the tables of the examples, which are as [read_csv]
    and the join of [load_data] leave them: it takes a column of a
    table without rows, and a column that holds a string. *)
Definition demo_validate (df : dataframe) (col : string) : bool :=
  match col_index (columns df) col with
  | Some i =>
      bool_decide (rows df = [])
      || existsb (fun row => match cell row i with VStr _ => true | _ => false end)
                 (rows df)
  | None => false
  end.

(** A letter, a digit or a space: a character that stands for itself in
    a pattern. *)
Definition plain_char (a : ascii) : bool :=
  let n := nat_of_ascii a in
  (Nat.leb 65 n && Nat.leb n 90) || (Nat.leb 97 n && Nat.leb n 122)
  || (Nat.leb 48 n && Nat.leb n 57) || Nat.eqb n 32.

Fixpoint plain (pat : string) : bool :=
  match pat with
  | EmptyString => true
  | String a pat' => plain_char a && plain pat'
  end.

(** A stand-in for [re.compile(pat, re.IGNORECASE)] that knows the
    patterns of the examples: a pattern of plain characters is looked
    for as it is written, whatever the case; any other text is turned
    down, as [re] turns down ["*"] and ["("]. *)
Definition demo_compile (pat : string) : result (string -> bool) :=
  if plain pat
  then Ok (fun s => match String.index 0 (Api.lower pat) (Api.lower s) with
                    | Some _ => true
                    | None => false
                    end)
  else Raise (PatternError
                (if String.eqb pat "*" then "nothing to repeat at position 0"
                 else "missing ), unterminated subpattern at position 0")).

Definition demo_aggregate (df : dataframe) : result json := Ok JNull.

Definition demo_stats (std ana : dataframe) (ano : option dataframe) : result json :=
  Ok (JObj [("total_items", JInt (len std))]).

Definition demo_serve : Api.endpoint -> Api.cache -> Api.items_args -> result reply :=
  Api.serve demo_validate demo_compile demo_stats demo_aggregate demo_aggregate
            demo_aggregate.

(** A pipeline that writes nothing. *)
Definition demo_pipeline (seconds returncode : Z) (out err : string) : Api.child :=
  Api.Runs seconds (fun _ fs => fs) returncode out err.

(** * Vocabulary of the further statements *)

(** [s] has no dot. *)
Fixpoint dotless (s : string) : bool :=
  match s with
  | EmptyString => true
  | String a s' => negb (Ascii.eqb a ".") && dotless s'
  end.

(** The exception [read_csv] raises on a file that is not a table. *)
Definition parse_error (f : file) : option exn :=
  match f with
  | EmptyFile => Some EmptyDataError
  | CsvFile _ => None
  | OtherFile why => Some (ParserError why)
  end.

(** The columns of the raw orders that [load_data] joins to the
    standardized items. *)
Definition joined_columns : list string :=
  ["po_id"; "unit_price"; "supplier"; "region"; "quantity"; "unit"; "po_date"].

(** No two rows of [df] have the same cell in column [col] (as join
    keys). *)
Definition unique_in (col : string) (df : dataframe) : Prop :=
  forall i k, col_index (columns df) col = Some i ->
    (length (filter (fun row => value_eqb (cell row i) k = true) (rows df)) <= 1)%nat.

(** The columns joined to the standardized items, besides the key. *)
Definition joined_values : list string :=
  ["unit_price"; "supplier"; "region"; "quantity"; "unit"; "po_date"].

(** The name under which a column of the joined table is served. *)
Definition served_name (c : string) : string :=
  if decide (c = "supplier") then "supplier_name"
  else if decide (c = "confidence_score") then "standardization_confidence"
  else c.

(** The rows of a left join: for each row of the left table, its matches
    in the right table, the cells under a mark of [ints] stored as
    floats, or one row with missing values. *)
Definition joined_rows (il ir : nat) (width : nat) (ints : list bool)
    (right_rows : list (list value)) (lrow : list value) : list (list value) :=
  match filter (fun rrow => value_eqb (cell rrow ir) (cell lrow il) = true) right_rows with
  | [] => [lrow ++ replicate width VNaN]
  | ms => map (fun rrow => lrow ++ upcast ints (delete ir rrow)) ms
  end.

(** The cells of the column [key], the keys of a join on it. *)
Definition key_cells (key : string) (df : dataframe) : list value :=
  match col_index (columns df) key with
  | Some i => column_cells df i
  | None => []
  end.

(** The rows of page [page]: [df.iloc[start:end]] of [get_items]. *)
Definition page_rows (df : dataframe) (page per_page : Z) : list (list value) :=
  rows (iloc df ((page - 1) * per_page) ((page - 1) * per_page + per_page)).

(** A cell matches a compiled pattern: it is a string in which the
    pattern is found. *)
Definition cell_matches (pat : string -> bool) (c : value) : bool :=
  match c with
  | VStr s => pat s
  | _ => false
  end.

(** What the search of the items view gives on the table [std]: the
    first of the errors that the code meets, or the rows in which the
    item name or the supplier name matches. *)
Definition search_result (str_validate : dataframe -> string -> bool)
    (re_compile : string -> result (string -> bool))
    (std : dataframe) (search : string) : result dataframe :=
  match col_index (columns std) "canonical_item_name" with
  | None => Raise (KeyError "canonical_item_name")
  | Some i =>
      if negb (str_validate std "canonical_item_name") then Raise Api.not_string_values
      else
        match re_compile search with
        | Raise e => Raise e
        | Ok pat =>
            match col_index (columns std) "supplier_name" with
            | None => Raise (KeyError "supplier_name")
            | Some j =>
                if negb (str_validate std "supplier_name")
                then Raise Api.not_string_values
                else Ok (DataFrame (columns std)
                           (filter (fun row => cell_matches pat (cell row i)
                                               || cell_matches pat (cell row j) = true)
                                   (rows std)))
            end
        end
  end.

(** The body of the items view. *)
Definition items_body (cols : list string) (served : list (list value))
    (total page per_page pages : Z) : json :=
  JObj [("items", render_table cols served);
        ("total", JInt total);
        ("page", JInt page);
        ("per_page", JInt per_page);
        ("pages", JInt pages)].

(** A row of the raw orders passes the dashboard's filters: [ir], [id],
    [ii] and [is] are the positions of its region, department, item
    description and supplier. *)
Definition raw_kept (pat : string -> bool)
    (region dept search : string) (ir id ii is_ : nat) (row : list value) : bool :=
  (bool_decide (region = "All") || Dashboard.is_str region (cell row ir))
  && (bool_decide (dept = "All") || Dashboard.is_str dept (cell row id))
  && (bool_decide (search = "")
      || cell_matches pat (cell row ii)
      || cell_matches pat (cell row is_)
      || cell_matches pat (cell row ir)).

(** How many rows of [df] have a cell at position [i] that satisfies
    [p]. *)
Definition count_rows (df : dataframe) (i : nat) (p : value -> bool) : Z :=
  Z.of_nat (length (filter (fun row => p (cell row i) = true) (rows df))).

(** [float(x)] on the cells of the examples. *)
Definition demo_float (v : value) : result value :=
  match v with
  | VNaN => Ok VNaN
  | VInt z => Ok (VFloat (inject_Z z))
  | VFloat q => Ok (VFloat q)
  | VBool b => Ok (VFloat (if b then 1 else 0))
  | VStr s => Raise (ParserError ("could not convert string to float: " +:+ s))
  | VNone => Raise (ParserError "float() argument must be a string or a real number")
  end.

(** The columns that the price-trend view reads as they are, and those
    it converts with [float]. *)
Definition trend_labels : list string := ["canonical_item_name"; "trend_direction"].
Definition trend_numbers : list string :=
  ["avg_price"; "min_price"; "max_price"; "price_std"].

(** Anomalies with their reasons. *)
Definition demo_flagged : dataframe :=
  DataFrame Frontend.anomalies_columns
    [[VStr "PO3"; VStr "ITEM_001"; VFloat 3000; VFloat (24050 # 20); VBool true;
      VStr "CRITICAL: 149% above expected price"];
     [VStr "PO4"; VStr "ITEM_001"; VFloat 1800; VFloat (24050 # 20); VBool true;
      VStr "HIGH: 50% above expected price"];
     [VStr "PO5"; VStr "ITEM_002"; VFloat 6200; VFloat 5000; VBool true;
      VStr "MEDIUM: 24% above expected price"];
     [VStr "PO6"; VStr "ITEM_002"; VFloat 9900; VFloat 5000; VBool true;
      VStr "CRITICAL: price too HIGH"]].

(** * Properties *)

(** ** The orchestrator *)

Section PipelineFacts.
Import Pipeline.

Implicit Types (env : stage -> outcome) (s : stage) (e : string).

(** A run, by the way its guarded blocks end. *)
Lemma run_pipeline_cases env :
  run_pipeline env =
    match env STANDARDIZATION with
    | Raises e =>
        (banner_1 ++ [Enter STANDARDIZATION;
                      Print ("Error in standardization: " +:+ e); PrintExc e],
         inl 1)
    | Exits code => (banner_1 ++ [Enter STANDARDIZATION], inl code)
    | Returns =>
        match env ANALYTICS with
        | Raises e =>
            ((banner_1 ++ Enter STANDARDIZATION :: banner_2)
               ++ [Enter ANALYTICS; Print ("Error in analytics: " +:+ e); PrintExc e],
             inl 1)
        | Exits code =>
            ((banner_1 ++ Enter STANDARDIZATION :: banner_2) ++ [Enter ANALYTICS],
             inl code)
        | Returns =>
            (banner_1 ++ Enter STANDARDIZATION :: banner_2 ++ Enter ANALYTICS :: banner_3,
             inr tt)
        end
    end.
Proof.
  unfold run_pipeline, guarded.
  destruct (env STANDARDIZATION); [destruct (env ANALYTICS)| |]; reflexivity.
Qed.

(** The stages a run enters are [STANDARDIZATION], then [ANALYTICS] when
    the first one returned: the order is fixed, and no stage is entered
    twice. *)
Lemma stages_run_cases env :
  stages_run env =
    match env STANDARDIZATION with
    | Returns => [STANDARDIZATION; ANALYTICS]
    | _ => [STANDARDIZATION]
    end.
Proof.
  unfold stages_run. rewrite run_pipeline_cases.
  destruct (env STANDARDIZATION); [destruct (env ANALYTICS)| |]; reflexivity.
Qed.

(** The exit code: 0 at the end of the script, 1 from a handler, and the
    code of the exit when a block leaves through one. *)
Lemma exit_code_cases env :
  exit_code (run_pipeline env) =
    match env STANDARDIZATION with
    | Returns =>
        match env ANALYTICS with
        | Returns => 0
        | Raises _ => 1
        | Exits code => code
        end
    | Raises _ => 1
    | Exits code => code
    end.
Proof.
  rewrite run_pipeline_cases.
  destruct (env STANDARDIZATION); [destruct (env ANALYTICS)| |]; reflexivity.
Qed.


(** The success line is printed exactly when both blocks return. *)
Lemma success_line_iff env :
  Print "PIPELINE COMPLETED SUCCESSFULLY!" ∈ trace (run_pipeline env) <->
  env STANDARDIZATION = Returns /\ env ANALYTICS = Returns.
Proof.
  rewrite run_pipeline_cases.
  destruct (env STANDARDIZATION); [destruct (env ANALYTICS)| |]; cbn [trace fst];
    (split; [intros Hin | intros [[=] [=]]]);
    try (split; reflexivity);
    try (apply list_elem_of_In in Hin; cbn in Hin;
         repeat (destruct Hin as [Hin|Hin]; [discriminate Hin|]); destruct Hin).
  apply list_elem_of_In. vm_compute. repeat (first [left; reflexivity | right]).
Qed.



(** C2: in a run in which an entered stage raises, the script prints the
    error and the traceback and leaves through [sys.exit(1)]: these are
    the last events of the run, the exit code is 1, and the stage that
    raised is the last one entered. *)
Theorem run_pipeline_aborts_on_stage_error env s e :
  s ∈ stages_run env ->
  env s = Raises e ->
  exists before label,
    trace (run_pipeline env) =
      before ++ [Enter s; Print ("Error in " +:+ label +:+ ": " +:+ e); PrintExc e] /\
    stages_run env = stages_of before ++ [s] /\
    exit_code (run_pipeline env) = 1 /\
    exit_code (run_pipeline env) <> 0.
Proof.
  intros Hin Hs. unfold stages_run. rewrite stages_run_cases in Hin.
  destruct (env STANDARDIZATION) as [|e1|c1] eqn:H1.
  - assert (s = ANALYTICS) as ->.
    { rewrite !elem_of_cons, elem_of_nil in Hin.
      destruct Hin as [->|[->|[]]]; [congruence | reflexivity]. }
    rewrite run_pipeline_cases, H1, Hs.
    exists (banner_1 ++ Enter STANDARDIZATION :: banner_2), "analytics".
    repeat split; discriminate.
  - assert (s = STANDARDIZATION) as ->.
    { rewrite !elem_of_cons, elem_of_nil in Hin.
      destruct Hin as [->|[]]; reflexivity. }
    assert (e1 = e) as -> by congruence.
    rewrite run_pipeline_cases, H1.
    exists banner_1, "standardization".
    repeat split; discriminate.
  - rewrite !elem_of_cons, elem_of_nil in Hin.
    destruct Hin as [->|[]]. congruence.
Qed.

End PipelineFacts.

Lemma run_pipeline_aborts_on_stage_error_witness :
  let env := fun s => match s with
                      | Pipeline.ANALYTICS => Pipeline.Raises "boom"
                      | _ => Pipeline.Returns
                      end in
  exists before label,
    Pipeline.trace (Pipeline.run_pipeline env) =
      before ++ [Pipeline.Enter Pipeline.ANALYTICS;
                 Pipeline.Print ("Error in " +:+ label +:+ ": " +:+ "boom");
                 Pipeline.PrintExc "boom"] /\
    Pipeline.stages_run env = Pipeline.stages_of before ++ [Pipeline.ANALYTICS] /\
    Pipeline.exit_code (Pipeline.run_pipeline env) = 1 /\
    Pipeline.exit_code (Pipeline.run_pipeline env) <> 0.
Proof.
  intros env.
  apply (run_pipeline_aborts_on_stage_error env Pipeline.ANALYTICS "boom").
  - apply list_elem_of_In. vm_compute. right. left. reflexivity.
  - reflexivity.
Defined.


(** ** Strings and paths *)

Lemma str_app_assoc (a b c : string) : (a +:+ b) +:+ c = a +:+ (b +:+ c).
Proof.
  induction a as [|x a IH]; [reflexivity|].
  change (String x ((a +:+ b) +:+ c) = String x (a +:+ (b +:+ c))).
  now rewrite IH.
Qed.

Lemma str_app_nil_r (a : string) : a +:+ "" = a.
Proof.
  induction a as [|x a IH]; [reflexivity|].
  change (String x (a +:+ "") = String x a).
  now rewrite IH.
Qed.

Lemma mentions_app_l (pre msg c : string) :
  mentions msg c -> mentions (pre +:+ msg) c.
Proof.
  intros (p & q & ->). exists (pre +:+ p), q. now rewrite str_app_assoc.
Qed.

Lemma join_mentions (sep c : string) (l : list string) :
  c ∈ l -> mentions (join sep l) c.
Proof.
  induction l as [|x l IH]; intros Hin.
  - now apply elem_of_nil in Hin.
  - apply elem_of_cons in Hin as [->|Hin].
    + destruct l as [|y l].
      * exists "", "". simpl. now rewrite str_app_nil_r.
      * exists "", (sep +:+ join sep (y :: l)). reflexivity.
    + destruct l as [|y l]; [now apply elem_of_nil in Hin|].
      change (join sep (x :: y :: l)) with (x +:+ sep +:+ join sep (y :: l)).
      apply mentions_app_l, mentions_app_l, IH, Hin.
Qed.

(** The upload folder, the raw-data file and its backups are different
    places. *)
Lemma upload_path_not_raw (saved : string) :
  path_join UPLOAD_FOLDER saved <> Api.raw_data_path.
Proof. discriminate. Qed.

Lemma upload_path_not_backup (saved ts : string) :
  path_join UPLOAD_FOLDER saved <> Api.backup_path ts.
Proof. discriminate. Qed.

Lemma backup_path_not_raw (ts : string) :
  Api.backup_path ts <> Api.raw_data_path.
Proof. discriminate. Qed.

Lemma raw_data_path_eq : Api.raw_data_path = purchase_orders_raw_csv.
Proof. reflexivity. Qed.

Lemma str_length_app (a b : string) :
  String.length (a +:+ b) = (String.length a + String.length b)%nat.
Proof.
  induction a as [|x a IH]; [reflexivity|].
  change (S (String.length (a +:+ b)) = S (String.length a + String.length b)).
  now rewrite IH.
Qed.

Lemma str_app_inj_l (a b c : string) : a +:+ c = b +:+ c -> a = b.
Proof.
  revert b. induction a as [|x a IH]; intros [|y b] H.
  - reflexivity.
  - apply (f_equal String.length) in H. rewrite !str_length_app in H.
    cbn [String.length] in H. lia.
  - apply (f_equal String.length) in H. rewrite !str_length_app in H.
    cbn [String.length] in H. lia.
  - change (String x (a +:+ c) = String y (b +:+ c)) in H.
    injection H as -> H. f_equal. now apply IH.
Qed.

(** Two timestamps have two backup files. *)
Lemma backup_path_inj (ts ts' : string) :
  Api.backup_path ts = Api.backup_path ts' -> ts = ts'.
Proof.
  unfold Api.backup_path, path_join. cbn [String.append]. intros H.
  injection H as H. exact (str_app_inj_l ts ts' ".csv" H).
Qed.

(** ** Ingestion: [upload_file] *)

Section UploadFacts.
Import Api.
Variable secure_filename : string -> string.

Lemma allowed_file_nonempty name : allowed_file name = true -> name <> "".
Proof. intros H ->. discriminate. Qed.

(** An upload with an allowed name whose content parses: the two ways it
    can end. *)
Lemma upload_file_csv ts name df fs :
  allowed_file name = true ->
  upload_file secure_filename ts (Some (Upload name (CsvFile df))) fs =
    let filepath := upload_path secure_filename ts name in
    let fs1 := <[filepath := CsvFile df]> fs in
    let missing := filter (fun col => col ∉ columns df) required_columns in
    if bool_decide (missing ≠ [])
    then (Ok (Reply (JObj [("error", JStr ("Missing required columns: " +:+ join ", " missing));
                           ("required_columns", JList (JStr <$> required_columns))]) 400),
          delete filepath fs1)
    else (Ok (Reply (JObj [("message", JStr "File uploaded successfully");
                           ("filename", JStr ("upload_" +:+ ts +:+ "_" +:+ secure_filename name));
                           ("rows", JInt (len df));
                           ("columns", JList (JStr <$> columns df))]) 200),
          <[raw_data_path := CsvFile df]>
            (match fs !! raw_data_path with
             | Some old => <[backup_path ts := old]> fs1
             | None => fs1
             end)).
Proof.
  intros Hok. pose proof (allowed_file_nonempty name Hok) as Hne.
  unfold upload_file, io_try. cbn [filename content].
  rewrite bool_decide_eq_false_2 by assumption. rewrite Hok. cbn [negb].
  unfold mbind, io_bind, save, io_read_csv, read_csv.
  rewrite lookup_insert_eq. cbv zeta. unfold upload_path.
  pose proof (upload_path_not_raw ("upload_" +:+ ts +:+ "_" +:+ secure_filename name)) as Hraw.
  pose proof (upload_path_not_backup ("upload_" +:+ ts +:+ "_" +:+ secure_filename name) ts) as Hbak.
  set (filepath := path_join UPLOAD_FOLDER _) in *.
  case_bool_decide as Hmiss.
  - unfold os_remove. rewrite lookup_insert_eq. reflexivity.
  - unfold exists_, shutil_copy, mret, io_ret.
    rewrite lookup_insert_ne by assumption.
    destruct (fs !! raw_data_path) as [old|] eqn:Hold.
    + rewrite bool_decide_eq_true_2 by eauto.
      rewrite lookup_insert_ne by assumption. rewrite Hold.
      rewrite lookup_insert_ne by (intros E; apply Hbak; symmetry; exact E).
      rewrite lookup_insert_eq. reflexivity.
    + rewrite bool_decide_eq_false_2 by (intros [? ?]; discriminate).
      rewrite lookup_insert_eq. reflexivity.
Qed.

(** An upload whose content does not parse is answered with status 400. *)
Lemma upload_file_unparsable ts name f fs :
  allowed_file name = true ->
  (forall df, f <> CsvFile df) ->
  exists msg,
    upload_file secure_filename ts (Some (Upload name f)) fs =
      (Ok (Reply (error_body msg) 400),
       delete (upload_path secure_filename ts name) (<[upload_path secure_filename ts name := f]> fs)).
Proof.
  intros Hok Hf. pose proof (allowed_file_nonempty name Hok) as Hne.
  unfold upload_file, io_try. cbn [filename content].
  rewrite bool_decide_eq_false_2 by assumption. rewrite Hok. cbn [negb].
  unfold mbind, io_bind, save, io_read_csv, read_csv.
  rewrite lookup_insert_eq. fold (upload_path secure_filename ts name).
  destruct f as [|df|why]; [|now destruct (Hf df)|];
    unfold exists_, os_remove, mret, io_ret;
    rewrite lookup_insert_eq, bool_decide_eq_true_2 by eauto;
    rewrite lookup_insert_eq; eexists; reflexivity.
Qed.

(** Only an upload with an allowed name, whose content parses and has
    every required column, is answered with status 200. *)
Lemma upload_file_success ts part fs r :
  fst (upload_file secure_filename ts part fs) = Ok r ->
  status_of r = 200 ->
  exists name df,
    part = Some (Upload name (CsvFile df)) /\
    allowed_file name = true /\
    filter (fun col => col ∉ columns df) required_columns = [].
Proof.
  intros Hr H200.
  destruct part as [[name f]|]; [|cbn in Hr; injection Hr as <-; discriminate].
  destruct (allowed_file name) eqn:Hok.
  - destruct f as [|df|why].
    + destruct (upload_file_unparsable ts name EmptyFile fs Hok) as [msg E];
        [discriminate|]. rewrite E in Hr. injection Hr as <-. discriminate.
    + exists name, df. split; [reflexivity|]. split; [exact Hok|].
      rewrite (upload_file_csv ts name df fs Hok) in Hr. cbv zeta in Hr.
      case_bool_decide as Hmiss.
      * injection Hr as <-. discriminate.
      * destruct (filter _ required_columns); [reflexivity | now destruct Hmiss].
    + destruct (upload_file_unparsable ts name (OtherFile why) fs Hok) as [msg E];
        [discriminate|]. rewrite E in Hr. injection Hr as <-. discriminate.
  - unfold upload_file, io_try in Hr. cbn [filename] in Hr. rewrite Hok in Hr.
    case_bool_decide; cbn in Hr; injection Hr as <-; discriminate.
Qed.

(** C3: an uploaded CSV (a file with an allowed name that parses as a
    table) that lacks a required column is answered with status 400 and
    the message "Missing required columns: " followed by the missing
    columns; the message names every missing column; the saved copy of
    the upload is removed, every other file is as it was, and so is the
    raw-data file. *)
Theorem upload_missing_columns_rejected ts name df fs :
  allowed_file name = true ->
  (exists c, c ∈ required_columns /\ c ∉ columns df) ->
  let out := upload_file secure_filename ts (Some (Upload name (CsvFile df))) fs in
  let missing := filter (fun col => col ∉ columns df) required_columns in
  let msg := "Missing required columns: " +:+ join ", " missing in
  fst out = Ok (Reply (JObj [("error", JStr msg);
                             ("required_columns", JList (JStr <$> required_columns))])
                      400) /\
  (forall c, c ∈ required_columns -> c ∉ columns df -> mentions msg c) /\
  snd out !! raw_data_path = fs !! raw_data_path /\
  snd out !! upload_path secure_filename ts name = None /\
  (forall p, p <> upload_path secure_filename ts name -> snd out !! p = fs !! p).
Proof.
  intros Hok (c0 & Hc0 & Hc0').
  cbv zeta. rewrite (upload_file_csv ts name df fs Hok). cbv zeta.
  assert (filter (fun col => col ∉ columns df) required_columns <> []) as Hmiss.
  { intros E. assert (c0 ∈ filter (fun col => col ∉ columns df) required_columns) as Hin
      by (apply list_elem_of_filter; auto).
    rewrite E in Hin. now apply elem_of_nil in Hin. }
  rewrite bool_decide_eq_true_2 by assumption. cbn [fst snd].
  split; [reflexivity|]. split; [|split; [|split]].
  - intros c Hc Hc'. apply mentions_app_l, join_mentions, list_elem_of_filter. auto.
  - rewrite lookup_delete_ne by apply upload_path_not_raw.
    now rewrite lookup_insert_ne by apply upload_path_not_raw.
  - apply lookup_delete_eq.
  - intros p Hp. rewrite lookup_delete_ne by congruence.
    now rewrite lookup_insert_ne by congruence.
Qed.

(** C4, as the code has it: after a successful upload (status 200) made
    when a raw-data file exists, the backup file named after the
    timestamp of this upload holds what the raw-data file held before,
    and the raw-data file holds the uploaded content; the backups named
    after other timestamps are as they were. *)
Theorem upload_backs_up_prior_raw ts part fs r old :
  fst (upload_file secure_filename ts part fs) = Ok r ->
  status_of r = 200 ->
  fs !! raw_data_path = Some old ->
  let fs' := snd (upload_file secure_filename ts part fs) in
  fs' !! backup_path ts = Some old /\
  (exists u, part = Some u /\ fs' !! raw_data_path = Some (content u)) /\
  (forall ts', ts' <> ts -> fs' !! backup_path ts' = fs !! backup_path ts').
Proof.
  intros Hr H200 Hold.
  destruct (upload_file_success ts part fs r Hr H200) as (name & df & -> & Hok & Hmiss).
  cbv zeta. rewrite (upload_file_csv ts name df fs Hok). cbv zeta.
  rewrite Hmiss, Hold.
  rewrite bool_decide_eq_false_2 by (intros E; now apply E). cbn [snd].
  split; [|split].
  - rewrite lookup_insert_ne by (intros E; symmetry in E; revert E; apply backup_path_not_raw).
    apply lookup_insert_eq.
  - eexists. split; [reflexivity|]. apply lookup_insert_eq.
  - intros ts' Hts.
    rewrite lookup_insert_ne by (intros E; symmetry in E; revert E; apply backup_path_not_raw).
    rewrite lookup_insert_ne by (intros E; apply Hts; symmetry; now apply backup_path_inj).
    apply lookup_insert_ne. apply upload_path_not_backup.
Qed.

End UploadFacts.

(** ** Trigger: [process_data] *)

Section TriggerFacts.
Import Api.

Implicit Types (st : server) (writes : Z -> gmap string file -> gmap string file).

(** A pipeline that ends within the timeout. *)
Lemma process_data_completed st secs writes rc out err :
  is_Some (files st !! pipeline_script) ->
  secs <= 300 ->
  process_data (Runs secs writes rc out err) st =
    let fs' := writes secs (files st) in
    if rc =? 0
    then (success_reply out (load_data fs'), Server fs' (load_data fs'))
    else (failure_reply out err, Server fs' (tables st)).
Proof.
  intros [f Hf] Hsecs. unfold process_data, subprocess_run.
  rewrite bool_decide_eq_false_2 by (rewrite Hf; discriminate).
  assert ((300 <? secs) = false) as -> by lia.
  cbn [returncode stdout stderr]. reflexivity.
Qed.

(** A pipeline that is still running after 300 seconds. *)
Lemma process_data_timed_out st secs writes rc out err :
  is_Some (files st !! pipeline_script) ->
  300 < secs ->
  process_data (Runs secs writes rc out err) st =
    (timeout_reply, Server (writes 300 (files st)) (tables st)).
Proof.
  intros [f Hf] Hsecs. unfold process_data, subprocess_run.
  rewrite bool_decide_eq_false_2 by (rewrite Hf; discriminate).
  assert ((300 <? secs) = true) as -> by lia.
  reflexivity.
Qed.

(** The cached tables change only when the pipeline ended, within the
    timeout, with code 0. *)
Lemma process_data_tables_changed pipeline st :
  tables (snd (process_data pipeline st)) <> tables st ->
  exists secs writes out err,
    pipeline = Runs secs writes 0 out err /\ secs <= 300.
Proof.
  intros Hne. unfold process_data in Hne.
  case_bool_decide as Hs; [now destruct Hne|].
  destruct pipeline as [msg|secs writes rc out err]; [now destruct Hne|].
  unfold subprocess_run in Hne.
  destruct (300 <? secs) eqn:Ht; [now destruct Hne|].
  cbn [returncode] in Hne.
  destruct (rc =? 0) eqn:Hrc; [|now destruct Hne].
  exists secs, writes, out, err. split; [f_equal; lia | lia].
Qed.

(** C5, as the code has it: a pipeline that ends within the 300 seconds
    is answered with its standard output in both cases; with code 0 the
    tables are loaded again from the files it left and the status is 200;
    with another code the cached tables stay as they were and the answer
    is the status-500 "Processing failed" response with the standard
    output and the standard error. The standard error of a successful
    run and the value of the exit code are in no response. *)
Theorem process_data_reloads_iff_exit_0 st secs writes rc out err :
  is_Some (files st !! pipeline_script) ->
  secs <= 300 ->
  let fs' := writes secs (files st) in
  let res := process_data (Runs secs writes rc out err) st in
  files (snd res) = fs' /\
  (rc = 0 ->
     tables (snd res) = load_data fs' /\
     fst res = success_reply out (load_data fs') /\
     status_of (fst res) = 200) /\
  (rc <> 0 ->
     tables (snd res) = tables st /\
     fst res = failure_reply out err /\
     status_of (fst res) = 500) /\
  (tables (snd res) <> tables st -> rc = 0).
Proof.
  intros Hs Hsecs. cbv zeta.
  split; [|split; [|split]].
  - rewrite (process_data_completed st secs writes rc out err Hs Hsecs). cbv zeta.
    destruct (rc =? 0); reflexivity.
  - intros ->. rewrite (process_data_completed st secs writes 0 out err Hs Hsecs).
    cbn. repeat split.
  - intros Hrc. rewrite (process_data_completed st secs writes rc out err Hs Hsecs).
    cbv zeta. assert ((rc =? 0) = false) as -> by lia. repeat split.
  - intros Hne. apply process_data_tables_changed in Hne
      as (secs' & writes' & out' & err' & E & _).
    congruence.
Qed.

(** C6: a pipeline that runs past the 300 seconds is answered with the
    "Processing timeout" response and the cached tables stay as they
    were; no pipeline that ended with a non-zero code is answered with
    it, whatever it wrote. *)
Theorem process_data_timeout_is_distinct st secs writes rc out err :
  is_Some (files st !! pipeline_script) ->
  300 < secs ->
  let res := process_data (Runs secs writes rc out err) st in
  fst res = timeout_reply /\
  tables (snd res) = tables st /\
  (forall st2 secs2 writes2 rc2 out2 err2,
     is_Some (files st2 !! pipeline_script) ->
     secs2 <= 300 ->
     rc2 <> 0 ->
     fst (process_data (Runs secs2 writes2 rc2 out2 err2) st2) <> fst res) /\
  (forall out2 err2, failure_reply out2 err2 <> timeout_reply).
Proof.
  intros Hs Hsecs. cbv zeta.
  rewrite (process_data_timed_out st secs writes rc out err Hs Hsecs). cbn [fst snd].
  split; [reflexivity|]. split; [reflexivity|]. split.
  - intros st2 secs2 writes2 rc2 out2 err2 Hs2 Hsecs2 Hrc2.
    rewrite (process_data_completed st2 secs2 writes2 rc2 out2 err2 Hs2 Hsecs2).
    cbv zeta. assert ((rc2 =? 0) = false) as -> by lia. discriminate.
  - discriminate.
Qed.

End TriggerFacts.

(** ** Serving: the read-only views *)

Section ServingFacts.
Import Api.

Variable str_validate : dataframe -> string -> bool.
Variable re_compile : string -> result (string -> bool).
Variable stats_body : dataframe -> dataframe -> option dataframe -> result json.
Variable trends_body : dataframe -> result json.
Variable suppliers_body : dataframe -> result json.
Variable category_counts : dataframe -> result json.

Abbreviation serve := (Api.serve str_validate re_compile stats_body trends_body suppliers_body
                             category_counts).

(** [load_data] gives three tables or none. *)
Lemma load_data_all_or_none fs :
  load_data fs = Cache None None None \/
  exists std ana ano, load_data fs = Cache (Some std) (Some ana) (Some ano).
Proof.
  unfold load_data.
  destruct (read_csv fs standardized_items_csv) as [std|]; [|left; reflexivity].
  destruct (read_csv fs cost_analytics_csv) as [ana|]; [|left; reflexivity].
  destruct (read_csv fs anomalies_csv) as [ano|]; [|left; reflexivity].
  destruct (read_csv fs purchase_orders_raw_csv) as [raw|]; [|left; reflexivity].
  cbn [mbind result_bind try_except].
  destruct (select_columns raw _) as [wanted|]; [|left; reflexivity].
  cbn [mbind result_bind try_except].
  destruct (merge_left "po_id" std wanted) as [merged|]; [|left; reflexivity].
  right. eexists _, _, _. reflexivity.
Qed.

(** When one of the four data files cannot be read, no table is loaded. *)
Lemma load_data_unreadable fs path err :
  path ∈ data_files ->
  read_csv fs path = Raise err ->
  load_data fs = Cache None None None.
Proof.
  intros Hin Hread. unfold data_files in Hin.
  rewrite !elem_of_cons, elem_of_nil in Hin.
  unfold load_data.
  destruct (read_csv fs standardized_items_csv) as [std|] eqn:H1; [|reflexivity].
  destruct (read_csv fs cost_analytics_csv) as [ana|] eqn:H2; [|reflexivity].
  destruct (read_csv fs anomalies_csv) as [ano|] eqn:H3; [|reflexivity].
  destruct (read_csv fs purchase_orders_raw_csv) as [raw|] eqn:H4; [|reflexivity].
  destruct Hin as [->|[->|[->|[->|[]]]]]; congruence.
Qed.

(** Without tables every view answers, and none raises. *)
Lemma serve_not_loaded e args :
  serve e (Cache None None None) args = Ok (not_loaded_reply e).
Proof. destruct e; reflexivity. Qed.



(** *** Records *)

Lemma dict_set_map {V W} (f : V -> W) (d : list (string * V)) k v :
  prod_map id f <$> dict_set d k v = dict_set (prod_map id f <$> d) k (f v).
Proof.
  induction d as [|[k' v'] d IH]; [reflexivity|].
  cbn. destruct (String.eqb k' k); cbn; [reflexivity|]. now rewrite <- IH.
Qed.

Lemma foldl_dict_set_map {V W} (f : V -> W) (kvs d : list (string * V)) :
  prod_map id f <$> foldl (fun d kv => dict_set d (fst kv) (snd kv)) d kvs =
  foldl (fun d kv => dict_set d (fst kv) (snd kv))
        (prod_map id f <$> d) (prod_map id f <$> kvs).
Proof.
  revert d. induction kvs as [|[k v] kvs IH]; intros d; [reflexivity|].
  cbn. rewrite IH, dict_set_map. reflexivity.
Qed.

Lemma dict_of_map {V W} (f : V -> W) (kvs : list (string * V)) :
  prod_map id f <$> dict_of kvs = dict_of (prod_map id f <$> kvs).
Proof. apply (foldl_dict_set_map f kvs []). Qed.

Lemma zip_map_r {V W} (f : V -> W) (cols : list string) (row : list V) :
  zip cols (f <$> row) = prod_map id f <$> zip cols row.
Proof.
  revert row. induction cols as [|c cols IH]; intros [|v row]; cbn; try reflexivity.
  now rewrite IH.
Qed.

Lemma render_cell_eq v : render_cell v = to_json (nan_to_none v).
Proof. destruct v; reflexivity. Qed.

(** What the code serves for a table is what the specification wants
    served. *)
Lemma records_json_render df :
  records_json (to_dict_records (replace_nan_None df)) =
  render_table (columns df) (rows df).
Proof.
  unfold records_json, to_dict_records, replace_nan_None, render_table. cbn [columns rows].
  f_equal. rewrite <- !list_fmap_compose. apply list_fmap_ext. intros _ row _.
  unfold compose, record_json, render_row. f_equal.
  rewrite !zip_map_r, <- !dict_of_map, <- list_fmap_compose.
  apply list_fmap_ext. intros _ [k v] _. cbn. now rewrite render_cell_eq.
Qed.

(** Setting a key keeps a property that all values have. *)
Lemma dict_set_Forall {V} (P : V -> Prop) (d : list (string * V)) k v :
  Forall (fun kv => P (snd kv)) d -> P v ->
  Forall (fun kv => P (snd kv)) (dict_set d k v).
Proof.
  intros Hd Hv. induction Hd as [|[k' v'] d Hkv Hd IH]; cbn.
  - repeat constructor. exact Hv.
  - destruct (String.eqb k' k); constructor; auto.
Qed.

Lemma dict_of_Forall {V} (P : V -> Prop) (kvs : list (string * V)) :
  Forall (fun kv => P (snd kv)) kvs ->
  Forall (fun kv => P (snd kv)) (dict_of kvs).
Proof.
  unfold dict_of. assert (Forall (fun kv => P (snd kv)) (@nil (string * V))) as Hd
    by constructor.
  revert Hd. generalize (@nil (string * V)) as d.
  induction kvs as [|[k v] kvs IH]; intros d Hd Hkvs; [exact Hd|].
  cbn. apply Forall_cons in Hkvs as [Hv Hkvs].
  apply IH; [|exact Hkvs]. now apply dict_set_Forall.
Qed.

Lemma existsb_false_Forall {A} (f : A -> bool) (l : list A) :
  Forall (fun x => f x = false) l -> existsb f l = false.
Proof. induction 1 as [|x l Hx _ IH]; cbn; [reflexivity | now rewrite Hx, IH]. Qed.

Lemma render_cell_no_nan v : has_nan (render_cell v) = false.
Proof. destruct v; reflexivity. Qed.

Lemma render_row_no_nan cols row : has_nan (render_row cols row) = false.
Proof.
  unfold render_row. cbn [has_nan].
  apply existsb_false_Forall, (dict_of_Forall (fun j => has_nan j = false)).
  apply Forall_forall. intros [k j] Hin.
  apply elem_of_zip_r, list_elem_of_fmap in Hin as (v & -> & _).
  apply render_cell_no_nan.
Qed.

Lemma render_table_no_nan cols rows : has_nan (render_table cols rows) = false.
Proof.
  unfold render_table. cbn [has_nan].
  apply existsb_false_Forall, Forall_forall. intros j Hin.
  apply list_elem_of_fmap in Hin as (row & -> & _). apply render_row_no_nan.
Qed.

(** *** Slices and pages *)

Lemma py_slice_page {A} (l : list A) (start n : Z) :
  0 <= start -> 0 <= n ->
  py_slice l start (start + n) = take (Z.to_nat n) (drop (Z.to_nat start) l).
Proof.
  intros Hs Hn. unfold py_slice, slice_bound.
  assert ((start <? 0) = false) as -> by lia.
  assert ((start + n <? 0) = false) as -> by lia.
  destruct (Z_lt_ge_dec start (Z.of_nat (length l))) as [Hlt|Hge].
  - rewrite (Z.min_l start) by lia.
    destruct (Z_le_gt_dec (start + n) (Z.of_nat (length l))) as [Hle|Hgt].
    + rewrite Z.min_l by lia. f_equal. lia.
    + rewrite Z.min_r by lia.
      rewrite !take_ge; [reflexivity | |]; rewrite length_drop; lia.
  - rewrite !drop_ge by lia. now rewrite !take_nil.
Qed.

Lemma py_slice_sublist {A} (l : list A) (start stop : Z) :
  py_slice l start stop `sublist_of` l.
Proof.
  unfold py_slice. etransitivity; [apply sublist_take | apply sublist_drop].
Qed.

Lemma select_rows_sublist df (keep : list bool) :
  rows (select_rows df keep) `sublist_of` rows df.
Proof.
  unfold select_rows. cbn [rows]. generalize (rows df) as l.
  induction keep as [|b keep IH]; intros [|row l]; try apply sublist_nil_l.
  change (zip (row :: l) (b :: keep)) with ((row, b) :: zip l keep).
  rewrite filter_cons. cbn [snd]. destruct b.
  - rewrite decide_True by reflexivity. cbn. constructor. apply IH.
  - rewrite decide_False by discriminate. constructor. apply IH.
Qed.

Lemma select_rows_fmap df (g : list value -> bool) :
  rows (select_rows df (g <$> rows df)) = filter (fun row => g row = true) (rows df).
Proof.
  unfold select_rows. cbn [rows]. induction (rows df) as [|row l IH]; [reflexivity|].
  cbn [fmap list_fmap]. change (zip (row :: l) (g row :: (g <$> l)))
    with ((row, g row) :: zip l (g <$> l)).
  rewrite !filter_cons. cbn [snd]. destruct (g row).
  - rewrite !decide_True by reflexivity. cbn [fmap list_fmap fst]. now rewrite <- IH.
  - rewrite !decide_False by discriminate. exact IH.
Qed.

Lemma select_rows_columns df keep : columns (select_rows df keep) = columns df.
Proof. reflexivity. Qed.

Lemma zip_with_fmap {A B C D} (f : B -> C -> D) (g : A -> B) (h : A -> C) (l : list A) :
  zip_with f (g <$> l) (h <$> l) = (fun a => f (g a) (h a)) <$> l.
Proof. induction l as [|a l IH]; cbn; [reflexivity | now rewrite IH]. Qed.

(** A mask is returned for a column that is there and that the accessor
    takes, and a text that is a pattern. *)
Lemma contains_mask_inv df col search m :
  contains_mask str_validate re_compile df col search = Ok m ->
  exists i pat,
    col_index (columns df) col = Some i /\
    str_validate df col = true /\
    re_compile search = Ok pat /\
    m = (fun row => cell_matches pat (cell row i)) <$> rows df.
Proof.
  unfold contains_mask.
  destruct (col_index (columns df) col) as [i|]; [|discriminate].
  destruct (str_validate df col); [|discriminate].
  destruct (re_compile search) as [pat|]; [|discriminate].
  intros [= <-]. exists i, pat. repeat split.
Qed.

(** The search filter, error by error. *)
Lemma search_filter_cases std search :
  search <> "" ->
  search_filter str_validate re_compile std search =
  search_result str_validate re_compile std search.
Proof.
  intros Hne. unfold search_filter, search_result, contains_mask.
  rewrite bool_decide_eq_false_2 by assumption.
  destruct (col_index (columns std) "canonical_item_name") as [i|]; [|reflexivity].
  destruct (str_validate std "canonical_item_name"); [|reflexivity]. cbn [negb].
  destruct (re_compile search) as [pat|e]; [|reflexivity].
  cbn [mbind result_bind].
  destruct (col_index (columns std) "supplier_name") as [j|]; [|reflexivity].
  destruct (str_validate std "supplier_name"); [|reflexivity].
  cbn [negb mbind result_bind].
  rewrite (zip_with_fmap orb
             (fun row => match cell row i with VStr s => pat s | _ => false end)
             (fun row => match cell row j with VStr s => pat s | _ => false end)).
  f_equal.
  rewrite <- (select_rows_fmap std
                (fun row => cell_matches pat (cell row i)
                            || cell_matches pat (cell row j))).
  reflexivity.
Qed.

(** What a search that returns has kept. *)
Lemma search_filter_Ok std search df :
  search_filter str_validate re_compile std search = Ok df ->
  search <> "" ->
  exists i j pat,
    col_index (columns std) "canonical_item_name" = Some i /\
    col_index (columns std) "supplier_name" = Some j /\
    str_validate std "canonical_item_name" = true /\
    str_validate std "supplier_name" = true /\
    re_compile search = Ok pat /\
    df = DataFrame (columns std)
           (filter (fun row => cell_matches pat (cell row i)
                               || cell_matches pat (cell row j) = true)
                   (rows std)).
Proof.
  intros H Hne. rewrite (search_filter_cases std search Hne) in H.
  unfold search_result in H.
  destruct (col_index (columns std) "canonical_item_name") as [i|]; [|discriminate].
  destruct (str_validate std "canonical_item_name"); [|discriminate]. cbn [negb] in H.
  destruct (re_compile search) as [pat|e]; [|discriminate].
  destruct (col_index (columns std) "supplier_name") as [j|]; [|discriminate].
  destruct (str_validate std "supplier_name"); [|discriminate]. cbn [negb] in H.
  injection H as <-. exists i, j, pat. repeat split.
Qed.

Lemma search_filter_sublist std search df :
  search_filter str_validate re_compile std search = Ok df ->
  columns df = columns std /\ rows df `sublist_of` rows std.
Proof.
  unfold search_filter. case_bool_decide.
  - intros [= <-]. split; reflexivity.
  - destruct (contains_mask str_validate re_compile std "canonical_item_name" search); [|discriminate].
    destruct (contains_mask str_validate re_compile std "supplier_name" search); [|discriminate].
    cbn. intros [= <-]. split; [reflexivity | apply select_rows_sublist].
Qed.

(** An empty search keeps the whole table. *)
Lemma search_filter_empty std : search_filter str_validate re_compile std "" = Ok std.
Proof. reflexivity. Qed.

Lemma ceil_div_bounds (total per_page : Z) :
  1 <= per_page ->
  let pages := (total + per_page - 1) / per_page in
  (pages - 1) * per_page < total <= pages * per_page.
Proof.
  intros Hp. cbv zeta.
  pose proof (Z.div_mod (total + per_page - 1) per_page ltac:(lia)) as Hdm.
  pose proof (Z.mod_pos_bound (total + per_page - 1) per_page ltac:(lia)) as Hb.
  nia.
Qed.

(** [get_items] on loaded tables, for a page and a page size of 1 or
    more. *)
Lemma get_items_loaded c std args df :
  standardized_df c = Some std ->
  search_filter str_validate re_compile std (default "" (arg_search args)) = Ok df ->
  let page := default 1 (arg_page args) in
  let per_page := default 20 (arg_per_page args) in
  1 <= page -> 1 <= per_page ->
  get_items str_validate re_compile c args =
    Ok (Reply (JObj [("items",
                      render_table (columns df)
                        (take (Z.to_nat per_page)
                              (drop (Z.to_nat ((page - 1) * per_page)) (rows df))));
                     ("total", JInt (len df));
                     ("page", JInt page);
                     ("per_page", JInt per_page);
                     ("pages", JInt ((len df + per_page - 1) / per_page))]) 200).
Proof.
  intros Hstd Hsearch page per_page Hpage Hper. unfold get_items.
  rewrite Hstd, Hsearch. cbn [mbind result_bind]. fold page per_page.
  unfold floordiv. assert ((per_page =? 0) = false) as -> by lia.
  rewrite records_json_render. unfold iloc. cbn [columns rows].
  rewrite py_slice_page by nia. reflexivity.
Qed.

(** The record views on loaded tables. *)
Lemma get_analytics_loaded c df :
  analytics_df c = Some df ->
  get_analytics c = Ok (Reply (render_table (columns df) (rows df)) 200).
Proof. intros H. unfold get_analytics. now rewrite H, records_json_render. Qed.

Lemma get_anomalies_loaded c df :
  anomalies_df c = Some df ->
  get_anomalies c = Ok (Reply (render_table (columns df) (rows df)) 200).
Proof. intros H. unfold get_anomalies. now rewrite H, records_json_render. Qed.

Lemma get_items_returns c args r :
  get_items str_validate re_compile c args = Ok r ->
  r = data_not_loaded /\ standardized_df c = None \/
  exists std served total page per_page pages,
    standardized_df c = Some std /\
    served `sublist_of` rows std /\
    r = Reply (JObj [("items", render_table (columns std) served);
                     ("total", JInt total);
                     ("page", JInt page);
                     ("per_page", JInt per_page);
                     ("pages", JInt pages)]) 200.
Proof.
  unfold get_items. destruct (standardized_df c) as [std|]; [|intros [= <-]; now left].
  destruct (search_filter str_validate re_compile std _) as [df|] eqn:Hsearch; [|discriminate].
  cbn [mbind result_bind]. unfold floordiv.
  destruct (default 20 (arg_per_page args) =? 0); [discriminate|].
  cbn [mbind result_bind]. intros [= <-]. right.
  apply search_filter_sublist in Hsearch as [Hcols Hrows].
  rewrite records_json_render. unfold iloc. cbn [columns rows]. rewrite Hcols.
  eexists std, _, _, _, _, _. split; [reflexivity|]. split; [|reflexivity].
  etransitivity; [apply py_slice_sublist | exact Hrows].
Qed.

(** C8: what the items, analytics and anomalies views answer has no
    [NaN] in it, and the records of a status-200 answer are rows of the
    cached table with every missing value written as [null]. *)
Theorem nan_rendered_as_null e c args r :
  e ∈ [Items; Analytics; Anomalies] ->
  serve e c args = Ok r ->
  has_nan (body_of r) = false /\
  (status_of r = 200 ->
   exists df served,
     table_of e c = Some df /\
     served `sublist_of` rows df /\
     records_in e (body_of r) = render_table (columns df) served) /\
  render_cell VNaN = JNull.
Proof.
  intros He Hr. rewrite !elem_of_cons, elem_of_nil in He.
  split; [|split; [|reflexivity]].
  - destruct He as [->|[->|[->|[]]]]; cbn [Api.serve] in Hr.
    + apply get_items_returns in Hr
        as [[-> _]|(std & served & total & page & per_page & pages & _ & _ & ->)];
        [reflexivity|].
      cbn [body_of has_nan existsb snd]. now rewrite render_table_no_nan.
    + unfold get_analytics in Hr. destruct (analytics_df c) as [df|]; injection Hr as <-;
        [|reflexivity].
      rewrite records_json_render. apply render_table_no_nan.
    + unfold get_anomalies in Hr. destruct (anomalies_df c) as [df|]; injection Hr as <-;
        [|reflexivity].
      rewrite records_json_render. apply render_table_no_nan.
  - intros H200. destruct He as [->|[->|[->|[]]]]; cbn [Api.serve] in Hr.
    + apply get_items_returns in Hr
        as [[-> _]|(std & served & total & page & per_page & pages & Hstd & Hsub & ->)];
        [discriminate|].
      exists std, served. repeat split; assumption.
    + unfold get_analytics in Hr. destruct (analytics_df c) as [df|] eqn:Hdf;
        injection Hr as <-; [|discriminate].
      exists df, (rows df). cbn [table_of]. rewrite records_json_render.
      repeat split; [assumption | reflexivity].
    + unfold get_anomalies in Hr. destruct (anomalies_df c) as [df|] eqn:Hdf;
        injection Hr as <-; [|discriminate].
      exists df, (rows df). cbn [table_of]. rewrite records_json_render.
      repeat split; [assumption | reflexivity].
Qed.

(** C9, as the code has it: on loaded tables, for a page and a page
    size of 1 or more and a search on which the filter returns (the
    empty search, or a pattern looked for in an item-name column and a
    supplier-name column that both hold text), the items view answers
    with status 200; the filtered table is the whole table for the empty
    search and otherwise its rows whose item name or supplier name
    matches, in their order; the items are the rows of the filtered
    table from index [(page - 1) * per_page], [per_page] of them at
    most; [total] is the size of the filtered table, whatever the page;
    [pages] is the least number of pages that hold [total] rows; and a
    page past the end has no items. *)
Theorem get_items_pagination c std page per_page search df :
  standardized_df c = Some std ->
  search_filter str_validate re_compile std search = Ok df ->
  1 <= page ->
  1 <= per_page ->
  let total := len df in
  let start := (page - 1) * per_page in
  let served := take (Z.to_nat per_page) (drop (Z.to_nat start) (rows df)) in
  let pages := (total + per_page - 1) / per_page in
  get_items str_validate re_compile c
            (ItemsArgs (Some page) (Some per_page) (Some search)) =
    Ok (Reply (JObj [("items", render_table (columns df) served);
                     ("total", JInt total);
                     ("page", JInt page);
                     ("per_page", JInt per_page);
                     ("pages", JInt pages)]) 200) /\
  served = py_slice (rows df) start (page * per_page) /\
  Z.of_nat (length served) <= per_page /\
  (pages - 1) * per_page < total <= pages * per_page /\
  (total <= start -> served = []) /\
  (search = "" -> df = std) /\
  (search <> "" ->
   exists i j pat,
     col_index (columns std) "canonical_item_name" = Some i /\
     col_index (columns std) "supplier_name" = Some j /\
     re_compile search = Ok pat /\
     df = DataFrame (columns std)
            (filter (fun row => cell_matches pat (cell row i)
                                || cell_matches pat (cell row j) = true)
                    (rows std))).
Proof.
  intros Hstd Hsearch Hpage Hper. cbv zeta.
  split; [|split; [|split; [|split; [|split; [|split]]]]].
  - now apply (get_items_loaded c std (ItemsArgs (Some page) (Some per_page) (Some search)) df).
  - replace (page * per_page) with ((page - 1) * per_page + per_page) by lia.
    symmetry. apply py_slice_page; nia.
  - rewrite length_take. lia.
  - now apply ceil_div_bounds.
  - intros Hpast. rewrite drop_ge; [apply take_nil|]. unfold len in Hpast. lia.
  - intros ->. cbn in Hsearch. now injection Hsearch as <-.
  - intros Hne.
    destruct (search_filter_Ok std search df Hsearch Hne)
      as (i & j & pat & Hi & Hj & _ & _ & Hpat & Hdf).
    exists i, j, pat. auto.
Qed.

End ServingFacts.

(** ** The dashboard's loader *)

Section FrontendFacts.
Import Frontend.

Lemma load_anomalies_fallback fs :
  fs !! anomalies_csv = None \/ fs !! anomalies_csv = Some EmptyFile ->
  load_anomalies fs = Ok (DataFrame anomalies_columns []).
Proof. unfold load_anomalies, read_csv. intros [-> | ->]; reflexivity. Qed.

(** C10: when the anomalies file is absent or has no content at all,
    the loader takes an empty table with the six anomaly columns in its
    place: with the raw, standardized and analytics files readable it
    returns the four tables, and when one of these three cannot be read
    it reports the error and stops, as it does with an anomalies file. *)
Theorem frontend_anomalies_fallback fs :
  fs !! anomalies_csv = None \/ fs !! anomalies_csv = Some EmptyFile ->
  anomalies_columns =
    ["po_id"; "item_code"; "unit_price"; "expected_price";
     "anomaly_flag"; "anomaly_reason"] /\
  match read_csv fs purchase_orders_raw_csv,
        read_csv fs standardized_items_csv,
        read_csv fs cost_analytics_csv with
  | Ok raw, Ok std, Ok ana =>
      load_data fs = Loaded raw std ana (DataFrame anomalies_columns [])
  | Raise e, _, _ | Ok _, Raise e, _ | Ok _, Ok _, Raise e =>
      load_data fs = Stopped ("Error loading data: " +:+ exn_str e)
  end.
Proof.
  intros Hano. split; [reflexivity|]. unfold load_data.
  rewrite (load_anomalies_fallback fs Hano).
  destruct (read_csv fs purchase_orders_raw_csv); [|reflexivity].
  destruct (read_csv fs standardized_items_csv); [|reflexivity].
  destruct (read_csv fs cost_analytics_csv); reflexivity.
Qed.

End FrontendFacts.

(** * The properties at work on the small project *)

(** An upload without the [supplier] column is turned down, and names
    it. *)
Lemma upload_missing_columns_rejected_witness :
  fst (Api.upload_file id "20240103_101500"
         (Some (Api.Upload "orders.csv" (CsvFile demo_raw_no_supplier))) demo_files) =
    Ok (Reply (JObj [("error", JStr "Missing required columns: supplier");
                     ("required_columns", JList (JStr <$> Api.required_columns))]) 400) /\
  mentions "Missing required columns: supplier" "supplier" /\
  snd (Api.upload_file id "20240103_101500"
         (Some (Api.Upload "orders.csv" (CsvFile demo_raw_no_supplier))) demo_files)
    !! Api.raw_data_path = Some (CsvFile demo_raw).
Proof.
  assert (Api.allowed_file "orders.csv" = true) as Hok by reflexivity.
  assert (exists c, c ∈ Api.required_columns /\ c ∉ columns demo_raw_no_supplier) as Hmiss.
  { exists "supplier". split.
    - apply list_elem_of_In. vm_compute. repeat (first [left; reflexivity | right]).
    - intros Hin. apply list_elem_of_In in Hin. vm_compute in Hin.
      repeat (destruct Hin as [Hin|Hin]; [discriminate|]). exact Hin. }
  destruct (upload_missing_columns_rejected id "20240103_101500" "orders.csv"
              demo_raw_no_supplier demo_files Hok Hmiss) as (Hreply & Hnames & Hraw & _).
  split; [exact Hreply|]. split.
  - apply Hnames.
    + apply list_elem_of_In. vm_compute. repeat (first [left; reflexivity | right]).
    + intros Hin. apply list_elem_of_In in Hin. vm_compute in Hin.
      repeat (destruct Hin as [Hin|Hin]; [discriminate|]). exact Hin.
  - rewrite Hraw. reflexivity.
Defined.

(** The template is uploaded over the raw orders of the project: it is
    installed, and the raw orders it replaces are in the backup. *)
Lemma upload_backs_up_prior_raw_witness :
  let part := Some (Api.Upload "orders.csv" (CsvFile Template.template_data)) in
  let fs' := snd (Api.upload_file id "20240103_101500" part demo_files) in
  fs' !! Api.backup_path "20240103_101500" = Some (CsvFile demo_raw) /\
  fs' !! Api.raw_data_path = Some (CsvFile Template.template_data) /\
  demo_raw <> Template.template_data.
Proof.
  cbv zeta.
  destruct (upload_backs_up_prior_raw id "20240103_101500"
              (Some (Api.Upload "orders.csv" (CsvFile Template.template_data)))
              demo_files _ (CsvFile demo_raw) eq_refl eq_refl eq_refl)
    as (Hbak & (u & Hu & Hraw) & _).
  injection Hu as <-. split; [exact Hbak|]. split; [exact Hraw | discriminate].
Defined.

(** C4 as it is stated fails: the same file uploaded twice within one
    second. Both uploads are answered with status 200; the first one
    puts the raw orders of the project in the backup of that second, the
    second one writes what the first installed over that backup, and the
    raw orders of the project are in no file any more. *)
Lemma reupload_within_a_second_loses_prior_raw :
  let ts := "20240103_101500" in
  let part := Some (Api.Upload "orders.csv" (CsvFile Template.template_data)) in
  let up1 := Api.upload_file id ts part demo_files in
  let up2 := Api.upload_file id ts part (snd up1) in
  demo_files !! Api.raw_data_path = Some (CsvFile demo_raw) /\
  (exists body, fst up1 = Ok (Reply body 200)) /\
  (exists body, fst up2 = Ok (Reply body 200)) /\
  snd up1 !! Api.backup_path ts = Some (CsvFile demo_raw) /\
  (forall p, snd up2 !! p <> Some (CsvFile demo_raw)).
Proof.
  cbv zeta. split; [reflexivity|].
  split; [eexists; vm_compute; reflexivity|].
  split; [eexists; vm_compute; reflexivity|].
  split; [vm_compute; reflexivity|].
  assert (map_Forall (fun _ f => f <> CsvFile demo_raw)
            (snd (Api.upload_file id "20240103_101500"
                    (Some (Api.Upload "orders.csv" (CsvFile Template.template_data)))
                    (snd (Api.upload_file id "20240103_101500"
                            (Some (Api.Upload "orders.csv" (CsvFile Template.template_data)))
                            demo_files))))) as Hall
    by (apply (bool_decide_unpack _); vm_compute; exact I).
  intros p Hp. exact (Hall p _ Hp eq_refl).
Qed.

(** A pipeline that ends with code 1 after 12 seconds. *)
Lemma process_data_reloads_iff_exit_0_witness :
  let st := Api.startup demo_files in
  let res := Api.process_data (demo_pipeline 12 1 "step 1" "Traceback") st in
  Api.tables (snd res) = Api.tables st /\ fst res = failure_reply "step 1" "Traceback".
Proof.
  assert (is_Some (Api.files (Api.startup demo_files) !! Api.pipeline_script)) as Hs
    by (eexists; reflexivity).
  assert (12 <= 300) as Hsecs by lia.
  destruct (process_data_reloads_iff_exit_0 (Api.startup demo_files) 12
              (fun _ fs => fs) 1 "step 1" "Traceback" Hs Hsecs)
    as (_ & _ & Hfail & _).
  destruct Hfail as (Ht & Hr & _); [lia|].
  split; [exact Ht | exact Hr].
Defined.

(** C5 as it is stated fails: two pipelines that end with the codes 1
    and 2 are answered alike, and so are two that end with code 0 and
    differ in their standard error. *)
Lemma process_data_hides_exit_code_and_stderr :
  let st := Api.startup demo_files in
  (fst (Api.process_data (demo_pipeline 12 1 "out" "err") st) =
   fst (Api.process_data (demo_pipeline 12 2 "out" "err") st) /\ 1 <> 2) /\
  (fst (Api.process_data (demo_pipeline 12 0 "out" "warning") st) =
   fst (Api.process_data (demo_pipeline 12 0 "out" "") st) /\ "warning" <> "").
Proof.
  cbv zeta. split; (split; [vm_compute; reflexivity | discriminate]).
Qed.

(** A pipeline that is still running after 301 seconds. *)
Lemma process_data_timeout_is_distinct_witness :
  fst (Api.process_data (demo_pipeline 301 0 "" "") (Api.startup demo_files)) =
    timeout_reply /\
  forall out err, failure_reply out err <> timeout_reply.
Proof.
  assert (is_Some (Api.files (Api.startup demo_files) !! Api.pipeline_script)) as Hs
    by (eexists; reflexivity).
  assert (300 < 301) as Hsecs by lia.
  destruct (process_data_timeout_is_distinct (Api.startup demo_files) 301
              (fun _ fs => fs) 0 "" "" Hs Hsecs) as (Hr & _ & _ & Hd).
  split; [exact Hr | exact Hd].
Defined.



(** The analytics view of the project: its missing standard deviation is
    served as [null]. *)
Lemma nan_rendered_as_null_witness :
  has_nan (JList [JObj [("canonical_item_name", JStr "carbon steel pipe 100mm");
                        ("region", JStr "North");
                        ("avg_price", JFloat (24050 # 20));
                        ("price_std", JNull)]]) = false.
Proof.
  assert (Api.Analytics ∈ [Api.Items; Api.Analytics; Api.Anomalies]) as Hin
    by (apply list_elem_of_further, list_elem_of_here).
  exact (proj1 (nan_rendered_as_null demo_validate demo_compile demo_stats demo_aggregate
                  demo_aggregate demo_aggregate Api.Analytics
                  (Api.tables (Api.startup demo_files)) (Api.ItemsArgs None None None)
                  _ Hin eq_refl)).
Defined.

(** The search for "pipe" in the project's items, one to a page: two of
    the three items match, and the second page has the second of
    them. *)
Lemma get_items_pagination_witness :
  exists std df,
    Api.standardized_df (Api.tables (Api.startup demo_files)) = Some std /\
    Api.search_filter demo_validate demo_compile std "pipe" = Ok df /\
    len std = 3 /\
    Api.get_items demo_validate demo_compile (Api.tables (Api.startup demo_files))
                  (Api.ItemsArgs (Some 2) (Some 1) (Some "pipe")) =
      Ok (Reply (JObj [("items", render_table (columns df) (take 1 (drop 1 (rows df))));
                       ("total", JInt 2);
                       ("page", JInt 2);
                       ("per_page", JInt 1);
                       ("pages", JInt 2)]) 200).
Proof.
  eexists _, _. split; [reflexivity|]. split; [vm_compute; reflexivity|].
  split; [reflexivity|].
  refine (proj1 (get_items_pagination demo_validate demo_compile
                   (Api.tables (Api.startup demo_files)) _ 2 1 "pipe" _
                   eq_refl eq_refl _ _)); lia.
Defined.

(** C9 as it is stated fails: on the loaded tables of the project, the
    first page of 20 for the search "*" is no list of items: the text is
    no pattern and the view raises. So it does for the search "pipe" when
    no raw order names its supplier: the column of supplier names holds
    no text, and the accessor does not take it. *)
Lemma get_items_raises_on_search :
  let c := Api.tables (Api.startup demo_files) in
  let c' := Api.tables (Api.startup
              (<[purchase_orders_raw_csv := CsvFile demo_raw_unnamed]> demo_files)) in
  (exists std, Api.standardized_df c = Some std) /\
  Api.get_items demo_validate demo_compile c
                (Api.ItemsArgs (Some 1) (Some 20) (Some "*")) =
    Raise (PatternError "nothing to repeat at position 0") /\
  (exists std, Api.standardized_df c' = Some std) /\
  Api.get_items demo_validate demo_compile c'
                (Api.ItemsArgs (Some 1) (Some 20) (Some "pipe")) =
    Raise Api.not_string_values.
Proof.
  cbv zeta. split; [eexists; reflexivity|]. split; [vm_compute; reflexivity|].
  split; [eexists; reflexivity|]. vm_compute; reflexivity.
Qed.

(** The project without its anomalies file. *)
Lemma frontend_anomalies_fallback_witness :
  Frontend.load_data (delete anomalies_csv demo_files) =
    Frontend.Loaded demo_raw demo_standardized demo_analytics
                    (DataFrame Frontend.anomalies_columns []).
Proof.
  assert (delete anomalies_csv demo_files !! anomalies_csv = None \/
          delete anomalies_csv demo_files !! anomalies_csv = Some EmptyFile) as Hano
    by (left; apply lookup_delete_eq).
  exact (proj2 (frontend_anomalies_fallback (delete anomalies_csv demo_files) Hano)).
Defined.

(** ** Further runs of the model *)

Example allowed_file_examples :
  Api.allowed_file "orders.CSV" = true /\
  Api.allowed_file "archive.tar.csv" = true /\
  Api.allowed_file "csv" = false /\
  Api.allowed_file "orders.csv.txt" = false /\
  Api.allowed_file "" = false.
Proof. repeat split. Qed.

Example py_slice_examples :
  py_slice [1; 2; 3; 4; 5] 2 4 = [3; 4] /\
  py_slice [1; 2; 3; 4; 5] 4 8 = [5] /\
  py_slice [1; 2; 3; 4; 5] 6 8 = [] /\
  py_slice [1; 2; 3; 4; 5] (-2) 3 = [] /\
  py_slice [1; 2; 3; 4; 5] (-2) 9 = [4; 5].
Proof. repeat split. Qed.

(** When the standardization block raises, the analytics block is not
    entered. *)
Example standardization_fails :
  let env := fun s => match s with
                      | Pipeline.STANDARDIZATION => Pipeline.Raises "No module named 'torch'"
                      | _ => Pipeline.Returns
                      end in
  Pipeline.stages_run env = [Pipeline.STANDARDIZATION] /\
  Pipeline.exit_code (Pipeline.run_pipeline env) = 1 /\
  last (Pipeline.trace (Pipeline.run_pipeline env)) =
    Some (Pipeline.PrintExc "No module named 'torch'").
Proof. repeat split. Qed.

(** A block that leaves through [sys.exit(3)]: the handler does not
    run, nothing more is printed, and the script ends with code 3. *)
Example standardization_exits :
  let env := fun s => match s with
                      | Pipeline.STANDARDIZATION => Pipeline.Exits 3
                      | _ => Pipeline.Returns
                      end in
  Pipeline.stages_run env = [Pipeline.STANDARDIZATION] /\
  Pipeline.exit_code (Pipeline.run_pipeline env) = 3 /\
  last (Pipeline.trace (Pipeline.run_pipeline env)) =
    Some (Pipeline.Enter Pipeline.STANDARDIZATION).
Proof. repeat split. Qed.

(** With the entry points as the specification has them: when the
    analytics stage raises, anomaly detection is not performed and the
    error is reported as one of the analytics block. *)
Example analytics_stage_fails :
  let work := fun s => match s with
                       | Pipeline.ANALYTICS => Pipeline.Raises "no standardized items"
                       | _ => Pipeline.Returns
                       end in
  Pipeline.stages_performed work = [Pipeline.STANDARDIZATION; Pipeline.ANALYTICS] /\
  Pipeline.exit_code (Pipeline.run_pipeline (Pipeline.blocks work)) = 1 /\
  Pipeline.Print "Error in analytics: no standardized items"
    ∈ Pipeline.trace (Pipeline.run_pipeline (Pipeline.blocks work)).
Proof.
  repeat split. apply list_elem_of_In. vm_compute.
  repeat (first [left; reflexivity | right]).
Qed.

(** The third page of three items, two to a page, is empty; a page size
    of 0 makes the view raise. *)
Example items_past_the_end :
  demo_serve Api.Items (Api.tables (Api.startup demo_files))
             (Api.ItemsArgs (Some 3) (Some 2) None) =
    Ok (Reply (JObj [("items", JList []); ("total", JInt 3); ("page", JInt 3);
                     ("per_page", JInt 2); ("pages", JInt 2)]) 200).
Proof. vm_compute. reflexivity. Qed.

Example items_per_page_0 :
  demo_serve Api.Items (Api.tables (Api.startup demo_files))
             (Api.ItemsArgs None (Some 0) None) = Raise ZeroDivisionError.
Proof. vm_compute. reflexivity. Qed.

(** The search keeps the rows whose item name or supplier matches. The
    quantity, a whole number in the raw orders, is served as a float:
    the third item has no raw order, and the join stores the column with
    its gap as floats. *)
Example items_search :
  demo_serve Api.Items (Api.tables (Api.startup demo_files))
             (Api.ItemsArgs None None (Some "abc")) =
    Ok (Reply (JObj [("items",
                      JList [JObj [("po_id", JStr "PO1");
                                   ("item_code", JStr "ITEM_001");
                                   ("canonical_item_name", JStr "carbon steel pipe 100mm");
                                   ("standardization_confidence", JFloat (95 # 100));
                                   ("unit_price", JFloat 1200);
                                   ("supplier_name", JStr "ABC Metals");
                                   ("region", JStr "North");
                                   ("quantity", JFloat 10);
                                   ("unit", JStr "pcs");
                                   ("po_date", JStr "2024-01-01")]]);
                     ("total", JInt 1); ("page", JInt 1);
                     ("per_page", JInt 20); ("pages", JInt 1)]) 200).
Proof. vm_compute. reflexivity. Qed.

(** An anomalies file that cannot be parsed is not covered by the
    fallback of the dashboard's loader. *)
Example frontend_unparsable_anomalies :
  Frontend.load_data (<[anomalies_csv := OtherFile "Error tokenizing data"]> demo_files) =
    Frontend.Stopped "Error loading data: Error tokenizing data".
Proof. vm_compute. reflexivity. Qed.

(** An upload under a name that is not allowed leaves every file as it
    was. *)
Example upload_wrong_extension :
  Api.upload_file id "20240103_101500"
                  (Some (Api.Upload "orders.xlsx" (CsvFile demo_raw))) demo_files =
    (Ok (Reply (error_body "Only CSV files are allowed") 400), demo_files).
Proof. reflexivity. Qed.

(** * Further properties *)

(** ** The orchestrator, continued *)

Section PipelineMore.
Import Pipeline.

Implicit Types (env : stage -> outcome).

(** X1: the guarded blocks are entered in one order and at most once
    each: standardization always, analytics after it and only when
    standardization returned. *)
Theorem stages_run_in_fixed_order env :
  stages_run env `prefix_of` [STANDARDIZATION; ANALYTICS] /\
  NoDup (stages_run env) /\
  STANDARDIZATION ∈ stages_run env /\
  (ANALYTICS ∈ stages_run env <-> env STANDARDIZATION = Returns).
Proof.
  rewrite stages_run_cases. destruct (env STANDARDIZATION) as [|e|code].
  - split; [reflexivity|]. split; [|split].
    + apply NoDup_cons. split; [|apply NoDup_singleton].
      rewrite elem_of_cons, elem_of_nil. intros [[=]|[]].
    + apply list_elem_of_here.
    + split; [reflexivity|]. intros _. apply list_elem_of_further, list_elem_of_here.
  - split; [exists [ANALYTICS]; reflexivity|]. split; [apply NoDup_singleton|].
    split; [apply list_elem_of_here|].
    rewrite elem_of_cons, elem_of_nil. split; [intros [[=]|[]] | discriminate].
  - split; [exists [ANALYTICS]; reflexivity|]. split; [apply NoDup_singleton|].
    split; [apply list_elem_of_here|].
    rewrite elem_of_cons, elem_of_nil. split; [intros [[=]|[]] | discriminate].
Qed.

(** X2: the exit code of the script is 0 when both guarded blocks
    return, 1 when an entered block raises an [Exception], and the code
    of the exit when an entered block leaves through [SystemExit]. The
    success line is printed exactly when both blocks return, so that a
    run that printed it ends with code 0; a run can end with code 0
    without it, when a block calls [sys.exit(0)]. *)
Theorem run_pipeline_exit_code env :
  let r := run_pipeline env in
  exit_code r =
    match env STANDARDIZATION with
    | Returns =>
        match env ANALYTICS with
        | Returns => 0
        | Raises _ => 1
        | Exits code => code
        end
    | Raises _ => 1
    | Exits code => code
    end /\
  (Print "PIPELINE COMPLETED SUCCESSFULLY!" ∈ trace r <->
     env STANDARDIZATION = Returns /\ env ANALYTICS = Returns) /\
  (Print "PIPELINE COMPLETED SUCCESSFULLY!" ∈ trace r -> exit_code r = 0) /\
  (env STANDARDIZATION = Exits 0 ->
     exit_code r = 0 /\ Print "PIPELINE COMPLETED SUCCESSFULLY!" ∉ trace r).
Proof.
  cbv zeta. split; [apply exit_code_cases|]. split; [apply success_line_iff|]. split.
  - intros Hin. apply success_line_iff in Hin as [H1 H2].
    rewrite exit_code_cases, H1, H2. reflexivity.
  - intros H0. split; [rewrite exit_code_cases, H0; reflexivity|].
    rewrite success_line_iff, H0. intros [[=] _].
Qed.

(** X3: the trigger on top of the orchestrator. When the child process
    ends, within the timeout, with the exit code of the script, the
    answer follows the way the entered blocks end: when both return, or
    one leaves through [sys.exit(0)], the success response, with the
    tables loaded again; when one raises, or leaves through an exit with
    another code, the "Processing failed" response, with the cached
    tables as they were. *)
Theorem process_data_follows_pipeline env st secs writes out err :
  is_Some (Api.files st !! Api.pipeline_script) ->
  secs <= 300 ->
  let res := Api.process_data
               (Api.Runs secs writes (exit_code (run_pipeline env)) out err) st in
  let fs' := writes secs (Api.files st) in
  let succeeds :=
    fst res = success_reply out (Api.load_data fs') /\
    Api.tables (snd res) = Api.load_data fs' in
  let fails :=
    fst res = failure_reply out err /\
    Api.tables (snd res) = Api.tables st in
  let after block :=
    match block with
    | Returns => succeeds
    | Raises _ => fails
    | Exits code => if code =? 0 then succeeds else fails
    end in
  match env STANDARDIZATION with
  | Returns => after (env ANALYTICS)
  | ended => after ended
  end.
Proof.
  intros Hs Hsecs. cbv zeta.
  rewrite (process_data_completed st secs writes _ out err Hs Hsecs). cbv zeta.
  rewrite exit_code_cases.
  destruct (env STANDARDIZATION) as [|e1|c1]; [destruct (env ANALYTICS) as [|e2|c2]| |];
    try (split; reflexivity).
  - destruct (c2 =? 0); split; reflexivity.
  - destruct (c1 =? 0); split; reflexivity.
Qed.

End PipelineMore.

(** The analytics block leaves through [sys.exit(0)]: the trigger
    reports a success. *)
Lemma process_data_follows_pipeline_witness :
  let env := fun s => match s with
                      | Pipeline.ANALYTICS => Pipeline.Exits 0
                      | _ => Pipeline.Returns
                      end in
  let res := Api.process_data
               (Api.Runs 12 (fun _ fs => fs)
                         (Pipeline.exit_code (Pipeline.run_pipeline env)) "out" "err")
               (Api.startup demo_files) in
  fst res = success_reply "out" (Api.load_data demo_files) /\
  Api.tables (snd res) = Api.load_data demo_files.
Proof.
  intros env.
  assert (is_Some (Api.files (Api.startup demo_files) !! Api.pipeline_script)) as Hs
    by (eexists; reflexivity).
  assert (12 <= 300) as Hsecs by lia.
  exact (process_data_follows_pipeline env (Api.startup demo_files) 12
           (fun _ fs => fs) "out" "err" Hs Hsecs).
Defined.

(** ** Ingestion, continued *)

Section UploadMore.
Import Api.

Variable secure_filename : string -> string.

Lemma after_last_dot_dotless s found :
  dotless s = true -> after_last_dot s found = found.
Proof.
  revert found. induction s as [|a s IH]; intros found H; [reflexivity|].
  cbn in H. apply andb_prop in H as [Ha Hs]. cbn.
  destruct (Ascii.eqb a "."); [discriminate | now apply IH].
Qed.

Lemma after_last_dot_app stem ext found :
  dotless ext = true ->
  after_last_dot (stem +:+ "." +:+ ext) found = Some ext.
Proof.
  intros Hext. revert found. induction stem as [|a stem IH]; intros found.
  - change (after_last_dot ext (Some ext) = Some ext).
    now apply after_last_dot_dotless.
  - change (String a stem +:+ "." +:+ ext) with (String a (stem +:+ "." +:+ ext)).
    cbn [after_last_dot]. destruct (Ascii.eqb a "."); apply IH.
Qed.

Lemma after_last_dot_Some s found ext :
  after_last_dot s found = Some ext ->
  (dotless s = true /\ found = Some ext) \/
  exists stem, s = stem +:+ "." +:+ ext /\ dotless ext = true.
Proof.
  revert found. induction s as [|a s IH]; intros found H.
  - left. split; [reflexivity | exact H].
  - cbn [after_last_dot] in H. destruct (Ascii.eqb a ".") eqn:Ha.
    + apply Ascii.eqb_eq in Ha as ->. right.
      apply IH in H as [[Hs [= <-]]|(stem & -> & Hext)].
      * exists "". split; [reflexivity | exact Hs].
      * exists (String "." stem). split; [reflexivity | exact Hext].
    + apply IH in H as [[Hs ->]|(stem & -> & Hext)].
      * left. split; [|reflexivity]. cbn. now rewrite Ha.
      * right. exists (String a stem). split; [reflexivity | exact Hext].
Qed.

(** X4: a file name is allowed exactly when it ends in a dot followed by
    "csv" in any mix of upper and lower case: only the part after the
    last dot counts, and a name without a dot is not allowed. *)
Theorem allowed_file_iff name :
  allowed_file name = true <->
  exists stem ext,
    name = stem +:+ "." +:+ ext /\ dotless ext = true /\ lower ext = "csv".
Proof.
  unfold allowed_file. split.
  - destruct (after_last_dot name None) as [ext|] eqn:H; [|discriminate].
    intros Hext. apply bool_decide_eq_true_1 in Hext.
    unfold ALLOWED_EXTENSIONS in Hext. rewrite elem_of_cons, elem_of_nil in Hext.
    destruct Hext as [Hext|[]].
    apply after_last_dot_Some in H as [[_ [=]]|(stem & -> & Hdot)].
    exists stem, ext. auto.
  - intros (stem & ext & -> & Hdot & Hext).
    rewrite (after_last_dot_app stem ext None Hdot).
    apply bool_decide_eq_true_2. rewrite Hext. apply list_elem_of_here.
Qed.

(** A request that is turned down before anything is saved. *)
Lemma upload_file_early ts part fs :
  part = None \/ (exists u, part = Some u /\ allowed_file (filename u) = false) ->
  exists msg,
    upload_file secure_filename ts part fs = (Ok (Reply (error_body msg) 400), fs).
Proof.
  intros [->|(u & -> & Hno)].
  - eexists. reflexivity.
  - unfold upload_file, io_try. rewrite Hno. cbn [negb].
    case_bool_decide; eexists; reflexivity.
Qed.

(** X5: a request without a file part, or with a file name that is not
    allowed (the empty name is not), is answered with status 400 before
    anything is saved: every file is as it was. *)
Theorem upload_rejected_before_saving ts part fs :
  part = None \/ (exists u, part = Some u /\ allowed_file (filename u) = false) ->
  exists msg,
    fst (upload_file secure_filename ts part fs) = Ok (Reply (error_body msg) 400) /\
    snd (upload_file secure_filename ts part fs) = fs.
Proof.
  intros H. destruct (upload_file_early ts part fs H) as [msg ->].
  exists msg. split; reflexivity.
Qed.

(** X6: an upload with an allowed name whose content is not a table is
    answered with status 400 and "Invalid CSV format: " followed by the
    parser's message; the saved copy is removed and every other file is
    as it was. *)
Theorem upload_unparsable_rejected ts name f e fs :
  allowed_file name = true ->
  parse_error f = Some e ->
  let res := upload_file secure_filename ts (Some (Upload name f)) fs in
  fst res = Ok (Reply (error_body ("Invalid CSV format: " +:+ exn_str e)) 400) /\
  snd res !! upload_path secure_filename ts name = None /\
  (forall p, p <> upload_path secure_filename ts name -> snd res !! p = fs !! p).
Proof.
  intros Hok He. pose proof (allowed_file_nonempty name Hok) as Hne. cbv zeta.
  unfold upload_file, io_try. cbn [filename content].
  rewrite bool_decide_eq_false_2 by assumption. rewrite Hok. cbn [negb].
  unfold mbind, io_bind, save, io_read_csv, read_csv.
  rewrite lookup_insert_eq. fold (upload_path secure_filename ts name).
  destruct f as [|df|why]; [|discriminate|]; injection He as <-;
    unfold exists_, os_remove, mret, io_ret;
    rewrite lookup_insert_eq, bool_decide_eq_true_2 by eauto;
    rewrite lookup_insert_eq; cbn [fst snd];
    (split; [reflexivity|]); (split; [apply lookup_delete_eq|]);
    intros p Hp; rewrite lookup_delete_ne by congruence;
    now rewrite lookup_insert_ne by congruence.
Qed.

(** What an upload does to the files, by the way it ends. *)
Lemma upload_file_not_200 ts part fs r :
  fst (upload_file secure_filename ts part fs) = Ok r ->
  status_of r <> 200 ->
  snd (upload_file secure_filename ts part fs) = fs \/
  exists name f,
    part = Some (Upload name f) /\
    snd (upload_file secure_filename ts part fs) =
      delete (upload_path secure_filename ts name)
             (<[upload_path secure_filename ts name := f]> fs).
Proof.
  intros Hr Hst.
  destruct part as [[name f]|]; [|left; reflexivity].
  destruct (allowed_file name) eqn:Hok.
  - right. exists name, f. split; [reflexivity|].
    destruct f as [|df|why].
    + destruct (upload_file_unparsable secure_filename ts name EmptyFile fs Hok)
        as [msg E]; [discriminate|]. now rewrite E.
    + rewrite (upload_file_csv secure_filename ts name df fs Hok) in Hr |- *.
      cbv zeta in Hr |- *. case_bool_decide; [reflexivity|].
      injection Hr as <-. now destruct Hst.
    + destruct (upload_file_unparsable secure_filename ts name (OtherFile why) fs Hok)
        as [msg E]; [discriminate|]. now rewrite E.
  - left.
    destruct (upload_file_early ts (Some (Upload name f)) fs) as [msg E];
      [right; eexists; split; [reflexivity | exact Hok]|].
    now rewrite E.
Qed.

(** X7: an upload that is not answered with status 200 touches neither
    the raw-data file nor any backup of it. *)
Theorem upload_rejected_keeps_raw_data ts part fs r :
  fst (upload_file secure_filename ts part fs) = Ok r ->
  status_of r <> 200 ->
  let fs' := snd (upload_file secure_filename ts part fs) in
  fs' !! raw_data_path = fs !! raw_data_path /\
  (forall ts', fs' !! backup_path ts' = fs !! backup_path ts').
Proof.
  intros Hr Hst. cbv zeta.
  destruct (upload_file_not_200 ts part fs r Hr Hst) as [->|(name & f & _ & ->)];
    [split; reflexivity|].
  unfold upload_path. split; [|intros ts'];
    rewrite lookup_delete_ne, lookup_insert_ne;
    auto using upload_path_not_raw, upload_path_not_backup.
Qed.

(** X8: an upload answered with status 200 keeps its saved copy in the
    upload folder, reports the rows and columns of the table, and
    changes no file besides that copy, the raw-data file and the backup
    of its timestamp; without a raw-data file to replace it writes no
    backup. *)
Theorem upload_success_effects ts part fs r :
  fst (upload_file secure_filename ts part fs) = Ok r ->
  status_of r = 200 ->
  let fs' := snd (upload_file secure_filename ts part fs) in
  exists name df,
    part = Some (Upload name (CsvFile df)) /\
    r = Reply (JObj [("message", JStr "File uploaded successfully");
                     ("filename",
                      JStr ("upload_" +:+ ts +:+ "_" +:+ secure_filename name));
                     ("rows", JInt (len df));
                     ("columns", JList (JStr <$> columns df))]) 200 /\
    fs' !! upload_path secure_filename ts name = Some (CsvFile df) /\
    fs' !! raw_data_path = Some (CsvFile df) /\
    (fs !! raw_data_path = None -> fs' !! backup_path ts = fs !! backup_path ts) /\
    (forall p, p <> upload_path secure_filename ts name ->
               p <> raw_data_path -> p <> backup_path ts ->
               fs' !! p = fs !! p).
Proof.
  intros Hr H200. cbv zeta.
  destruct (upload_file_success secure_filename ts part fs r Hr H200)
    as (name & df & -> & Hok & Hmiss).
  exists name, df. split; [reflexivity|].
  rewrite (upload_file_csv secure_filename ts name df fs Hok) in Hr |- *.
  cbv zeta in Hr |- *. rewrite Hmiss in Hr |- *.
  rewrite bool_decide_eq_false_2 in Hr |- * by (intros E; now apply E).
  cbn [fst snd] in Hr |- *. injection Hr as <-.
  pose proof (upload_path_not_raw ("upload_" +:+ ts +:+ "_" +:+ secure_filename name))
    as Hraw.
  pose proof (upload_path_not_backup ("upload_" +:+ ts +:+ "_" +:+ secure_filename name) ts)
    as Hbak.
  pose proof (backup_path_not_raw ts) as Hbr.
  fold (upload_path secure_filename ts name) in Hraw, Hbak.
  split; [reflexivity|].
  destruct (fs !! raw_data_path) as [old|] eqn:Hold.
  - split; [|split; [|split]].
    + rewrite !lookup_insert_ne by congruence. apply lookup_insert_eq.
    + apply lookup_insert_eq.
    + discriminate.
    + intros p H1 H2 H3. now rewrite !lookup_insert_ne by congruence.
  - split; [|split; [|split]].
    + rewrite lookup_insert_ne by congruence. apply lookup_insert_eq.
    + apply lookup_insert_eq.
    + intros _. now rewrite !lookup_insert_ne by congruence.
    + intros p H1 H2 H3. now rewrite !lookup_insert_ne by congruence.
Qed.

(** X9: the template that the API hands out has the required columns,
    in their order; writing it changes no other file; and uploading it
    back under an allowed name is answered with status 200 and installs
    it as the raw data. *)
Theorem template_is_accepted ts name fs fs0 :
  allowed_file name = true ->
  let down := Template.download_template fs0 in
  let up := upload_file secure_filename ts
              (Some (Upload name (CsvFile Template.template_data))) fs in
  columns Template.template_data = required_columns /\
  fst down = Ok (Template.Attachment "purchase_orders_template.csv"
                                     (CsvFile Template.template_data)) /\
  (forall p, p <> Template.template_path -> snd down !! p = fs0 !! p) /\
  (exists body, fst up = Ok (Reply body 200)) /\
  snd up !! raw_data_path = Some (CsvFile Template.template_data).
Proof.
  intros Hok. cbv zeta. split; [reflexivity|]. split; [|split; [|split]].
  - unfold Template.download_template, mbind, io_bind, save, Template.send_file.
    now rewrite lookup_insert_eq.
  - intros p Hp.
    unfold Template.download_template, mbind, io_bind, save, Template.send_file.
    rewrite lookup_insert_eq. cbn [snd]. now rewrite lookup_insert_ne by congruence.
  - rewrite (upload_file_csv secure_filename ts name _ fs Hok). eexists. reflexivity.
  - rewrite (upload_file_csv secure_filename ts name _ fs Hok). cbn [snd].
    apply lookup_insert_eq.
Qed.

End UploadMore.

Lemma upload_rejected_before_saving_witness :
  exists msg,
    fst (Api.upload_file id "20240103_101500"
           (Some (Api.Upload "orders.xlsx" (CsvFile demo_raw))) demo_files) =
      Ok (Reply (error_body msg) 400) /\
    snd (Api.upload_file id "20240103_101500"
           (Some (Api.Upload "orders.xlsx" (CsvFile demo_raw))) demo_files) =
      demo_files.
Proof.
  apply (upload_rejected_before_saving id). right. eexists. split; reflexivity.
Defined.

Lemma upload_unparsable_rejected_witness :
  fst (Api.upload_file id "20240103_101500"
         (Some (Api.Upload "orders.csv" EmptyFile)) demo_files) =
    Ok (Reply (error_body "Invalid CSV format: No columns to parse from file") 400).
Proof.
  exact (proj1 (upload_unparsable_rejected id "20240103_101500" "orders.csv" EmptyFile
                  EmptyDataError demo_files eq_refl eq_refl)).
Defined.

Lemma upload_rejected_keeps_raw_data_witness :
  snd (Api.upload_file id "20240103_101500"
         (Some (Api.Upload "orders.csv" (CsvFile demo_raw_no_supplier))) demo_files)
    !! Api.raw_data_path = demo_files !! Api.raw_data_path.
Proof.
  refine (proj1 (upload_rejected_keeps_raw_data id "20240103_101500"
                   (Some (Api.Upload "orders.csv" (CsvFile demo_raw_no_supplier)))
                   demo_files _ eq_refl _)).
  discriminate.
Defined.

Lemma upload_success_effects_witness :
  exists name df,
    Some (Api.Upload "orders.csv" (CsvFile demo_raw)) =
      Some (Api.Upload name (CsvFile df)) /\
    snd (Api.upload_file id "20240103_101500"
           (Some (Api.Upload "orders.csv" (CsvFile demo_raw))) demo_files)
      !! upload_path id "20240103_101500" name = Some (CsvFile df).
Proof.
  destruct (upload_success_effects id "20240103_101500"
              (Some (Api.Upload "orders.csv" (CsvFile demo_raw))) demo_files _
              eq_refl eq_refl) as (name & df & Hpart & _ & Hsaved & _).
  exists name, df. split; [exact Hpart | exact Hsaved].
Defined.

Lemma template_is_accepted_witness :
  snd (Api.upload_file id "20240103_101500"
         (Some (Api.Upload "purchase_orders_template.csv"
                           (CsvFile Template.template_data))) demo_files)
    !! Api.raw_data_path = Some (CsvFile Template.template_data).
Proof.
  exact (proj2 (proj2 (proj2 (proj2
           (template_is_accepted id "20240103_101500" "purchase_orders_template.csv"
              demo_files ∅ eq_refl))))).
Defined.

(** ** Loading, continued *)

Section LoadMore.
Import Api.

Lemma col_index_Some cols c : is_Some (col_index cols c) <-> c ∈ cols.
Proof.
  unfold col_index. split.
  - intros [i Hi]. apply fmap_Some in Hi as ([i' x] & Hfind & ->).
    apply list_find_Some in Hfind as (Hl & -> & _).
    apply list_elem_of_lookup. eauto.
  - intros Hin. destruct (list_find_elem_of (fun x => x = c) cols c Hin eq_refl)
      as [[i x] Hfind]. rewrite Hfind. eauto.
Qed.

Lemma col_index_None cols c : col_index cols c = None <-> c ∉ cols.
Proof.
  rewrite <- col_index_Some, eq_None_not_Some. reflexivity.
Qed.

Lemma lookup_columns_Ok have want :
  (exists idx, lookup_columns have want = Ok idx) <-> (forall c, c ∈ want -> c ∈ have).
Proof.
  induction want as [|c want IH]; cbn [lookup_columns].
  - split; [intros _ c Hc; now apply elem_of_nil in Hc | eauto].
  - split.
    + destruct (col_index have c) as [i|] eqn:Hc; [|intros [idx [=]]].
      destruct (lookup_columns have want) as [idx'|] eqn:Hw; [|intros [idx [=]]].
      intros _ c' Hc'. apply elem_of_cons in Hc' as [->|Hc'].
      * apply col_index_Some. eauto.
      * apply (proj1 IH); eauto.
    + intros Hall.
      destruct (proj2 (col_index_Some have c)) as [i ->];
        [apply Hall, list_elem_of_here|].
      destruct (proj2 IH) as [idx ->];
        [intros c' Hc'; apply Hall, list_elem_of_further, Hc'|].
      eexists. reflexivity.
Qed.

Lemma select_columns_Ok df cols :
  (exists df', select_columns df cols = Ok df') <->
  (forall c, c ∈ cols -> c ∈ columns df).
Proof.
  rewrite <- lookup_columns_Ok. unfold select_columns. split.
  - destruct (lookup_columns (columns df) cols) as [idx|]; [eauto | intros [df' [=]]].
  - intros [idx ->]. eexists. reflexivity.
Qed.

Lemma select_columns_columns df cols df' :
  select_columns df cols = Ok df' -> columns df' = cols.
Proof.
  unfold select_columns. destruct (lookup_columns (columns df) cols); [|discriminate].
  now intros [= <-].
Qed.

(** [load_data] as one case distinction. *)
Lemma load_data_cases fs :
  load_data fs =
    match read_csv fs standardized_items_csv, read_csv fs cost_analytics_csv,
          read_csv fs anomalies_csv, read_csv fs purchase_orders_raw_csv with
    | Ok std, Ok ana, Ok ano, Ok raw =>
        match select_columns raw joined_columns with
        | Ok wanted =>
            match merge_left "po_id" std wanted with
            | Ok merged =>
                Cache (Some (rename [("supplier", "supplier_name");
                                     ("confidence_score", "standardization_confidence")]
                                    merged))
                      (Some ana) (Some ano)
            | Raise _ => Cache None None None
            end
        | Raise _ => Cache None None None
        end
    | _, _, _, _ => Cache None None None
    end.
Proof.
  unfold load_data.
  destruct (read_csv fs standardized_items_csv) as [std|]; [|reflexivity].
  destruct (read_csv fs cost_analytics_csv) as [ana|]; [|reflexivity].
  destruct (read_csv fs anomalies_csv) as [ano|]; [|reflexivity].
  destruct (read_csv fs purchase_orders_raw_csv) as [raw|]; [|reflexivity].
  cbn [mbind result_bind]. fold joined_columns.
  destruct (select_columns raw joined_columns) as [wanted|]; [|reflexivity].
  cbn [mbind result_bind].
  destruct (merge_left "po_id" std wanted) as [merged|]; reflexivity.
Qed.

Lemma merge_left_Ok key left right :
  (exists df, merge_left key left right = Ok df) <->
  key ∈ columns left /\ key ∈ columns right /\
  keys_clash (key_cells key left) (key_cells key right) = false.
Proof.
  rewrite <- !col_index_Some. unfold merge_left, key_cells.
  destruct (col_index (columns left) key) as [il|], (col_index (columns right) key) as [ir|].
  - destruct (keys_clash (column_cells left il) (column_cells right ir)).
    + split; [intros [df [=]] | intros (_ & _ & [=])].
    + split; [eauto | intros _; eexists; reflexivity].
  - split; [intros [df [=]] | intros (_ & [? [=]] & _)].
  - split; [intros [df [=]] | intros ([? [=]] & _)].
  - split; [intros [df [=]] | intros ([? [=]] & _)].
Qed.

Lemma lookup_columns_cons have c want idx' :
  lookup_columns have (c :: want) = Ok idx' ->
  exists i idx, col_index have c = Some i /\ idx' = i :: idx.
Proof.
  cbn [lookup_columns]. destruct (col_index have c) as [i|]; [|discriminate].
  destruct (lookup_columns have want) as [idx|]; [|discriminate].
  intros [= <-]. eauto.
Qed.

Lemma select_joined_columns raw wanted :
  select_columns raw joined_columns = Ok wanted ->
  exists i idx,
    col_index (columns raw) "po_id" = Some i /\
    columns wanted = joined_columns /\
    rows wanted = (fun row => cell row <$> (i :: idx)) <$> rows raw.
Proof.
  unfold select_columns.
  destruct (lookup_columns (columns raw) joined_columns) as [idx'|] eqn:H; [|discriminate].
  apply lookup_columns_cons in H as (i & idx & Hi & ->).
  intros [= <-]. exists i, idx. repeat split. exact Hi.
Qed.

(** The keys of the raw orders that are joined are those of the raw
    file. *)
Lemma key_cells_wanted raw wanted :
  select_columns raw joined_columns = Ok wanted ->
  key_cells "po_id" wanted = key_cells "po_id" raw.
Proof.
  intros H. apply select_joined_columns in H as (i & idx & Hi & Hcols & Hrows).
  unfold key_cells, column_cells. rewrite Hcols, Hi, Hrows.
  change (col_index joined_columns "po_id") with (Some 0%nat).
  cbn match. change map with (@fmap list _). rewrite <- list_fmap_compose.
  reflexivity.
Qed.

(** X10: what the API needs to have tables. It has none unless the
    three processed files and the raw file can be read, the raw orders
    have the seven columns that are joined, the standardized items have
    a [po_id] column, and the [po_id] columns of the two files can be
    joined: they are not numbers in one file and text in the other. And
    it has tables when all this holds and the standardized items have
    none of the six joined value columns, so that the join renames no
    column. *)
Theorem load_data_needs fs :
  (load_data fs <> Cache None None None ->
   exists std ana ano raw,
     read_csv fs standardized_items_csv = Ok std /\
     read_csv fs cost_analytics_csv = Ok ana /\
     read_csv fs anomalies_csv = Ok ano /\
     read_csv fs purchase_orders_raw_csv = Ok raw /\
     (forall c, c ∈ joined_columns -> c ∈ columns raw) /\
     "po_id" ∈ columns std /\
     keys_clash (key_cells "po_id" std) (key_cells "po_id" raw) = false) /\
  (forall std ana ano raw,
     read_csv fs standardized_items_csv = Ok std ->
     read_csv fs cost_analytics_csv = Ok ana ->
     read_csv fs anomalies_csv = Ok ano ->
     read_csv fs purchase_orders_raw_csv = Ok raw ->
     (forall c, c ∈ joined_columns -> c ∈ columns raw) ->
     "po_id" ∈ columns std ->
     keys_clash (key_cells "po_id" std) (key_cells "po_id" raw) = false ->
     (forall c, c ∈ columns std -> c ∉ joined_values) ->
     exists merged, load_data fs = Cache (Some merged) (Some ana) (Some ano)).
Proof.
  rewrite load_data_cases. split.
  - destruct (read_csv fs standardized_items_csv) as [std|]; [|now intros []].
    destruct (read_csv fs cost_analytics_csv) as [ana|]; [|now intros []].
    destruct (read_csv fs anomalies_csv) as [ano|]; [|now intros []].
    destruct (read_csv fs purchase_orders_raw_csv) as [raw|]; [|now intros []].
    destruct (select_columns raw joined_columns) as [wanted|] eqn:Hsel; [|now intros []].
    destruct (merge_left "po_id" std wanted) as [merged|] eqn:Hm; [|now intros []].
    intros _. exists std, ana, ano, raw.
    destruct (proj1 (merge_left_Ok "po_id" std wanted)) as (Hk & _ & Hclash); [eauto|].
    rewrite (key_cells_wanted raw wanted Hsel) in Hclash.
    repeat split; try reflexivity; try assumption.
    apply select_columns_Ok. eauto.
  - intros std ana ano raw -> -> -> -> Hcols Hkey Hclash _.
    destruct (proj2 (select_columns_Ok raw joined_columns) Hcols) as [wanted Hsel].
    rewrite Hsel.
    destruct (proj2 (merge_left_Ok "po_id" std wanted)) as [merged ->];
      [|eexists; reflexivity].
    split; [exact Hkey|]. split.
    + rewrite (select_columns_columns _ _ _ Hsel). apply list_elem_of_here.
    + now rewrite (key_cells_wanted raw wanted Hsel).
Qed.

(** X11: the analytics and anomalies tables that are served are the
    tables of the two files, as they are: the views answer with their
    rows, missing values as [null]. *)
Theorem loaded_tables_are_the_files fs std ana ano :
  load_data fs = Cache (Some std) (Some ana) (Some ano) ->
  read_csv fs cost_analytics_csv = Ok ana /\
  read_csv fs anomalies_csv = Ok ano /\
  get_analytics (load_data fs) = Ok (Reply (render_table (columns ana) (rows ana)) 200) /\
  get_anomalies (load_data fs) = Ok (Reply (render_table (columns ano) (rows ano)) 200).
Proof.
  intros Hload. pose proof Hload as Hc. rewrite load_data_cases in Hc.
  destruct (read_csv fs standardized_items_csv) as [std0|]; [|discriminate].
  destruct (read_csv fs cost_analytics_csv) as [ana0|]; [|discriminate].
  destruct (read_csv fs anomalies_csv) as [ano0|]; [|discriminate].
  destruct (read_csv fs purchase_orders_raw_csv) as [raw|]; [|discriminate].
  destruct (select_columns raw joined_columns) as [wanted|]; [|discriminate].
  destruct (merge_left "po_id" std0 wanted) as [merged|]; [|discriminate].
  injection Hc as _ <- <-. rewrite Hload.
  split; [reflexivity|]. split; [reflexivity|]. split.
  - now apply get_analytics_loaded.
  - now apply get_anomalies_loaded.
Qed.

End LoadMore.

(** The project has what the API needs. *)
Lemma load_data_needs_witness :
  exists merged,
    Api.load_data demo_files =
      Api.Cache (Some merged) (Some demo_analytics) (Some demo_anomalies).
Proof.
  refine (proj2 (load_data_needs demo_files) demo_standardized demo_analytics
                demo_anomalies demo_raw eq_refl eq_refl eq_refl eq_refl _ _ eq_refl _).
  - intros c Hc. apply list_elem_of_In in Hc. apply list_elem_of_In.
    vm_compute in Hc |- *. intuition.
  - apply list_elem_of_here.
  - intros c Hc Hin. apply list_elem_of_In in Hc, Hin. cbn in Hc, Hin.
    intuition (subst; discriminate).
Defined.

Lemma loaded_tables_are_the_files_witness :
  Api.get_anomalies (Api.load_data demo_files) =
    Ok (Reply (render_table (columns demo_anomalies) (rows demo_anomalies)) 200).
Proof.
  refine (proj2 (proj2 (proj2
            (loaded_tables_are_the_files demo_files _ demo_analytics demo_anomalies _)))).
  vm_compute. reflexivity.
Defined.

(** ** The join of [load_data] *)

Section JoinFacts.
Import Api.

Lemma length_concat_fmap_ge {A B} (f : A -> list B) (l : list A) :
  (forall a, f a <> []) ->
  (length l <= length (concat (f <$> l)))%nat.
Proof.
  intros Hf. induction l as [|a l IH]; [reflexivity|].
  cbn. rewrite length_app. specialize (Hf a). destruct (f a); [congruence|]. cbn. lia.
Qed.

Lemma concat_fmap_singletons {A B} (f : A -> list B) (R : A -> B -> Prop) (l : list A) :
  (forall a, exists b, f a = [b] /\ R a b) ->
  Forall2 R l (concat (f <$> l)).
Proof.
  intros Hf. induction l as [|a l IH]; [constructor|].
  cbn. destruct (Hf a) as (b & -> & Hb). now constructor.
Qed.

Lemma length_filter_fmap {A B} (g : A -> B) (P : B -> Prop)
    `{!forall b, Decision (P b)} (l : list A) :
  length (filter P (g <$> l)) = length (filter (fun a => P (g a)) l).
Proof.
  induction l as [|a l IH]; [reflexivity|].
  cbn [fmap list_fmap]. rewrite !filter_cons. destruct (decide (P (g a))); cbn; lia.
Qed.

Lemma merge_left_unfold key left right df :
  merge_left key left right = Ok df ->
  exists il ir ints,
    col_index (columns left) key = Some il /\
    col_index (columns right) key = Some ir /\
    rows df = concat (joined_rows il ir (length (delete ir (columns right))) ints
                                  (rows right) <$> rows left) /\
    columns df =
      ((fun c => if bool_decide (c ≠ key ∧ c ∈ delete ir (columns right))
                 then c +:+ "_x" else c) <$> columns left) ++
      ((fun c => if bool_decide (c ∈ delete il (columns left))
                 then c +:+ "_y" else c) <$> delete ir (columns right)).
Proof.
  unfold merge_left.
  destruct (col_index (columns left) key) as [il|]; [|discriminate].
  destruct (col_index (columns right) key) as [ir|]; [|discriminate].
  destruct (keys_clash _ _); [discriminate|].
  intros [= <-]. eexists il, ir, _. repeat split.
Qed.

Lemma joined_rows_nonempty il ir w ints rr lrow : joined_rows il ir w ints rr lrow <> [].
Proof. unfold joined_rows. destruct (filter _ rr); discriminate. Qed.

Lemma joined_rows_single il ir w ints rr lrow :
  (length (filter (fun rrow => value_eqb (cell rrow ir) (cell lrow il) = true) rr) <= 1)%nat ->
  exists row, joined_rows il ir w ints rr lrow = [row] /\ lrow `prefix_of` row.
Proof.
  unfold joined_rows. destruct (filter _ rr) as [|m [|m' ms]]; cbn; intros H.
  - eexists. split; [reflexivity|]. now eexists.
  - eexists. split; [reflexivity|]. now eexists.
  - lia.
Qed.

(** What [load_data] joins. *)
Lemma load_data_join fs std ana ano std_file raw :
  load_data fs = Cache (Some std) (Some ana) (Some ano) ->
  read_csv fs standardized_items_csv = Ok std_file ->
  read_csv fs purchase_orders_raw_csv = Ok raw ->
  exists wanted merged,
    select_columns raw joined_columns = Ok wanted /\
    merge_left "po_id" std_file wanted = Ok merged /\
    std = rename [("supplier", "supplier_name");
                  ("confidence_score", "standardization_confidence")] merged.
Proof.
  intros Hload Hstd Hraw. rewrite load_data_cases, Hstd, Hraw in Hload.
  destruct (read_csv fs cost_analytics_csv); [|discriminate].
  destruct (read_csv fs anomalies_csv); [|discriminate].
  destruct (select_columns raw joined_columns) as [wanted|] eqn:Hsel; [|discriminate].
  destruct (merge_left "po_id" std_file wanted) as [merged|] eqn:Hm; [|discriminate].
  injection Hload as <- _ _. exists wanted, merged. repeat split. exact Hm.
Qed.

(** X12: the served items are the rows of the standardized file, each
    continued with the joined cells of the raw orders: no standardized
    row is lost, and when no two raw orders share a [po_id] there is one
    served item per standardized row, in the order of the file. *)
Theorem load_data_keeps_standardized_rows fs std ana ano std_file raw :
  load_data fs = Cache (Some std) (Some ana) (Some ano) ->
  read_csv fs standardized_items_csv = Ok std_file ->
  read_csv fs purchase_orders_raw_csv = Ok raw ->
  (length (rows std_file) <= length (rows std))%nat /\
  (unique_in "po_id" raw ->
   Forall2 (fun item served => item `prefix_of` served) (rows std_file) (rows std)).
Proof.
  intros Hload Hstd Hraw.
  destruct (load_data_join fs std ana ano std_file raw Hload Hstd Hraw)
    as (wanted & merged & Hsel & Hmerge & ->).
  apply merge_left_unfold in Hmerge as (il & ir & ints & _ & Hir & Hrows & _).
  apply select_joined_columns in Hsel as (i & idx & Hi & Hcols & Hwrows).
  rewrite Hcols in Hir. injection Hir as <-.
  cbn [rename rows]. rewrite Hrows. split.
  - apply length_concat_fmap_ge. intros lrow. apply joined_rows_nonempty.
  - intros Huniq. apply concat_fmap_singletons. intros lrow.
    apply joined_rows_single. rewrite Hwrows.
    rewrite (length_filter_fmap (fun row => cell row <$> (i :: idx))
               (fun rrow => value_eqb (cell rrow 0) (cell lrow il) = true)).
    apply (Huniq i (cell lrow il) Hi).
Qed.

Lemma served_name_rename c :
  match list_find (fun kv : string * string => fst kv = c)
                  [("supplier", "supplier_name");
                   ("confidence_score", "standardization_confidence")] with
  | Some (_, (_, n)) => n
  | None => c
  end = served_name c.
Proof.
  unfold served_name. cbn. repeat case_decide; try reflexivity; congruence.
Qed.

(** X13: when the standardized file has none of the six joined value
    columns, the served items have its columns, [confidence_score] under
    the name [standardization_confidence], followed by [unit_price],
    [supplier_name], [region], [quantity], [unit] and [po_date]. *)
Theorem load_data_columns fs std ana ano std_file :
  load_data fs = Cache (Some std) (Some ana) (Some ano) ->
  read_csv fs standardized_items_csv = Ok std_file ->
  (forall c, c ∈ columns std_file -> c ∉ joined_values) ->
  columns std =
    (served_name <$> columns std_file) ++
    ["unit_price"; "supplier_name"; "region"; "quantity"; "unit"; "po_date"].
Proof.
  intros Hload Hstd Hfresh.
  assert (exists raw, read_csv fs purchase_orders_raw_csv = Ok raw) as [raw Hraw].
  { rewrite load_data_cases, Hstd in Hload.
    destruct (read_csv fs cost_analytics_csv); [|discriminate].
    destruct (read_csv fs anomalies_csv); [|discriminate].
    destruct (read_csv fs purchase_orders_raw_csv); [eauto | discriminate]. }
  destruct (load_data_join fs std ana ano std_file raw Hload Hstd Hraw)
    as (wanted & merged & Hsel & Hmerge & ->).
  apply merge_left_unfold in Hmerge as (il & ir & ints & _ & Hir & _ & Hmcols).
  apply select_joined_columns in Hsel as (i & idx & _ & Hcols & _).
  rewrite Hcols in Hir, Hmcols. injection Hir as <-.
  change (delete 0%nat joined_columns) with joined_values in Hmcols.
  cbn [rename columns]. rewrite Hmcols, fmap_app. f_equal.
  - rewrite <- list_fmap_compose. apply list_fmap_ext. intros j c Hc.
    apply list_elem_of_lookup_2 in Hc. unfold compose.
    rewrite bool_decide_eq_false_2 by (intros [_ Hin]; now apply (Hfresh c Hc)).
    apply served_name_rename.
  - assert (forall c, c ∈ joined_values -> c ∉ delete il (columns std_file)) as Hno.
    { intros c Hc Hin. apply (Hfresh c); [|exact Hc].
      exact (list_elem_of_delete_inv _ _ _ Hin). }
    unfold joined_values in *.
    rewrite !fmap_cons, fmap_nil.
    rewrite !bool_decide_eq_false_2 by (apply Hno; set_solver).
    reflexivity.
Qed.

End JoinFacts.

Lemma load_data_keeps_standardized_rows_witness :
  exists std,
    Api.standardized_df (Api.load_data demo_files) = Some std /\
    Forall2 (fun item served => item `prefix_of` served)
            (rows demo_standardized) (rows std).
Proof.
  eexists. split; [reflexivity|].
  refine (proj2 (load_data_keeps_standardized_rows demo_files _ demo_analytics
                   demo_anomalies demo_standardized demo_raw eq_refl eq_refl eq_refl) _).
  intros i k Hi. vm_compute in Hi. injection Hi as <-.
  assert (~ (value_eqb (VStr "PO1") k = true /\ value_eqb (VStr "PO2") k = true)) as Hx.
  { destruct k; cbn [value_eqb]; intros [H1 H2]; try discriminate H1.
    apply String.eqb_eq in H1, H2. congruence. }
  unfold demo_raw. cbn [rows]. rewrite !filter_cons, filter_nil.
  repeat case_decide; cbn [length]; try lia.
  exfalso. apply Hx. split; assumption.
Defined.

Lemma load_data_columns_witness :
  exists std,
    Api.standardized_df (Api.load_data demo_files) = Some std /\
    columns std =
      ["po_id"; "item_code"; "canonical_item_name"; "standardization_confidence";
       "unit_price"; "supplier_name"; "region"; "quantity"; "unit"; "po_date"].
Proof.
  eexists. split; [reflexivity|].
  refine (load_data_columns demo_files _ demo_analytics demo_anomalies
            demo_standardized eq_refl eq_refl _).
  intros c Hc Hin. apply list_elem_of_In in Hc, Hin. cbn in Hc, Hin.
  intuition (subst; discriminate).
Defined.

(** ** Trigger and serving, continued *)

Section ServingMore.
Import Api.

Variable str_validate : dataframe -> string -> bool.
Variable re_compile : string -> result (string -> bool).
Variable stats_body : dataframe -> dataframe -> option dataframe -> result json.
Variable trends_body : dataframe -> result json.
Variable suppliers_body : dataframe -> result json.
Variable category_counts : dataframe -> result json.

Abbreviation serve' := (Api.serve str_validate re_compile stats_body trends_body suppliers_body
                              category_counts).

(** X14: whatever the pipeline does, the trigger answers with status
    200 or 500; a 500 answer leaves the cached tables as they are, a 200
    answer replaces them by what [load_data] reads from the files the
    pipeline left; and without the pipeline script nothing is run. *)
Theorem process_data_cache_discipline pipeline st :
  let res := process_data pipeline st in
  (status_of (fst res) = 200 \/ status_of (fst res) = 500) /\
  (status_of (fst res) = 500 -> tables (snd res) = tables st) /\
  (status_of (fst res) = 200 -> tables (snd res) = load_data (files (snd res))) /\
  (files st !! pipeline_script = None -> snd res = st).
Proof.
  cbv zeta. unfold process_data. case_bool_decide as Hs.
  - cbn. repeat split; auto; discriminate.
  - destruct pipeline as [msg|secs writes rc out err]; unfold subprocess_run.
    + cbn. repeat split; auto; try discriminate. intros E. now destruct Hs.
    + destruct (300 <? secs).
      * cbn. repeat split; auto; try discriminate. intros E. now destruct Hs.
      * cbn [returncode stdout stderr]. destruct (rc =? 0); cbn;
          repeat split; auto; try discriminate; intros E; now destruct Hs.
Qed.

(** X15: a pipeline that ends with code 0 but leaves one of the four
    data files unreadable is still answered with status 200, with all
    three counts 0; the tables served before are dropped, and from then
    on the views answer as they do without data. *)
Theorem process_data_success_without_outputs st secs writes out err path e endpoint args :
  is_Some (files st !! pipeline_script) ->
  secs <= 300 ->
  path ∈ data_files ->
  read_csv (writes secs (files st)) path = Raise e ->
  let res := process_data (Runs secs writes 0 out err) st in
  fst res = Reply (JObj [("message", JStr "Data processed successfully");
                         ("output", JStr out);
                         ("standardized_items", JInt 0);
                         ("analytics_records", JInt 0);
                         ("anomalies_found", JInt 0)]) 200 /\
  tables (snd res) = Cache None None None /\
  serve' endpoint (tables (snd res)) args = Ok (not_loaded_reply endpoint).
Proof.
  intros Hs Hsecs Hin Hread. cbv zeta.
  rewrite (process_data_completed st secs writes 0 out err Hs Hsecs). cbv zeta.
  cbn [Z.eqb fst snd tables].
  rewrite (load_data_unreadable _ path e Hin Hread).
  split; [reflexivity|]. split; [reflexivity|]. apply serve_not_loaded.
Qed.

(** *** Pages *)

Lemma chunks_concat {A} (p n : nat) (l : list A) :
  (length l <= n * p)%nat ->
  concat ((fun k => take p (drop (k * p) l)) <$> seq 0 n) = l.
Proof.
  revert l. induction n as [|n IH]; intros l Hl.
  - destruct l; [reflexivity | cbn in Hl; lia].
  - cbn [seq]. rewrite fmap_cons. cbn [concat Nat.mul drop].
    rewrite <- fmap_S_seq, <- list_fmap_compose.
    etransitivity; [|apply (take_drop p l)]. f_equal.
    etransitivity; [|apply (IH (drop p l)); rewrite length_drop; lia].
    f_equal. apply list_fmap_ext. intros _ k _. unfold compose.
    rewrite drop_drop. reflexivity.
Qed.

Lemma page_rows_eq df page per_page :
  1 <= page -> 1 <= per_page ->
  page_rows df page per_page =
    take (Z.to_nat per_page) (drop (Z.to_nat ((page - 1) * per_page)) (rows df)).
Proof.
  intros Hp Hpp. unfold page_rows, iloc. cbn [rows]. apply py_slice_page; nia.
Qed.

(** X16: when the search filter returns, every page from the first on
    is answered with status 200 and the rows of that page, and the
    pages, from the first to the last one that [pages] counts, put
    together are the filtered table: no row is left out and none is
    served twice. *)
Theorem get_items_pages_partition c std search df per_page :
  standardized_df c = Some std ->
  search_filter str_validate re_compile std search = Ok df ->
  1 <= per_page ->
  let pages := (len df + per_page - 1) / per_page in
  (forall page, 1 <= page ->
     get_items str_validate re_compile c (ItemsArgs (Some page) (Some per_page) (Some search)) =
       Ok (Reply (items_body (columns df) (page_rows df page per_page)
                             (len df) page per_page pages) 200)) /\
  concat ((fun k => page_rows df (Z.of_nat k + 1) per_page) <$> seq 0 (Z.to_nat pages))
    = rows df.
Proof.
  intros Hstd Hsearch Hpp. cbv zeta. split.
  - intros page Hpage. rewrite (page_rows_eq df page per_page Hpage Hpp).
    now apply (get_items_loaded str_validate re_compile c std
                 (ItemsArgs (Some page) (Some per_page) (Some search)) df).
  - pose proof (ceil_div_bounds (len df) per_page Hpp) as Hb. cbv zeta in Hb.
    unfold len in Hb |- *.
    set (pages := (Z.of_nat (length (rows df)) + per_page - 1) / per_page) in *.
    etransitivity;
      [|apply (chunks_concat (Z.to_nat per_page) (Z.to_nat pages) (rows df)); nia].
    f_equal. apply list_fmap_ext. intros _ k _.
    rewrite page_rows_eq by lia. do 2 f_equal. nia.
Qed.

(** *** Search *)

(** X17: what a search of the items view gives, error by error in the
    order in which the code meets them: [KeyError] without the column of
    item names, [AttributeError] when that column holds no text, the
    error of [re] for a text that is no pattern, then the same two
    checks on the column of supplier names; otherwise the search keeps,
    in their order, exactly the rows whose item name or supplier name is
    a string in which the pattern is found. *)
Theorem search_filter_exact std search :
  search <> "" ->
  search_filter str_validate re_compile std search =
    match col_index (columns std) "canonical_item_name" with
    | None => Raise (KeyError "canonical_item_name")
    | Some i =>
        if negb (str_validate std "canonical_item_name") then Raise not_string_values
        else
          match re_compile search with
          | Raise e => Raise e
          | Ok pat =>
              match col_index (columns std) "supplier_name" with
              | None => Raise (KeyError "supplier_name")
              | Some j =>
                  if negb (str_validate std "supplier_name")
                  then Raise not_string_values
                  else Ok (DataFrame (columns std)
                             (filter (fun row => cell_matches pat (cell row i)
                                                 || cell_matches pat (cell row j) = true)
                                     (rows std)))
              end
          end
    end.
Proof. intros Hne. now apply search_filter_cases. Qed.

(** *** Edge arguments of the items view *)

(** X18: on loaded tables and with a page size of 0, the items view
    raises whatever the page: the error of the search filter when the
    filter raises, for it runs first, and [ZeroDivisionError]
    otherwise. *)
Theorem get_items_per_page_0 c std page search :
  standardized_df c = Some std ->
  get_items str_validate re_compile c (ItemsArgs page (Some 0) search) =
    match search_filter str_validate re_compile std (default "" search) with
    | Ok _ => Raise ZeroDivisionError
    | Raise e => Raise e
    end.
Proof.
  intros Hstd. unfold get_items. rewrite Hstd. cbn [arg_search arg_per_page default].
  destruct (search_filter str_validate re_compile std (default "" search)); reflexivity.
Qed.

(** X19: when the search filter returns, page 0 is answered with status
    200 and no items, the total and the page count being those of the
    other pages. *)
Theorem get_items_page_0 c std per_page search df :
  standardized_df c = Some std ->
  search_filter str_validate re_compile std (default "" search) = Ok df ->
  1 <= per_page ->
  get_items str_validate re_compile c (ItemsArgs (Some 0) (Some per_page) search) =
    Ok (Reply (items_body (columns df) [] (len df) 0 per_page
                          ((len df + per_page - 1) / per_page)) 200).
Proof.
  intros Hstd Hsearch Hpp. unfold get_items. rewrite Hstd.
  cbn [arg_search arg_per_page arg_page from_option id].
  change (from_option id "" search) with (default "" search). rewrite Hsearch.
  cbn [mbind result_bind]. unfold floordiv.
  assert ((per_page =? 0) = false) as -> by lia.
  rewrite records_json_render. unfold iloc. cbn [columns rows mbind result_bind].
  assert (py_slice (rows df) ((0 - 1) * per_page) ((0 - 1) * per_page + per_page) = [])
    as ->; [|reflexivity].
  unfold py_slice, slice_bound.
  assert (((0 - 1) * per_page <? 0) = true) as -> by lia.
  assert (((0 - 1) * per_page + per_page <? 0) = false) as -> by lia.
  replace (Z.to_nat _) with 0%nat by lia. reflexivity.
Qed.

End ServingMore.

Lemma process_data_success_without_outputs_witness :
  Api.tables (snd (Api.process_data
                     (Api.Runs 12 (fun _ fs => delete anomalies_csv fs) 0 "done" "")
                     (Api.startup demo_files))) = Api.Cache None None None.
Proof.
  assert (is_Some (Api.files (Api.startup demo_files) !! Api.pipeline_script)) as Hs
    by (eexists; reflexivity).
  assert (12 <= 300) as Hsecs by lia.
  assert (anomalies_csv ∈ data_files) as Hin
    by (apply list_elem_of_further, list_elem_of_further, list_elem_of_here).
  assert (read_csv (delete anomalies_csv (Api.files (Api.startup demo_files)))
                   anomalies_csv = Raise (FileNotFoundError anomalies_csv)) as Hread
    by (unfold read_csv; now rewrite lookup_delete_eq).
  exact (proj1 (proj2 (process_data_success_without_outputs demo_validate demo_compile
           demo_stats demo_aggregate demo_aggregate demo_aggregate
           (Api.startup demo_files) 12
           (fun _ fs => delete anomalies_csv fs) "done" "" anomalies_csv _
           Api.Items (Api.ItemsArgs None None None) Hs Hsecs Hin Hread))).
Defined.

(** The two items of the project that the search for "pipe" keeps, one
    to a page. *)
Lemma get_items_pages_partition_witness :
  exists std df,
    Api.standardized_df (Api.tables (Api.startup demo_files)) = Some std /\
    Api.search_filter demo_validate demo_compile std "pipe" = Ok df /\
    concat ((fun k => page_rows df (Z.of_nat k + 1) 1) <$> seq 0 2) = rows df.
Proof.
  eexists _, _. split; [reflexivity|]. split; [vm_compute; reflexivity|].
  refine (proj2 (get_items_pages_partition demo_validate demo_compile
                   (Api.tables (Api.startup demo_files)) _ "pipe" _ 1
                   eq_refl eq_refl _)).
  lia.
Defined.

(** The search for "abc" in the project's items keeps the one order of
    the supplier "ABC Metals". *)
Lemma search_filter_exact_witness :
  exists std,
    Api.standardized_df (Api.tables (Api.startup demo_files)) = Some std /\
    Api.search_filter demo_validate demo_compile std "abc" =
      Ok (DataFrame (columns std) (take 1 (rows std))).
Proof.
  eexists. split; [reflexivity|].
  etransitivity; [apply (search_filter_exact demo_validate demo_compile); discriminate|].
  vm_compute. reflexivity.
Defined.

(** A page size of 0: without a search the division fails, under the
    search "(" the filter fails before it. *)
Lemma get_items_per_page_0_witness :
  Api.get_items demo_validate demo_compile (Api.tables (Api.startup demo_files))
                (Api.ItemsArgs (Some 1) (Some 0) None) = Raise ZeroDivisionError /\
  Api.get_items demo_validate demo_compile (Api.tables (Api.startup demo_files))
                (Api.ItemsArgs (Some 1) (Some 0) (Some "(")) =
    Raise (PatternError "missing ), unterminated subpattern at position 0").
Proof.
  split.
  - exact (get_items_per_page_0 demo_validate demo_compile
             (Api.tables (Api.startup demo_files)) _ (Some 1) None eq_refl).
  - exact (get_items_per_page_0 demo_validate demo_compile
             (Api.tables (Api.startup demo_files)) _ (Some 1) (Some "(") eq_refl).
Defined.

(** Page 0 of the search for "pipe" in the project's items. *)
Lemma get_items_page_0_witness :
  exists std df,
    Api.standardized_df (Api.tables (Api.startup demo_files)) = Some std /\
    Api.search_filter demo_validate demo_compile std "pipe" = Ok df /\
    len df = 2 /\
    Api.get_items demo_validate demo_compile (Api.tables (Api.startup demo_files))
                  (Api.ItemsArgs (Some 0) (Some 2) (Some "pipe")) =
      Ok (Reply (items_body (columns df) [] (len df) 0 2 ((len df + 2 - 1) / 2)) 200).
Proof.
  eexists _, _. split; [reflexivity|]. split; [vm_compute; reflexivity|].
  split; [reflexivity|].
  refine (get_items_page_0 demo_validate demo_compile
            (Api.tables (Api.startup demo_files)) _ 2 (Some "pipe") _ eq_refl eq_refl _).
  lia.
Defined.

(** ** The dashboard's filters and counts *)

Section DashboardFacts.
Import Dashboard.

Variable str_validate : dataframe -> string -> bool.
Variable re_compile : string -> result (string -> bool).

Lemma where_eq_inv df col v df' :
  where_eq df col v = Ok df' ->
  exists i,
    col_index (columns df) col = Some i /\
    df' = DataFrame (columns df)
                    (filter (fun row => is_str v (cell row i) = true) (rows df)).
Proof.
  unfold where_eq, column.
  destruct (col_index (columns df) col) as [i|]; [|discriminate].
  cbn [mbind result_bind]. intros [= <-]. exists i. split; [reflexivity|].
  rewrite <- list_fmap_compose.
  change (Api.select_rows df ((is_str v ∘ (fun row => cell row i)) <$> rows df))
    with (DataFrame (columns df)
            (rows (Api.select_rows df ((fun row => is_str v (cell row i)) <$> rows df)))).
  now rewrite select_rows_fmap.
Qed.

Lemma column_inv df col cells :
  column df col = Ok cells ->
  exists i, col_index (columns df) col = Some i /\
            cells = (fun row => cell row i) <$> rows df.
Proof.
  unfold column. destruct (col_index (columns df) col) as [i|]; [|discriminate].
  intros [= <-]. eauto.
Qed.

Lemma filter_sublist {A} (P : A -> Prop) `{!forall x, Decision (P x)} (l : list A) :
  filter P l `sublist_of` l.
Proof.
  induction l as [|x l IH]; [constructor|].
  rewrite filter_cons. destruct (decide (P x)); now constructor.
Qed.

(** The two ways the search step of [apply_filters] can return. *)
Local Ltac search_case H r t :=
  let m1 := fresh "m" in let m2 := fresh "m" in let m3 := fresh "m" in
  let ids := fresh "ids" in let kept := fresh "kept" in
  destruct (Api.contains_mask str_validate re_compile r "item_description" _) as [m1|];
    [|cbn [mbind result_bind] in H; discriminate H];
  destruct (Api.contains_mask str_validate re_compile r "supplier" _) as [m2|];
    [|cbn [mbind result_bind] in H; discriminate H];
  destruct (Api.contains_mask str_validate re_compile r "region" _) as [m3|];
    [|cbn [mbind result_bind] in H; discriminate H];
  cbn [mbind result_bind] in H;
  destruct (column t "po_id") as [ids|] eqn:?;
    [|cbn [mbind result_bind] in H; discriminate H];
  cbn [mbind result_bind] in H;
  destruct (column (Api.select_rows r _) "po_id") as [kept|] eqn:?;
    [|cbn [mbind result_bind] in H; discriminate H];
  cbn [mbind result_bind] in H; injection H as <-; cbn;
  split; [auto|]; split; [first [reflexivity | assumption]|];
  exists m1, m2, m3, ids, kept; auto 10.

Local Ltac no_search_case H := injection H as <-; cbn; auto 10.

(** The filters, step by step: the tables after the region filter, the
    raw orders after the department filter. *)
Lemma apply_filters_inv raw ana std region dept search f :
  apply_filters str_validate re_compile raw ana std region dept search = Ok f ->
  exists raw1 raw2,
    (if bool_decide (region ≠ "All")
     then where_eq raw "region" region = Ok raw1 /\
          where_eq ana "region" region = Ok (filtered_analytics f)
     else raw1 = raw /\ filtered_analytics f = ana) /\
    (if bool_decide (dept ≠ "All")
     then where_eq raw1 "department" dept = Ok raw2
     else raw2 = raw1) /\
    (if bool_decide (search ≠ "")
     then exists by_item by_supplier by_region ids kept,
            Api.contains_mask str_validate re_compile raw2 "item_description" search = Ok by_item /\
            Api.contains_mask str_validate re_compile raw2 "supplier" search = Ok by_supplier /\
            Api.contains_mask str_validate re_compile raw2 "region" search = Ok by_region /\
            filtered_raw f =
              Api.select_rows raw2
                (zip_with orb (zip_with orb by_item by_supplier) by_region) /\
            column std "po_id" = Ok ids /\
            column (filtered_raw f) "po_id" = Ok kept /\
            filtered_standardized f = Api.select_rows std (isin kept <$> ids)
     else filtered_raw f = raw2 /\ filtered_standardized f = std).
Proof.
  unfold apply_filters. intros H.
  destruct (bool_decide (region ≠ "All")) eqn:Hreg.
  - destruct (where_eq raw "region" region) as [raw1|] eqn:H1; [|discriminate].
    destruct (where_eq ana "region" region) as [ana1|] eqn:H2; [|discriminate].
    cbn [mbind result_bind] in H.
    destruct (bool_decide (dept ≠ "All")) eqn:Hdept.
    + destruct (where_eq raw1 "department" dept) as [raw2|] eqn:H3; [|discriminate].
      cbn [mbind result_bind] in H. exists raw1, raw2.
      destruct (bool_decide (search ≠ "")) eqn:Hs; [search_case H raw2 std | no_search_case H].
    + cbn [mbind result_bind] in H. exists raw1, raw1.
      destruct (bool_decide (search ≠ "")) eqn:Hs; [search_case H raw1 std | no_search_case H].
  - cbn [mbind result_bind] in H.
    destruct (bool_decide (dept ≠ "All")) eqn:Hdept.
    + destruct (where_eq raw "department" dept) as [raw2|] eqn:H3; [|discriminate].
      cbn [mbind result_bind] in H. exists raw, raw2.
      destruct (bool_decide (search ≠ "")) eqn:Hs; [search_case H raw2 std | no_search_case H].
    + cbn [mbind result_bind] in H. exists raw, raw.
      destruct (bool_decide (search ≠ "")) eqn:Hs; [search_case H raw std | no_search_case H].
Qed.

Lemma select_rows_eq df (g : list value -> bool) :
  Api.select_rows df (g <$> rows df) =
  DataFrame (columns df) (filter (fun row => g row = true) (rows df)).
Proof.
  change (Api.select_rows df (g <$> rows df))
    with (DataFrame (columns df) (rows (Api.select_rows df (g <$> rows df)))).
  now rewrite select_rows_fmap.
Qed.

Lemma bool_decide_ne_false (x y : string) :
  x = y -> bool_decide (x ≠ y) = false /\ bool_decide (x = y) = true.
Proof.
  intros H. split; [apply bool_decide_eq_false_2; now intros X
                   | now apply bool_decide_eq_true_2].
Qed.

Lemma bool_decide_ne_true (x y : string) :
  x <> y -> bool_decide (x ≠ y) = true /\ bool_decide (x = y) = false.
Proof.
  intros H. split; [now apply bool_decide_eq_true_2 | now apply bool_decide_eq_false_2].
Qed.

(** X20: the filters only remove rows, and each table has its own: the
    analytics are filtered by the region alone, and the standardized
    items by the search alone, so that a region or a department chosen
    without a search leaves the standardized items as they were
    loaded. *)
Theorem dashboard_filters_scope raw ana std region dept search f :
  apply_filters str_validate re_compile raw ana std region dept search = Ok f ->
  (columns (filtered_raw f) = columns raw /\
   rows (filtered_raw f) `sublist_of` rows raw) /\
  (columns (filtered_analytics f) = columns ana /\
   rows (filtered_analytics f) `sublist_of` rows ana) /\
  (columns (filtered_standardized f) = columns std /\
   rows (filtered_standardized f) `sublist_of` rows std) /\
  (region = "All" -> filtered_analytics f = ana) /\
  (search = "" -> filtered_standardized f = std).
Proof.
  intros H. apply apply_filters_inv in H as (raw1 & raw2 & Hreg & Hdept & Hsearch).
  assert (columns raw1 = columns raw /\ rows raw1 `sublist_of` rows raw /\
          columns (filtered_analytics f) = columns ana /\
          rows (filtered_analytics f) `sublist_of` rows ana /\
          (region = "All" -> filtered_analytics f = ana))
    as (Hc1 & Hr1 & Hca & Hra & Hall).
  { destruct (decide (region = "All")) as [Er|Er].
    - rewrite (proj1 (bool_decide_ne_false _ _ Er)) in Hreg.
      destruct Hreg as [-> ->]. repeat split; reflexivity.
    - rewrite (proj1 (bool_decide_ne_true _ _ Er)) in Hreg. destruct Hreg as [H1 H2].
      apply where_eq_inv in H1 as (i & _ & ->). apply where_eq_inv in H2 as (j & _ & ->).
      cbn [columns rows]. repeat split; try apply filter_sublist.
      intros E. now destruct Er. }
  assert (columns raw2 = columns raw /\ rows raw2 `sublist_of` rows raw) as (Hc2 & Hr2).
  { destruct (decide (dept = "All")) as [Ed|Ed].
    - rewrite (proj1 (bool_decide_ne_false _ _ Ed)) in Hdept. subst raw2.
      split; assumption.
    - rewrite (proj1 (bool_decide_ne_true _ _ Ed)) in Hdept.
      apply where_eq_inv in Hdept as (i & _ & ->). cbn [columns rows].
      split; [exact Hc1|]. etransitivity; [apply filter_sublist | exact Hr1]. }
  destruct (decide (search = "")) as [Es|Es].
  - rewrite (proj1 (bool_decide_ne_false _ _ Es)) in Hsearch.
    destruct Hsearch as [-> ->]. repeat split; try assumption; reflexivity.
  - rewrite (proj1 (bool_decide_ne_true _ _ Es)) in Hsearch.
    destruct Hsearch as (m1 & m2 & m3 & ids & kept & _ & _ & _ & Hraw & _ & _ & Hstd).
    rewrite Hraw, Hstd. cbn [columns]. repeat split; try assumption.
    + etransitivity; [apply select_rows_sublist | exact Hr2].
    + apply select_rows_sublist.
    + intros E. now destruct Es.
Qed.

Lemma filter_all {A} (P : A -> Prop) `{!forall x, Decision (P x)} (l : list A) :
  (forall x, P x) -> filter P l = l.
Proof.
  intros HP. induction l as [|x l IH]; [reflexivity|].
  rewrite filter_cons, decide_True by apply HP. now rewrite IH.
Qed.

Lemma filter_andb {A} (p q : A -> bool) (l : list A) :
  filter (fun x => q x = true) (filter (fun x => p x = true) l) =
  filter (fun x => p x && q x = true) l.
Proof.
  induction l as [|x l IH]; [reflexivity|].
  rewrite !filter_cons. destruct (p x) eqn:Hp; cbn [andb].
  - rewrite decide_True by reflexivity. rewrite filter_cons.
    destruct (decide (q x = true)); now rewrite IH.
  - rewrite decide_False by discriminate. rewrite decide_False by discriminate. exact IH.
Qed.

(** X21: when the filters return (under a search, the three searched
    columns hold text and the search is a pattern), the raw orders that
    pass them are, in their order, exactly the rows that have the chosen
    region (any, for "All"), the chosen department (any, for "All") and,
    when there is a search, an item description, supplier or region in
    which the pattern is found. *)
Theorem dashboard_raw_filter_exact raw ana std region dept search f ir id ii is_ pat :
  apply_filters str_validate re_compile raw ana std region dept search = Ok f ->
  col_index (columns raw) "region" = Some ir ->
  col_index (columns raw) "department" = Some id ->
  col_index (columns raw) "item_description" = Some ii ->
  col_index (columns raw) "supplier" = Some is_ ->
  (search <> "" -> re_compile search = Ok pat) ->
  filtered_raw f =
    DataFrame (columns raw)
      (filter (fun row => raw_kept pat region dept search ir id ii is_ row = true)
              (rows raw)).
Proof.
  intros H Hir Hid Hii His Hpat.
  apply apply_filters_inv in H as (raw1 & raw2 & Hreg & Hdept & Hsearch).
  assert (raw1 = DataFrame (columns raw)
            (filter (fun row => bool_decide (region = "All")
                                || is_str region (cell row ir) = true) (rows raw))) as ->.
  { destruct (decide (region = "All")) as [Er|Er].
    - destruct (bool_decide_ne_false _ _ Er) as [E1 E2]. rewrite E1 in Hreg. rewrite E2.
      destruct Hreg as [-> _]. cbn [orb].
      rewrite (filter_all (fun _ => true = true)) by reflexivity. now destruct raw.
    - destruct (bool_decide_ne_true _ _ Er) as [E1 E2]. rewrite E1 in Hreg. rewrite E2.
      destruct Hreg as [H1 _]. apply where_eq_inv in H1 as (i & Hi & ->).
      rewrite Hir in Hi. now injection Hi as <-. }
  assert (raw2 = DataFrame (columns raw)
            (filter (fun row => (bool_decide (region = "All")
                                 || is_str region (cell row ir))
                                && (bool_decide (dept = "All")
                                    || is_str dept (cell row id)) = true) (rows raw))) as ->.
  { rewrite <- filter_andb. destruct (decide (dept = "All")) as [Ed|Ed].
    - destruct (bool_decide_ne_false _ _ Ed) as [E1 E2]. rewrite E1 in Hdept. rewrite E2.
      subst raw2. cbn [orb].
      now rewrite (filter_all (fun _ => true = true)) by reflexivity.
    - destruct (bool_decide_ne_true _ _ Ed) as [E1 E2]. rewrite E1 in Hdept. rewrite E2.
      apply where_eq_inv in Hdept as (i & Hi & ->). cbn [columns rows] in Hi |- *.
      rewrite Hid in Hi. now injection Hi as <-. }
  unfold raw_kept. rewrite <- filter_andb.
  destruct (decide (search = "")) as [Es|Es].
  - destruct (bool_decide_ne_false _ _ Es) as [E1 E2]. rewrite E1 in Hsearch. rewrite E2.
    destruct Hsearch as [-> _]. cbn [orb].
    now rewrite (filter_all (fun _ => true = true)) by reflexivity.
  - destruct (bool_decide_ne_true _ _ Es) as [E1 E2]. rewrite E1 in Hsearch. rewrite E2.
    specialize (Hpat Es).
    destruct Hsearch as (m1 & m2 & m3 & ids & kept & M1 & M2 & M3 & -> & _).
    apply (contains_mask_inv str_validate re_compile) in M1 as (i1 & p1 & Hi1 & _ & Hp1 & ->).
    apply (contains_mask_inv str_validate re_compile) in M2 as (i2 & p2 & Hi2 & _ & Hp2 & ->).
    apply (contains_mask_inv str_validate re_compile) in M3 as (i3 & p3 & Hi3 & _ & Hp3 & ->).
    rewrite Hpat in Hp1, Hp2, Hp3.
    injection Hp1 as <-. injection Hp2 as <-. injection Hp3 as <-.
    cbn [columns rows] in *.
    rewrite Hii in Hi1. rewrite His in Hi2. rewrite Hir in Hi3.
    injection Hi1 as <-. injection Hi2 as <-. injection Hi3 as <-.
    rewrite !zip_with_fmap.
    match goal with |- Api.select_rows ?d (?g <$> _) = _ =>
      etransitivity; [exact (select_rows_eq d g)|] end.
    reflexivity.
Qed.

(** X22: when the filters return under a search, the search is a
    pattern, and the standardized items that stay are, in their order,
    exactly those whose [po_id] is the [po_id] of a raw order that
    passed the filters. *)
Theorem dashboard_standardized_follow_search raw ana std region dept search f :
  apply_filters str_validate re_compile raw ana std region dept search = Ok f ->
  search <> "" ->
  exists i kept pat,
    re_compile search = Ok pat /\
    col_index (columns std) "po_id" = Some i /\
    column (filtered_raw f) "po_id" = Ok kept /\
    filtered_standardized f =
      DataFrame (columns std)
                (filter (fun row => isin kept (cell row i) = true) (rows std)).
Proof.
  intros H Hs. apply apply_filters_inv in H as (raw1 & raw2 & _ & _ & Hsearch).
  rewrite bool_decide_eq_true_2 in Hsearch by assumption.
  destruct Hsearch as (m1 & m2 & m3 & ids & kept & M1 & _ & _ & _ & Hids & Hkept & ->).
  apply (contains_mask_inv str_validate re_compile) in M1 as (i1 & pat & _ & _ & Hpat & _).
  apply column_inv in Hids as (i & Hi & ->).
  exists i, kept, pat. split; [exact Hpat|]. split; [exact Hi|]. split; [exact Hkept|].
  rewrite <- list_fmap_compose.
  apply (select_rows_eq std (fun row => isin kept (cell row i))).
Qed.

(** *** The severity breakdown *)

Lemma count_tier_eq df word i :
  col_index (columns df) "anomaly_reason" = Some i ->
  count_tier str_validate df word =
    if str_validate df "anomaly_reason"
    then Ok (count_rows df i (names_tier word))
    else Raise Api.not_string_values.
Proof.
  intros Hi. unfold count_tier, column, count_rows.
  rewrite bool_decide_eq_true_2 by (apply col_index_Some; eauto).
  rewrite Hi. cbn [mbind result_bind].
  destruct (str_validate df "anomaly_reason"); [|reflexivity].
  rewrite <- list_fmap_compose.
  unfold len. f_equal. f_equal. f_equal.
  apply (select_rows_fmap df (fun row => names_tier word (cell row i))).
Qed.

Lemma count_tier_absent df word :
  col_index (columns df) "anomaly_reason" = None ->
  count_tier str_validate df word = Ok 0.
Proof.
  intros Hi. unfold count_tier.
  now rewrite bool_decide_eq_false_2 by (now apply col_index_None).
Qed.

Lemma count_four {A} (p q : A -> bool) (l : list A) :
  Z.of_nat (length l)
  - Z.of_nat (length (filter (fun x => p x = true) l))
  - Z.of_nat (length (filter (fun x => q x = true) l)) =
  Z.of_nat (length (filter (fun x => negb (p x) && negb (q x) = true) l))
  - Z.of_nat (length (filter (fun x => p x && q x = true) l)).
Proof.
  induction l as [|x l IH]; [reflexivity|].
  rewrite !filter_cons. destruct (p x), (q x); cbn [negb andb];
    repeat case_decide; try discriminate; try congruence; cbn [length]; lia.
Qed.

(** X23: the severity breakdown of a table of anomalies that has rows.
    When the column of reasons holds no text the accessor does not take
    it and the breakdown raises [AttributeError]. Otherwise the count
    shown as "Medium" is the number of anomalies whose reason names
    neither "CRITICAL" nor "HIGH", less the number of those whose reason
    names both, which are counted under both tiers; without an
    [anomaly_reason] column every anomaly is counted as medium. *)
Theorem severity_medium_count df :
  0 < len df ->
  severity_breakdown str_validate df =
    match col_index (columns df) "anomaly_reason" with
    | Some i =>
        if str_validate df "anomaly_reason"
        then Ok (Some (Severity
                   (count_rows df i (names_tier "CRITICAL"))
                   (count_rows df i (names_tier "HIGH"))
                   (count_rows df i (fun c => negb (names_tier "CRITICAL" c)
                                              && negb (names_tier "HIGH" c))
                    - count_rows df i (fun c => names_tier "CRITICAL" c
                                                && names_tier "HIGH" c))))
        else Raise Api.not_string_values
    | None => Ok (Some (Severity 0 0 (len df)))
    end.
Proof.
  intros Hlen. unfold severity_breakdown.
  assert ((0 <? len df) = true) as -> by lia.
  destruct (col_index (columns df) "anomaly_reason") as [i|] eqn:Hi.
  - rewrite !(count_tier_eq df _ i Hi).
    destruct (str_validate df "anomaly_reason"); [|reflexivity].
    cbn [mbind result_bind]. do 3 f_equal.
    unfold len, count_rows.
    apply (count_four (fun row => names_tier "CRITICAL" (cell row i))
                      (fun row => names_tier "HIGH" (cell row i))).
  - rewrite !(count_tier_absent df _ Hi). cbn [mbind result_bind].
    do 3 f_equal. lia.
Qed.

End DashboardFacts.

(** ** The price-trend view *)

Section TrendFacts.
Import Trends.

Variable py_float : value -> result value.

Lemma trends_loop_length cols rows l :
  trends_loop py_float cols rows = Ok l -> length l = length rows.
Proof.
  revert l. induction rows as [|row rows IH]; intros l; cbn [trends_loop].
  - now intros [= <-].
  - destruct (trend_data py_float cols row) as [d|]; [|discriminate].
    cbn [mbind result_bind].
    destruct (trends_loop py_float cols rows) as [ds|]; [|discriminate].
    intros [= <-]. cbn. f_equal. now apply IH.
Qed.

Lemma trends_loop_lookup cols rows l k row :
  trends_loop py_float cols rows = Ok l ->
  rows !! k = Some row ->
  exists d, trend_data py_float cols row = Ok d /\ d ∈ l.
Proof.
  revert l k. induction rows as [|r rows IH]; intros l k; cbn [trends_loop];
    [intros _ Hk; now rewrite lookup_nil in Hk|].
  destruct (trend_data py_float cols r) as [d|] eqn:Hd; [|discriminate].
  cbn [mbind result_bind].
  destruct (trends_loop py_float cols rows) as [ds|] eqn:Hds; [|discriminate].
  intros [= <-] Hk. destruct k as [|k].
  - injection Hk as <-. exists d. split; [exact Hd | apply list_elem_of_here].
  - destruct (IH ds k eq_refl Hk) as (d' & Hd' & Hin).
    exists d'. split; [exact Hd' | now apply list_elem_of_further].
Qed.

Lemma has_nan_list_elem d l : d ∈ l -> has_nan d = true -> has_nan (JList l) = true.
Proof.
  intros Hin Hd. cbn [has_nan]. apply existsb_exists. exists d.
  split; [now apply list_elem_of_In | exact Hd].
Qed.

Lemma row_get_cell cols row col i default :
  col_index cols col = Some i -> row_get cols row col default = cell row i.
Proof. intros H. unfold row_get. now rewrite H. Qed.

(** X24: the price-trend view answers with one entry for each of the
    first ten analytics rows and no more. It writes the cells as they
    are: when one of these rows has no item name or no trend direction,
    or has no value in a price column while [float] gives back what is
    not a number, the answer has the token [NaN] in it. *)
Theorem price_trends_serves_nan c df r k row col i :
  Api.analytics_df c = Some df ->
  Api.get_price_trends (price_trends py_float) c = Ok r ->
  (k < 10)%nat ->
  rows df !! k = Some row ->
  col_index (columns df) col = Some i ->
  cell row i = VNaN ->
  col ∈ trend_labels \/ (col ∈ trend_numbers /\ py_float VNaN = Ok VNaN) ->
  (exists l, r = Reply (JList l) 200 /\
             length l = Nat.min 10 (length (rows df))) /\
  has_nan (body_of r) = true.
Proof.
  intros Hdf Hr Hk Hrow Hi Hnan Hcol.
  unfold Api.get_price_trends in Hr. rewrite Hdf in Hr. unfold price_trends in Hr.
  destruct (trends_loop py_float (columns df) (take 10 (rows df))) as [l|] eqn:Hl;
    [|discriminate].
  cbn [mbind result_bind] in Hr. injection Hr as <-. split.
  - exists l. split; [reflexivity|].
    rewrite (trends_loop_length _ _ _ Hl), length_take. reflexivity.
  - cbn [body_of].
    assert (take 10 (rows df) !! k = Some row) as Hrow'
      by (rewrite lookup_take_lt by exact Hk; exact Hrow).
    destruct (trends_loop_lookup _ _ _ _ _ Hl Hrow') as (d & Hd & Hin).
    apply (has_nan_list_elem d l Hin).
    unfold trend_data in Hd.
    destruct (py_float (row_get (columns df) row "avg_price" (VInt 0)))
      as [a|] eqn:Ha; [|discriminate].
    destruct (py_float (row_get (columns df) row "min_price" (VInt 0)))
      as [mi|] eqn:Hmi; [|discriminate].
    destruct (py_float (row_get (columns df) row "max_price" (VInt 0)))
      as [ma|] eqn:Hma; [|discriminate].
    destruct (py_float (row_get (columns df) row "price_std" (VInt 0)))
      as [va|] eqn:Hva; [|discriminate].
    cbn [mbind result_bind] in Hd. injection Hd as <-.
    unfold trend_labels, trend_numbers in Hcol.
    rewrite !elem_of_cons, !elem_of_nil in Hcol.
    destruct Hcol as [[->|[->|[]]]|[[->|[->|[->|[->|[]]]]] Hf]].
    + rewrite (row_get_cell _ _ _ i _ Hi), Hnan. reflexivity.
    + rewrite (row_get_cell _ _ _ i _ Hi), Hnan. cbn [has_nan existsb snd to_json].
      now rewrite orb_true_r.
    + rewrite (row_get_cell _ _ _ i _ Hi), Hnan, Hf in Ha. injection Ha as <-.
      cbn [has_nan existsb snd to_json]. now rewrite !orb_true_r.
    + rewrite (row_get_cell _ _ _ i _ Hi), Hnan, Hf in Hmi. injection Hmi as <-.
      cbn [has_nan existsb snd to_json]. now rewrite !orb_true_r.
    + rewrite (row_get_cell _ _ _ i _ Hi), Hnan, Hf in Hma. injection Hma as <-.
      cbn [has_nan existsb snd to_json]. now rewrite !orb_true_r.
    + rewrite (row_get_cell _ _ _ i _ Hi), Hnan, Hf in Hva. injection Hva as <-.
      cbn [has_nan existsb snd to_json]. now rewrite !orb_true_r.
Qed.

End TrendFacts.

Lemma price_trends_serves_nan_witness :
  exists r,
    Api.get_price_trends (Trends.price_trends demo_float)
                         (Api.tables (Api.startup demo_files)) = Ok r /\
    has_nan (body_of r) = true.
Proof.
  eexists. split; [reflexivity|].
  refine (proj2 (price_trends_serves_nan demo_float (Api.tables (Api.startup demo_files))
                   demo_analytics _ 0%nat _ "price_std" 3%nat
                   eq_refl eq_refl _ eq_refl eq_refl eq_refl _)).
  - lia.
  - right. split; [|reflexivity]. apply list_elem_of_In. vm_compute. tauto.
Defined.

(** ** The further properties at work on the small project *)

Lemma dashboard_filters_scope_witness :
  exists f,
    Dashboard.apply_filters demo_validate demo_compile demo_raw demo_analytics demo_standardized
                            "North" "Production" "" = Ok f /\
    Dashboard.filtered_standardized f = demo_standardized.
Proof.
  eexists. split; [reflexivity|].
  refine (proj2 (proj2 (proj2 (proj2
            (dashboard_filters_scope demo_validate demo_compile demo_raw demo_analytics
               demo_standardized "North" "Production" "" _ eq_refl)))) eq_refl).
Defined.

(** The orders of the region "North" under the search "abc": the one
    order of the supplier "ABC Metals". *)
Lemma dashboard_raw_filter_exact_witness :
  exists f pat,
    Dashboard.apply_filters demo_validate demo_compile demo_raw demo_analytics
                            demo_standardized "North" "All" "abc" = Ok f /\
    demo_compile "abc" = Ok pat /\
    Dashboard.filtered_raw f =
      DataFrame (columns demo_raw)
        (filter (fun row => raw_kept pat "North" "All" "abc" 6 7 1 8 row = true)
                (rows demo_raw)) /\
    Dashboard.filtered_raw f = DataFrame (columns demo_raw) (take 1 (rows demo_raw)).
Proof.
  eexists _, _. split; [vm_compute; reflexivity|]. split; [reflexivity|].
  split; [|reflexivity].
  refine (dashboard_raw_filter_exact demo_validate demo_compile demo_raw demo_analytics
            demo_standardized "North" "All" "abc" _ 6 7 1 8 _
            eq_refl eq_refl eq_refl eq_refl eq_refl (fun _ => eq_refl)).
Defined.

(** The standardized items under the search "abc": the item of the one
    order that the search keeps. *)
Lemma dashboard_standardized_follow_search_witness :
  exists f i kept,
    Dashboard.apply_filters demo_validate demo_compile demo_raw demo_analytics
                            demo_standardized "All" "All" "abc" = Ok f /\
    Dashboard.column (Dashboard.filtered_raw f) "po_id" = Ok kept /\
    kept = [VStr "PO1"] /\
    Dashboard.filtered_standardized f =
      DataFrame (columns demo_standardized)
        (filter (fun row => Dashboard.isin kept (cell row i) = true)
                (rows demo_standardized)).
Proof.
  assert ("abc" <> "") as Hs by discriminate.
  destruct (dashboard_standardized_follow_search demo_validate demo_compile demo_raw
              demo_analytics demo_standardized "All" "All" "abc" _ eq_refl Hs)
    as (i & kept & pat & _ & _ & Hkept & Hstd).
  eexists _, i, kept. split; [reflexivity|]. split; [exact Hkept|].
  split; [|exact Hstd].
  vm_compute in Hkept. now injection Hkept as <-.
Defined.

(** The four anomalies of the example: two name "CRITICAL", two name
    "HIGH", one of them both, and one names neither. *)
Lemma severity_medium_count_witness :
  Dashboard.severity_breakdown demo_validate demo_flagged =
    Ok (Some (Dashboard.Severity 2 2 (1 - 1))).
Proof.
  etransitivity; [apply (severity_medium_count demo_validate demo_flagged); reflexivity|].
  vm_compute. reflexivity.
Defined.

(** ** More runs of the model *)

(** A negative page counts from the end of the table: page -1 of three
    items, two to a page, is the first item. *)
Example items_negative_page :
  demo_serve Api.Items (Api.Cache (Some demo_standardized) None None)
             (Api.ItemsArgs (Some (-1)) (Some 2) None) =
    Ok (Reply (items_body (columns demo_standardized)
                          (take 1 (rows demo_standardized)) 3 (-1) 2 2) 200).
Proof. vm_compute. reflexivity. Qed.

(** Two raw orders with the same [po_id] make two served items of one
    standardized row. *)
Example duplicate_raw_orders :
  let raw := DataFrame (columns demo_raw) (rows demo_raw ++ take 1 (rows demo_raw)) in
  let fs := <[purchase_orders_raw_csv := CsvFile raw]> demo_files in
  (len <$> Api.standardized_df (Api.load_data fs)) = Some 4 /\
  len demo_standardized = 3.
Proof. split; vm_compute; reflexivity. Qed.

(** Standardized items whose [po_id] are numbers are not joined with
    raw orders whose [po_id] are text: the join raises, and no table is
    loaded. *)
Example numbered_standardized_items :
  let std := DataFrame ["po_id"; "item_code"; "canonical_item_name"; "confidence_score"]
               [[VInt 1; VStr "ITEM_001"; VStr "carbon steel pipe 100mm"; VFloat 1];
                [VInt 2; VStr "ITEM_001"; VStr "carbon steel pipe 100mm"; VFloat 1]] in
  merge_left "po_id" std demo_raw =
    Raise (ValueError ("You are trying to merge on int64 and object columns for key "
                       +:+ "'po_id'. If you wish to proceed you should use pd.concat")) /\
  Api.load_data (<[standardized_items_csv := CsvFile std]> demo_files) =
    Api.Cache None None None.
Proof. split; vm_compute; reflexivity. Qed.

(** Raw orders none of which names its supplier: the dashboard's search
    raises on the column of suppliers, which holds no text. *)
Example dashboard_search_unnamed_suppliers :
  Dashboard.apply_filters demo_validate demo_compile demo_raw_unnamed demo_analytics
                          demo_standardized "All" "All" "pipe" =
    Raise Api.not_string_values.
Proof. vm_compute. reflexivity. Qed.

(** Anomalies none of which has a reason: the severity breakdown
    raises. *)
Example severity_without_reasons :
  Dashboard.severity_breakdown demo_validate
    (DataFrame Frontend.anomalies_columns
       [[VStr "PO3"; VStr "ITEM_001"; VFloat 3000; VFloat (24050 # 20); VBool true; VNaN];
        [VStr "PO4"; VStr "ITEM_001"; VFloat 1800; VFloat (24050 # 20); VBool true; VNaN]]) =
    Raise Api.not_string_values.
Proof. vm_compute. reflexivity. Qed.

(** The dashboard's region filter and the anomaly counts on the
    examples. *)
Example dashboard_region_filter :
  (Dashboard.filtered_analytics <$>
     match Dashboard.apply_filters demo_validate demo_compile demo_raw demo_analytics
                                   demo_standardized "South" "All" "" with
     | Ok f => Some f
     | Raise _ => None
     end) = Some (DataFrame (columns demo_analytics) []).
Proof. vm_compute. reflexivity. Qed.
